(** * Stratum gateway of the pool proxy: a shallow embedding

    The Go code of the stratum server of package proxy (sessions, the
    dispatch of stratum requests, the stale-job cache, the extranonce
    registry and the reader loop) is rendered as Rocq functions over an
    explicit world state. Collaborators whose code lives in other files
    of the proxy (the RPC handlers, the block template, the policy
    server) are fields of an environment record [Env]. Log output is
    left out, and so are the session's mutex and the server's lock: the
    functions of one session run one after the other. *)

From stdpp Require Import base strings gmap list.
From Stdlib Require Import ZArith Ascii String DecimalString Lia.

Local Open Scope Z_scope.

(** ** Go strings *)

Module GoString.

(** [s[lo:hi]]: a run-time panic unless [lo <= hi <= len(s)]. *)
Definition slice (s : string) (lo hi : nat) : option string :=
  if (lo <=? hi)%nat && (hi <=? String.length s)%nat
  then Some (String.substring lo (hi - lo) s)
  else None.

(** [s[lo:]] is [s[lo:len(s)]]. *)
Definition slice_from (s : string) (lo : nat) : option string :=
  slice s lo (String.length s).

(** [strings.HasPrefix]. *)
Definition HasPrefix (s p : string) : bool := String.prefix p s.

(** [strings.Split(s, sep)] for a separator of one byte: the pieces between
    the separators, in order; never the empty list. *)
Fixpoint split_go (sep : ascii) (cur : string) (s : string) : list string :=
  match s with
  | EmptyString => [String.rev cur]
  | String c s' =>
      if Ascii.eqb c sep
      then String.rev cur :: split_go sep EmptyString s'
      else split_go sep (String c cur) s'
  end.

Definition Split (s : string) (sep : ascii) : list string :=
  split_go sep EmptyString s.

(** [strconv.Itoa]. *)
Definition Itoa (z : Z) : string := NilZero.string_of_int (Z.to_int z).

Definition byte_of (z : Z) : ascii := ascii_of_N (Z.to_N z).

(** [string(i)] for an integer [i]: the UTF-8 encoding of the code point
    [i], and of U+FFFD when [i] is not a valid code point. *)
Definition of_rune (c : Z) : string :=
  if (c <? 0) || (0x10FFFF <? c) || ((0xD800 <=? c) && (c <=? 0xDFFF))
  then String (byte_of 0xEF) (String (byte_of 0xBF) (String (byte_of 0xBD) EmptyString))
  else if c <? 0x80 then String (byte_of c) EmptyString
  else if c <? 0x800 then
    String (byte_of (Z.lor 0xC0 (Z.shiftr c 6)))
      (String (byte_of (Z.lor 0x80 (Z.land c 0x3F))) EmptyString)
  else if c <? 0x10000 then
    String (byte_of (Z.lor 0xE0 (Z.shiftr c 12)))
      (String (byte_of (Z.lor 0x80 (Z.land (Z.shiftr c 6) 0x3F)))
         (String (byte_of (Z.lor 0x80 (Z.land c 0x3F))) EmptyString))
  else
    String (byte_of (Z.lor 0xF0 (Z.shiftr c 18)))
      (String (byte_of (Z.lor 0x80 (Z.land (Z.shiftr c 12) 0x3F)))
         (String (byte_of (Z.lor 0x80 (Z.land (Z.shiftr c 6) 0x3F)))
            (String (byte_of (Z.lor 0x80 (Z.land c 0x3F))) EmptyString))).

Definition hex_value (c : ascii) : option Z :=
  let n := Z.of_N (N_of_ascii c) in
  if (48 <=? n) && (n <=? 57) then Some (n - 48)
  else if (97 <=? n) && (n <=? 102) then Some (n - 87)
  else if (65 <=? n) && (n <=? 70) then Some (n - 55)
  else None.

Fixpoint hex_digits (acc : Z) (s : string) : option Z :=
  match s with
  | EmptyString => Some acc
  | String c s' =>
      match hex_value c with
      | Some d => hex_digits (16 * acc + d) s'
      | None => None
      end
  end.

(** [strconv.ParseInt(s, 16, 64)]: an optional sign, then at least one
    hexadecimal digit; [None] stands for a syntax or range error. *)
Definition ParseInt16 (s : string) : option Z :=
  let '(neg, body) :=
    match s with
    | String "+"%char r => (false, r)
    | String "-"%char r => (true, r)
    | _ => (false, s)
    end in
  match body with
  | EmptyString => None
  | _ =>
      match hex_digits 0 body with
      | Some un =>
          if 2 ^ 64 <=? un then None
          else if negb neg && (2 ^ 63 <=? un) then None
          else if neg && (2 ^ 63 <? un) then None
          else Some (if neg then - un else un)
      | None => None
      end
  end.

End GoString.

(** ** Wire data *)

(** A JSON document, as [json.RawMessage] carries it. *)
#[local] Unset Elimination Schemes.
Inductive json :=
| JNull
| JBool (b : bool)
| JNumber (literal : string)
| JString (s : string)
| JArray (items : list json)
| JObject (members : list (string * json)).
#[local] Set Elimination Schemes.

(** A [json.RawMessage]; [None] is the empty message of an absent field. *)
Definition RawMessage := option json.

(** Go's [error] values: [io.EOF] is compared by identity, the others
    only against [nil]. *)
Inductive error :=
| EOF
| Err (msg : string).

Definition element_string (j : json) : option string :=
  match j with
  | JString s => Some s
  | JNull => Some EmptyString
  | _ => None
  end.

Fixpoint elements_strings (l : list json) : option (list string) :=
  match l with
  | [] => Some []
  | j :: l' =>
      match element_string j, elements_strings l' with
      | Some s, Some r => Some (s :: r)
      | _, _ => None
      end
  end.

(** [json.Unmarshal(raw, &params)] for [params []string]: [null] gives the
    nil slice, an array gives its elements ([null] elements stay empty
    strings), and anything else, or an element of another type, is an
    error. *)
Definition Unmarshal_strings (raw : RawMessage) : error + list string :=
  match raw with
  | None => inl (Err "unexpected end of JSON input")
  | Some JNull => inr []
  | Some (JArray l) =>
      match elements_strings l with
      | Some r => inr r
      | None => inl (Err "json: cannot unmarshal into Go value of type string")
      end
  | Some _ => inl (Err "json: cannot unmarshal into Go value of type []string")
  end.

Record StratumReq := {
  Id : RawMessage;
  Method : string;
  Params : RawMessage;
  Worker : string
}.

Record ErrorReply := {
  Code : Z;
  Message : string
}.

(** Values of type [interface{}] handed to the encoder. *)
#[local] Unset Elimination Schemes.
Inductive value :=
| VNil
| VBool (b : bool)
| VString (s : string)
| VStrings (l : list string)
| VDiff (difficulty : Z)              (* util.DiffIntToFloat(difficulty) *)
| VList (l : list value)
| VError (e : ErrorReply).
#[local] Set Elimination Schemes.

(** The three message structs written to a connection. *)
Inductive Frame :=
| JSONRpcResp (id : RawMessage) (version : string) (result : value) (err : value)
| JSONStratumReq (id : value) (method : string) (params : value) (height algo : string)
| JSONPushMessage (version : string) (result : value) (id : Z).

(** ** Sessions and the server *)

Definition EthProxy : Z := 0.
Definition NiceHash : Z := 1.
Definition MaxReqSize : nat := 1024.

Record staleJob := {
  stale_SeedHash : string;
  stale_HeaderHash : string
}.

Record jobDetails := {
  JobID : string;
  SeedHash : string;
  HeaderHash : string;
  Height : string
}.

Record Session := {
  addr : nat;                         (* the address of the Session object *)
  ip : string;
  login : string;
  worker : string;
  stratum : Z;
  Extranonce : string;
  ExtranonceSub : bool;
  JobDetails : jobDetails;
  staleJobs : gmap string staleJob;
  staleJobIDs : list string
}.

Record BlockTemplate := {
  tpl_Header : string;
  tpl_Seed : string;
  tpl_Height : Z
}.

(** What happens around a session, in order. *)
Inductive Event :=
| Sent (f : Frame)                               (* cs.enc.Encode succeeded *)
| BanClient (ip : string)                        (* s.policy.BanClient *)
| ApplyMalformedPolicy (ip : string)             (* s.policy.ApplyMalformedPolicy *)
| LoginRPC (params : list string) (worker : string)
| GetWorkRPC
| SubmitRPC (worker : string) (params : list string)
| UnknownRPC (method : string)
| SetDeadline.

(** The state a session's code reads and writes: the session, the
    server's extranonce set and session table, the connection, and the
    two inputs the surroundings decide: whether each write succeeds
    ([wtape], a missing entry is a success) and how far the random
    generator has been read ([rpos]). *)
Record World := {
  cs : Session;
  Extranonces : gmap string bool;
  sessions : gset nat;
  connClosed : bool;
  trace : list Event;
  wtape : list bool;
  rpos : nat
}.

(** The result of [handleLoginRPC]. *)
Inductive LoginResult :=
| LoginOk (reply : value) (login worker : string)
| LoginErr (e : ErrorReply).

(** The code of the proxy in other files, and the Go library calls whose
    results only the surroundings decide. *)
Record Env := {
  rand_src : nat -> nat;                           (* the i-th draw of math/rand *)
  Unmarshal_req : string -> error + StratumReq;    (* json.Unmarshal(data, &req) *)
  handleLoginRPC : Session -> list string -> string -> LoginResult;
  handleGetWorkRPC : Session -> ErrorReply + list string;
  handleTCPSubmitRPC : Session -> string -> list string -> ErrorReply + value;
  handleUnknownRPC : Session -> string -> ErrorReply;
  currentBlockTemplate : option BlockTemplate;
  config_Difficulty : Z;                           (* s.config.Proxy.Difficulty *)
  config_Algo : string;                            (* s.config.Algo *)
  ToHex1 : Z -> string;                            (* util.ToHex1 *)
  IsBanned : string -> bool;                       (* s.policy.IsBanned *)
  ApplyLimitPolicy : string -> bool                (* s.policy.ApplyLimitPolicy *)
}.

(** Field updates. *)
Definition with_cs (f : Session -> Session) (w : World) : World :=
  {| cs := f (cs w); Extranonces := Extranonces w; sessions := sessions w;
     connClosed := connClosed w; trace := trace w; wtape := wtape w;
     rpos := rpos w |}.

Definition with_trace (e : Event) (w : World) : World :=
  {| cs := cs w; Extranonces := Extranonces w; sessions := sessions w;
     connClosed := connClosed w; trace := trace w ++ [e]; wtape := wtape w;
     rpos := rpos w |}.

Definition with_wtape (t : list bool) (w : World) : World :=
  {| cs := cs w; Extranonces := Extranonces w; sessions := sessions w;
     connClosed := connClosed w; trace := trace w; wtape := t;
     rpos := rpos w |}.

Definition with_rpos (n : nat) (w : World) : World :=
  {| cs := cs w; Extranonces := Extranonces w; sessions := sessions w;
     connClosed := connClosed w; trace := trace w; wtape := wtape w;
     rpos := n |}.

Definition with_registry (E : gmap string bool) (S : gset nat) (w : World) : World :=
  {| cs := cs w; Extranonces := E; sessions := S;
     connClosed := connClosed w; trace := trace w; wtape := wtape w;
     rpos := rpos w |}.

Definition with_connClosed (b : bool) (w : World) : World :=
  {| cs := cs w; Extranonces := Extranonces w; sessions := sessions w;
     connClosed := b; trace := trace w; wtape := wtape w;
     rpos := rpos w |}.

Definition set_stratum (z : Z) (s : Session) : Session :=
  {| addr := addr s; ip := ip s; login := login s; worker := worker s;
     stratum := z; Extranonce := Extranonce s;
     ExtranonceSub := ExtranonceSub s; JobDetails := JobDetails s;
     staleJobs := staleJobs s; staleJobIDs := staleJobIDs s |}.

Definition set_login (l : string) (s : Session) : Session :=
  {| addr := addr s; ip := ip s; login := l; worker := worker s;
     stratum := stratum s; Extranonce := Extranonce s;
     ExtranonceSub := ExtranonceSub s; JobDetails := JobDetails s;
     staleJobs := staleJobs s; staleJobIDs := staleJobIDs s |}.

Definition set_worker (x : string) (s : Session) : Session :=
  {| addr := addr s; ip := ip s; login := login s; worker := x;
     stratum := stratum s; Extranonce := Extranonce s;
     ExtranonceSub := ExtranonceSub s; JobDetails := JobDetails s;
     staleJobs := staleJobs s; staleJobIDs := staleJobIDs s |}.

Definition set_ExtranonceSub (b : bool) (s : Session) : Session :=
  {| addr := addr s; ip := ip s; login := login s; worker := worker s;
     stratum := stratum s; Extranonce := Extranonce s;
     ExtranonceSub := b; JobDetails := JobDetails s;
     staleJobs := staleJobs s; staleJobIDs := staleJobIDs s |}.

Definition set_JobDetails (j : jobDetails) (s : Session) : Session :=
  {| addr := addr s; ip := ip s; login := login s; worker := worker s;
     stratum := stratum s; Extranonce := Extranonce s;
     ExtranonceSub := ExtranonceSub s; JobDetails := j;
     staleJobs := staleJobs s; staleJobIDs := staleJobIDs s |}.

Definition set_stales (m : gmap string staleJob) (ids : list string) (s : Session) : Session :=
  {| addr := addr s; ip := ip s; login := login s; worker := worker s;
     stratum := stratum s; Extranonce := Extranonce s;
     ExtranonceSub := ExtranonceSub s; JobDetails := JobDetails s;
     staleJobs := m; staleJobIDs := ids |}.

(** ** The monad of session code

    A Go function of the server becomes a function from the world to a
    result and the world it leaves. A result is a value, a run-time panic,
    or [Hang] for code that does not come back (a loop out of fuel, a read
    that blocks for ever). *)

Inductive Res (A : Type) :=
| Val (a : A)
| Panic (msg : string)
| Hang.

Arguments Val {A} a.
Arguments Panic {A} msg.
Arguments Hang {A}.

Definition M (A : Type) : Type := World -> Res A * World.

Definition ret {A} (a : A) : M A := fun w => (Val a, w).

Definition bind {A B} (m : M A) (k : A -> M B) : M B :=
  fun w =>
    match m w with
    | (Val a, w') => k a w'
    | (Panic msg, w') => (Panic msg, w')
    | (Hang, w') => (Hang, w')
    end.

Notation "x <- m ;; k" := (bind m (fun x => k))
  (at level 20, m at level 99, k at level 200, only parsing).

Definition panic {A} (msg : string) : M A := fun w => (Panic msg, w).
Definition hang {A} : M A := fun w => (Hang, w).
Definition get_cs : M Session := fun w => (Val (cs w), w).
Definition upd_cs (f : Session -> Session) : M unit := fun w => (Val tt, with_cs f w).
Definition emit (e : Event) : M unit := fun w => (Val tt, with_trace e w).

(** A value that exists only when the Go expression does not panic. *)
Definition or_panic {A} (o : option A) (msg : string) : M A :=
  match o with
  | Some a => ret a
  | None => panic msg
  end.

(** [l[i]] on a slice. *)
Definition index (l : list string) (i : nat) : M string :=
  or_panic (l !! i) "index out of range".

(** [l[lo:hi]] on a slice whose capacity is its length. *)
Definition list_slice {A} (l : list A) (lo hi : Z) : option (list A) :=
  if (0 <=? lo) && (lo <=? hi) && (hi <=? Z.of_nat (List.length l))
  then Some (take (Z.to_nat (hi - lo)) (drop (Z.to_nat lo) l))
  else None.

(** [cs.enc.Encode(&message)]: the frame reaches the connection, or the
    write fails and an error comes back. *)
Definition Encode (f : Frame) : M (option error) :=
  fun w =>
    match wtape w with
    | false :: t => (Val (Some (Err "write failed")), with_wtape t w)
    | true :: t => (Val None, with_trace (Sent f) (with_wtape t w))
    | [] => (Val None, with_trace (Sent f) w)
    end.

Definition sendTCPResult (id : RawMessage) (result : value) : M (option error) :=
  Encode (JSONRpcResp id "2.0" result VNil).

Definition sendTCPError (id : RawMessage) (reply : ErrorReply) : M (option error) :=
  err <- Encode (JSONRpcResp id "2.0" VNil (VError reply));;
  match err with
  | Some e => ret (Some e)
  | None => ret (Some (Err (Message reply)))
  end.

Definition sendStratumResult (id : RawMessage) (result : value) : M (option error) :=
  Encode (JSONRpcResp id "" result VNil).

Definition sendStratumError (id : RawMessage) (message : value) : M (option error) :=
  Encode (JSONRpcResp id "" VNil message).

Definition sendTCPReq (resp : Frame) : M (option error) :=
  Encode resp.

Definition registerSession : M unit :=
  fun w => (Val tt, with_registry (Extranonces w) ({[ addr (cs w) ]} ∪ sessions w) w).

Definition removeSession : M unit :=
  fun w =>
    (Val tt, with_registry (delete (Extranonce (cs w)) (Extranonces w))
               (sessions w ∖ {[ addr (cs w) ]}) w).

Definition conn_Close : M unit :=
  fun w => (Val tt, with_connClosed true w).

Definition setDeadline : M unit := emit SetDeadline.

Definition setStratumMode (str : string) : M (option error) :=
  _ <- (if String.eqb str "EthereumStratum/1.0.0"
   then upd_cs (set_stratum NiceHash)
   else upd_cs (set_stratum EthProxy));;
  ret None.

Definition stratumMode : M Z :=
  s <- get_cs;; ret (stratum s).

(** cache stale jobs *)
Definition cacheStales (max n : Z) : M unit :=
  s <- get_cs;;
  let l := Z.of_nat (List.length (staleJobIDs s)) in
  _ <- (if max <? l then
     match list_slice (staleJobIDs s) (l - n) l, list_slice (staleJobIDs s) 0 (l - n) with
     | Some save, Some del =>
         upd_cs (set_stales (foldl (fun m v => delete v m) (staleJobs s) del) save)
     | _, _ => panic "slice bounds out of range"
     end
   else ret tt);;
  s <- get_cs;;
  upd_cs (set_stales
            (<[ JobID (JobDetails s) :=
                  {| stale_SeedHash := SeedHash (JobDetails s);
                     stale_HeaderHash := HeaderHash (JobDetails s) |} ]> (staleJobs s))
            (staleJobIDs s ++ [JobID (JobDetails s)])).

(** The step that sendJob and pushNewJob both run on the job they have
    just stored: [if SeedHash[0:2] == "0x"] drop the first two bytes of
    the seed hash and of the header hash. *)
Definition strip0x : M unit :=
  s <- get_cs;;
  p <- or_panic (GoString.slice (SeedHash (JobDetails s)) 0 2) "slice bounds out of range";;
  if String.eqb p "0x" then
    seed <- or_panic (GoString.slice_from (SeedHash (JobDetails s)) 2) "slice bounds out of range";;
    _ <- upd_cs (set_JobDetails
              {| JobID := JobID (JobDetails s); SeedHash := seed;
                 HeaderHash := HeaderHash (JobDetails s); Height := Height (JobDetails s) |});;
    header <- or_panic (GoString.slice_from (HeaderHash (JobDetails s)) 2)
                "slice bounds out of range";;
    upd_cs (set_JobDetails
              {| JobID := JobID (JobDetails s); SeedHash := seed;
                 HeaderHash := header; Height := Height (JobDetails s) |})
  else ret tt.

Definition hexchar (i : nat) : ascii :=
  match String.get i "0123456789abcdef" with
  | Some c => c
  | None => "0"%char
  end.

Section Server.

Variable env : Env.

(** [rand.Intn(n)]. *)
Definition rand_Intn (n : nat) : M nat :=
  fun w => (Val (rand_src env (rpos w) mod n)%nat, with_rpos (S (rpos w)) w).

Fixpoint randomHex (strlen : nat) : M string :=
  match strlen with
  | O => ret EmptyString
  | S n =>
      i <- rand_Intn 16;;
      rest <- randomHex n;;
      ret (String (hexchar i) rest)
  end.

(** The retry loop of uniqExtranonce; [fuel] bounds the retries. *)
Fixpoint uniqExtranonce_loop (fuel : nat) (extranonce : string) : M string :=
  fun w =>
    match Extranonces w !! extranonce with
    | Some _ =>
        match fuel with
        | O => hang w
        | S fuel' => (extranonce' <- randomHex 4;; uniqExtranonce_loop fuel' extranonce') w
        end
    | None => ret extranonce w
    end.

Definition uniqExtranonce (fuel : nat) : M string :=
  extranonce <- randomHex 4;;
  extranonce <- uniqExtranonce_loop fuel extranonce;;
  _ <- (fun w =>
          (Val tt, with_registry (<[ extranonce := true ]> (Extranonces w)) (sessions w) w));;
  ret extranonce.

(** [s.currentBlockTemplate()] followed by a read of [t.Height]. *)
Definition template_Height : M Z :=
  match currentBlockTemplate env with
  | Some t => ret (tpl_Height t)
  | None => panic "nil pointer dereference"
  end.

Definition pushNewJob (result : list string) : M (option error) :=
  mode <- stratumMode;;
  if mode =? NiceHash then
    _ <- cacheStales 10 3;;
    id <- randomHex 8;;
    seed <- index result 1;;
    header <- index result 0;;
    height <- index result 3;;
    _ <- upd_cs (set_JobDetails
              {| JobID := id; SeedHash := seed; HeaderHash := header; Height := height |});;
    _ <- strip0x;;
    h <- template_Height;;
    s <- get_cs;;
    Encode (JSONStratumReq VNil "mining.notify"
              (VList [VString (JobID (JobDetails s));
                      VString (SeedHash (JobDetails s));
                      VString (HeaderHash (JobDetails s));
                      VBool false])
              (ToHex1 env h) (config_Algo env))
  else
    Encode (JSONPushMessage "2.0" (VStrings result) 0).

(** Modelled from the spec: [handleLoginRPC] is code of the proxy that
    is not among the sources. Its verdict is the environment's; after
    the data model ("login, worker: learned on authorize/login") a
    successful login stores in the session the login and the worker name
    that the pool has learned, which are part of the verdict, and it
    enters the session in the session table through registerSession,
    which has no other caller. *)
Definition loginRPC (params : list string) (id : string) : M (ErrorReply + value) :=
  s <- get_cs;;
  _ <- emit (LoginRPC params id);;
  match handleLoginRPC env s params id with
  | LoginOk reply l wk =>
      _ <- upd_cs (set_login l);;
      _ <- upd_cs (set_worker wk);;
      _ <- registerSession;;
      ret (inr reply)
  | LoginErr e => ret (inl e)
  end.

Definition getWorkRPC : M (ErrorReply + list string) :=
  s <- get_cs;;
  _ <- emit GetWorkRPC;;
  ret (handleGetWorkRPC env s).

Definition submitRPC (id : string) (params : list string) : M (ErrorReply + value) :=
  s <- get_cs;;
  _ <- emit (SubmitRPC id params);;
  ret (handleTCPSubmitRPC env s id params).

Definition unknownRPC (m : string) : M ErrorReply :=
  s <- get_cs;;
  _ <- emit (UnknownRPC m);;
  ret (handleUnknownRPC env s m).

(** nicehash *)
Definition sendJob (id : RawMessage) (newjob : bool) : M (option error) :=
  r <- (if newjob then
          reply <- getWorkRPC;;
          match reply with
          | inl errReply =>
              e <- sendStratumError id
                     (VStrings [GoString.of_rune (Code errReply); Message errReply]);;
              ret (Some e)
          | inr reply =>
              jid <- randomHex 8;;
              seed <- index reply 1;;
              header <- index reply 0;;
              height <- index reply 3;;
              _ <- upd_cs (set_JobDetails
                        {| JobID := jid; SeedHash := seed; HeaderHash := header;
                           Height := height |});;
              _ <- strip0x;;
              ret None
          end
        else ret None);;
  match r with
  | Some e => ret e
  | None =>
      h <- template_Height;;
      s <- get_cs;;
      sendTCPReq (JSONStratumReq VNil "mining.notify"
                    (VList [VString (JobID (JobDetails s));
                            VString (SeedHash (JobDetails s));
                            VString (HeaderHash (JobDetails s));
                            VBool true])
                    (ToHex1 env h) (config_Algo env))
  end.

Definition getNotificationResponse : M value :=
  sub <- randomHex 16;;
  s <- get_cs;;
  let result :=
    VList [VStrings ["mining.notify"; sub; "EthereumStratum/1.0.0"];
           VString (Extranonce s)] in
  mode <- stratumMode;;
  if mode =? NiceHash then
    match currentBlockTemplate env with
    | Some t =>
        jobID <- randomHex 8;;
        ret (VList [VString "mining.notify"; VString jobID; VString (tpl_Seed t);
                    VString (tpl_Header t); VString (ToHex1 env (tpl_Height t))])
    | None => ret result
    end
  else ret result.

(** *** handleTCPMessage, one definition per case of its switches

    Where the Go code tests [err != nil || len(params) < n] and then
    returns [err], the second disjunct returns the nil error of a
    successful decoding: [ret None] below. *)

(** [case "eth_login"] (claymore -esm 1) *)
Definition on_eth_login (req : StratumReq) : M (option error) :=
  match Unmarshal_strings (Params req) with
  | inl err => ret (Some err)
  | inr params =>
      r <- loginRPC params (Worker req);;
      match r with
      | inl errReply => sendTCPError (Id req) errReply
      | inr reply => sendTCPResult (Id req) reply
      end
  end.

(** [case "eth_submitLogin"] (claymore -esm 0) *)
Definition on_eth_submitLogin (req : StratumReq) : M (option error) :=
  match Unmarshal_strings (Params req) with
  | inl err => ret (Some err)
  | inr params =>
      if (List.length params <? 1)%nat then ret None
      else
        r <- loginRPC params (Worker req);;
        match r with
        | inl err => sendTCPError (Id req) err
        | inr reply =>
            _ <- setStratumMode "EthProxy";;
            sendTCPResult (Id req) reply
        end
  end.

(** [case "mining.subscribe"] *)
Definition on_mining_subscribe (req : StratumReq) : M (option error) :=
  match Unmarshal_strings (Params req) with
  | inl err => ret (Some err)
  | inr params =>
      if (List.length params <? 2)%nat then ret None
      else
        p0 <- index params 0;;
        p1 <- index params 1;;
        if negb (String.eqb p1 "EthereumStratum/1.0.0") && negb (String.eqb p0 "GodMiner/2.0.0")
        then sendStratumError (Id req) (VString "unsupported stratum version")
        else
          _ <- upd_cs (set_ExtranonceSub true);;
          _ <- setStratumMode "EthereumStratum/1.0.0";;
          result <- getNotificationResponse;;
          sendStratumResult (Id req) result
  end.

(** [case "mining.authorize"] *)
Definition on_mining_authorize (req : StratumReq) : M (option error) :=
  match Unmarshal_strings (Params req) with
  | inl _ => ret (Some (Err "invalid params"))
  | inr params =>
      if (List.length params <? 1)%nat then ret (Some (Err "invalid params"))
      else
        p0 <- index params 0;;
        first <- index (GoString.Split p0 "."%char) 0;;
        r <- loginRPC (<[ 0%nat := first ]> params) (Worker req);;
        match r with
        | inl errReply =>
            sendStratumError (Id req)
              (VStrings [GoString.of_rune (Code errReply); Message errReply])
        | inr reply =>
            e <- sendStratumResult (Id req) reply;;
            match e with
            | Some err => ret (Some err)
            | None =>
                e <- sendTCPReq (JSONStratumReq VNil "mining.set_difficulty"
                                   (VList [VDiff (config_Difficulty env)])
                                   EmptyString EmptyString);;
                match e with
                | Some err => ret (Some err)
                | None => sendJob (Id req) true
                end
            end
        end
  end.

(** [case "mining.extranonce.subscribe"] *)
Definition on_mining_extranonce_subscribe (req : StratumReq) : M (option error) :=
  match Unmarshal_strings (Params req) with
  | inl _ => ret (Some (Err "invalid params"))
  | inr params =>
      if (List.length params =? 0)%nat then
        e <- sendStratumResult (Id req) (VBool true);;
        match e with
        | Some err => ret (Some err)
        | None =>
            _ <- upd_cs (set_ExtranonceSub true);;
            s <- get_cs;;
            sendTCPReq (JSONStratumReq VNil "mining.set_extranonce"
                          (VList [VString (Extranonce s)]) EmptyString EmptyString)
        end
      else sendStratumError (Id req) (VStrings ["20"; "Not supported."])
  end.

(** [case "mining.submit"] *)
Definition on_mining_submit (req : StratumReq) : M (option error) :=
  match Unmarshal_strings (Params req) with
  | inl err => ret (Some err)
  | inr params =>
      if (List.length params <? 3)%nat then ret None
      else
        p0 <- index params 0;;
        p1 <- index params 1;;
        p2 <- index params 2;;
        let splitData := GoString.Split p0 "."%char in
        id <- (if (1 <? List.length splitData)%nat then index splitData 1 else ret "0"%string);;
        _ <- upd_cs (set_worker id);;
        s <- get_cs;;
        let extranonce := if ExtranonceSub s then Extranonce s else EmptyString in
        let nonce := String.append extranonce p2 in
        sel <- (if negb (String.eqb (JobID (JobDetails s)) p1) then
                  match staleJobs s !! p1 with
                  | Some stale =>
                      ret (inr [nonce; stale_SeedHash stale; stale_HeaderHash stale])
                  | None =>
                      e <- sendStratumError (Id req) (VStrings ["21"; "Stale share."]);;
                      match e with
                      | Some err => ret (inl (Some err))
                      | None => e <- sendJob (Id req) false;; ret (inl e)
                      end
                  end
                else
                  ret (inr [nonce; SeedHash (JobDetails s); HeaderHash (JobDetails s)]));;
        match sel with
        | inl e => ret e
        | inr params =>
            r <- submitRPC id params;;
            match r with
            | inl errReply =>
                sendStratumError (Id req)
                  (VStrings [GoString.Itoa (Code errReply); Message errReply])
            | inr reply => sendStratumResult (Id req) reply
            end
        end
  end.

(** [default] of the NiceHash switch *)
Definition on_nicehash_unknown (req : StratumReq) : M (option error) :=
  errReply <- unknownRPC (Method req);;
  sendStratumError (Id req)
    (VStrings [GoString.Itoa (Code errReply); Message errReply]).

(** [case "eth_getWork"] *)
Definition on_eth_getWork (req : StratumReq) : M (option error) :=
  r <- getWorkRPC;;
  match r with
  | inl errReply => sendTCPError (Id req) errReply
  | inr reply => sendTCPResult (Id req) (VStrings reply)
  end.

(** [case "eth_submitWork"] *)
Definition on_eth_submitWork (req : StratumReq) : M (option error) :=
  match Unmarshal_strings (Params req) with
  | inl err => ret (Some err)
  | inr params =>
      match params with
      | p0 :: p1 :: p2 :: _ =>
          if negb (String.length p0 =? 18)%nat || negb (String.length p1 =? 66)%nat
             || negb (String.length p2 =? 66)%nat
          then ret None
          else
            r <- submitRPC (Worker req) params;;
            match r with
            | inl errReply => sendTCPError (Id req) errReply
            | inr reply => sendTCPResult (Id req) reply
            end
      | _ => ret None
      end
  end.

(** [case "eth_submitHashrate"]; the parsed hash rate only feeds the log
    (formatEthHashrate). *)
Definition on_eth_submitHashrate (req : StratumReq) : M (option error) :=
  match Unmarshal_strings (Params req) with
  | inl err => ret (Some err)
  | inr params =>
      if (List.length params <? 2)%nat then ret None
      else
        hashrateStr <- index params 0;;
        if negb (GoString.HasPrefix hashrateStr "0x")
        then ret (Some (Err "Malformed hashrate value"))
        else
          digits <- or_panic (GoString.slice_from hashrateStr 2) "slice bounds out of range";;
          match GoString.ParseInt16 digits with
          | None => ret (Some (Err "strconv.ParseInt: parsing failed"))
          | Some _ => sendTCPResult (Id req) (VBool true)
          end
  end.

(** [default] of the last switch *)
Definition on_unknown (req : StratumReq) : M (option error) :=
  errReply <- unknownRPC (Method req);;
  sendTCPError (Id req) errReply.

(** How a [case] of the first switch ends: with a [return], or by leaving
    the switch. *)
Inductive Flow :=
| Return (e : option error)
| Next.

Definition returning (m : M (option error)) : M Flow :=
  e <- m;; ret (Return e).

(** The first switch: the methods every session understands, and the
    check of the stratum mode. *)
Definition first_switch (req : StratumReq) : M Flow :=
  if String.eqb (Method req) "eth_login" then returning (on_eth_login req)
  else if String.eqb (Method req) "eth_submitLogin" then returning (on_eth_submitLogin req)
  else if String.eqb (Method req) "mining.subscribe" then returning (on_mining_subscribe req)
  else
    mode <- stratumMode;;
    if mode =? 0 then ret Next
    else if mode =? 1 then ret Next
    else returning (on_unknown req).

Definition nicehash_switch (req : StratumReq) : M (option error) :=
  if String.eqb (Method req) "mining.authorize" then on_mining_authorize req
  else if String.eqb (Method req) "mining.extranonce.subscribe"
  then on_mining_extranonce_subscribe req
  else if String.eqb (Method req) "mining.submit" then on_mining_submit req
  else on_nicehash_unknown req.

Definition ethproxy_switch (req : StratumReq) : M (option error) :=
  if String.eqb (Method req) "eth_getWork" then on_eth_getWork req
  else if String.eqb (Method req) "eth_submitWork" then on_eth_submitWork req
  else if String.eqb (Method req) "eth_submitHashrate" then on_eth_submitHashrate req
  else on_unknown req.

Definition handleTCPMessage (req : StratumReq) : M (option error) :=
  f <- first_switch req;;
  match f with
  | Return e => ret e
  | Next =>
      mode <- stratumMode;;
      if mode =? NiceHash then nicehash_switch req else ethproxy_switch req
  end.

(** *** The reader of a connection *)

(** What [connbuff.ReadLine()] returns. *)
Record ReadResult := {
  data : string;
  isPrefix : bool;
  read_err : option error
}.

(** The loop of handleTCPClient over the results of the successive
    [ReadLine] calls; when they run out the reader waits for ever. *)
Fixpoint read_loop (reads : list ReadResult) : M (option error) :=
  match reads with
  | [] => hang
  | r :: rest =>
      if isPrefix r then
        s <- get_cs;;
        _ <- emit (BanClient (ip s));;
        ret (read_err r)
      else
        match read_err r with
        | Some EOF =>
            _ <- removeSession;;
            ret None
        | Some err => ret (Some err)
        | None =>
            if (1 <? String.length (data r))%nat then
              match Unmarshal_req env (data r) with
              | inl err =>
                  s <- get_cs;;
                  _ <- emit (ApplyMalformedPolicy (ip s));;
                  ret (Some err)
              | inr req =>
                  _ <- setDeadline;;
                  e <- handleTCPMessage req;;
                  match e with
                  | Some err => ret (Some err)
                  | None => read_loop rest
                  end
              end
            else read_loop rest
        end
  end.

Definition handleTCPClient (reads : list ReadResult) : M (option error) :=
  _ <- setDeadline;;
  read_loop reads.

(** The goroutine ListenTCP starts for a session. *)
Definition session_task (reads : list ReadResult) : M unit :=
  err <- handleTCPClient reads;;
  match err with
  | Some _ =>
      _ <- removeSession;;
      conn_Close
  | None => ret tt
  end.

Definition newSession (a : nat) (ip : string) (extranonce : string) : Session :=
  {| addr := a; ip := ip; login := EmptyString; worker := EmptyString;
     stratum := -1; Extranonce := extranonce; ExtranonceSub := false;
     JobDetails := {| JobID := EmptyString; SeedHash := EmptyString;
                      HeaderHash := EmptyString; Height := EmptyString |};
     staleJobs := ∅; staleJobIDs := [] |}.

(** One round of the accept loop of ListenTCP, up to the start of the
    goroutine: [false] when the policy turns the connection away. *)
Definition accept_conn (fuel : nat) (a : nat) (ip : string) : M bool :=
  if IsBanned env ip || negb (ApplyLimitPolicy env ip) then ret false
  else
    extranonce <- uniqExtranonce fuel;;
    _ <- upd_cs (fun _ => newSession a ip extranonce);;
    _ <- (fun w => (Val tt, with_connClosed false w));;
    ret true.

(** What broadcastNewJobs does for one session of the table. *)
Definition broadcast_to (reply : list string) : M unit :=
  err <- pushNewJob reply;;
  match err with
  | Some _ => removeSession
  | None => setDeadline
  end.

End Server.

(** ** The buffered reader

    [bufio.Reader.ReadLine] on a reader of [size] bytes, when [pending]
    holds the bytes the connection delivers before it ends with the error
    [final]: the line up to the first newline if the buffer can hold it,
    the first [size] bytes with [isPrefix] set (and no error) if no
    newline is among them, the rest of the stream at its end, and the
    error once nothing is left. The second component is what stays
    unread. *)

Fixpoint newline_within (n : nat) (s : string) : option nat :=
  match n, s with
  | O, _ => None
  | _, EmptyString => None
  | S n', String c s' =>
      if Ascii.eqb c "010"%char then Some O
      else option_map S (newline_within n' s')
  end.

Definition drop_cr (line : string) : string :=
  match String.length line with
  | O => line
  | S k =>
      match String.get k line with
      | Some c => if Ascii.eqb c "013"%char then String.substring 0 k line else line
      | None => line
      end
  end.

Definition string_drop (n : nat) (s : string) : string :=
  String.substring n (String.length s - n) s.

Definition ReadLine (size : nat) (pending : string) (final : error) : ReadResult * string :=
  match newline_within size pending with
  | Some i =>
      ({| data := drop_cr (String.substring 0 i pending); isPrefix := false;
          read_err := None |},
       string_drop (S i) pending)
  | None =>
      if (size <=? String.length pending)%nat then
        let chunk := String.substring 0 size pending in
        let line := drop_cr chunk in
        ({| data := line; isPrefix := true; read_err := None |},
         string_drop (String.length line) pending)
      else
        match pending with
        | EmptyString =>
            ({| data := EmptyString; isPrefix := false; read_err := Some final |},
             EmptyString)
        | _ =>
            ({| data := pending; isPrefix := false; read_err := None |}, EmptyString)
        end
  end.

(** ** The life of a session

    What a session meets after ListenTCP has built it: requests read
    from its connection, and job broadcasts. *)

Inductive Op :=
| Request (req : StratumReq)
| Broadcast (reply : list string).

Definition do_op (env : Env) (o : Op) : M unit :=
  match o with
  | Request req => _ <- handleTCPMessage env req;; ret tt
  | Broadcast reply => broadcast_to env reply
  end.

Fixpoint run (env : Env) (ops : list Op) : M unit :=
  match ops with
  | [] => ret tt
  | o :: rest => _ <- do_op env o;; run env rest
  end.

(** ** A concrete environment

    A pool whose upstream accepts every login and every share, with a
    block template at hand; the random generator repeats each draw eight
    times, so that successive job ids differ. It serves to run the code
    on concrete inputs. *)

Module Demo.

Definition template : BlockTemplate :=
  {| tpl_Header := "0xheader"; tpl_Seed := "0xseed"; tpl_Height := 100 |}.

Definition work : list string := ["0xheader"; "0xseed"; "0xdiff"; "0x64"].

Definition empty_req : StratumReq :=
  {| Id := None; Method := EmptyString; Params := None; Worker := EmptyString |}.

Definition env : Env :=
  {| rand_src := fun i => (i / 8)%nat;
     Unmarshal_req := fun data =>
       if String.eqb data "{}" then inr empty_req
       else inl (Err "invalid character");
     handleLoginRPC := fun _ params id =>
       LoginOk (VBool true) (List.hd EmptyString params) id;
     handleGetWorkRPC := fun _ => inr work;
     handleTCPSubmitRPC := fun _ _ _ => inr (VBool true);
     handleUnknownRPC := fun _ _ => {| Code := -3; Message := "Method not found" |};
     currentBlockTemplate := Some template;
     config_Difficulty := 2000000000;
     config_Algo := "etchash";
     ToHex1 := fun _ => "0x64";
     IsBanned := fun _ => false;
     ApplyLimitPolicy := fun _ => true |}.

(** The server before any connection: empty extranonce set, empty
    session table (the session slot holds a blank session). *)
Definition start : World :=
  {| cs := newSession 0 EmptyString EmptyString;
     Extranonces := ∅;
     sessions := ∅;
     connClosed := false;
     trace := [];
     wtape := [];
     rpos := 0 |}.

(** A connection from 10.0.0.1 right after ListenTCP has accepted it:
    the session is new and its extranonce, 0000, is in the registry. *)
Definition world : World :=
  snd (accept_conn env 0 1 "10.0.0.1" start).

Definition request (method : string) (params : list string) : StratumReq :=
  {| Id := Some (JNumber "1"); Method := method;
     Params := Some (JArray (List.map JString params)); Worker := EmptyString |}.

Definition subscribe : StratumReq :=
  request "mining.subscribe" ["miner/1"; "EthereumStratum/1.0.0"].

Definition submitLogin : StratumReq :=
  request "eth_submitLogin" ["0xabc"; "x"].

(** Results of ReadLine: an empty line, a line that is not JSON, and
    the end of the stream. *)
Definition blank_line : ReadResult :=
  {| data := EmptyString; isPrefix := false; read_err := None |}.

Definition garbage_line : ReadResult :=
  {| data := "xx"; isPrefix := false; read_err := None |}.

Definition eof_read : ReadResult :=
  {| data := EmptyString; isPrefix := false; read_err := Some EOF |}.

Fixpoint replicate_char (n : nat) (c : ascii) : string :=
  match n with
  | O => EmptyString
  | S n' => String c (replicate_char n' c)
  end.

(** A line of 2000 bytes with no newline in it. *)
Definition flood_line : string := replicate_char 2000 "a"%char.

(** A NiceHash session after two broadcasts: it has a current job, and
    the job before it is in its stale cache. *)
Definition mining : World :=
  snd (run env [Request subscribe; Broadcast work; Broadcast work] world).

End Demo.

(** The world with a newly built session in it. *)
Definition fresh (a : nat) (ip extranonce : string) (w : World) : World :=
  with_cs (fun _ => newSession a ip extranonce) w.

(** The methods with a [case] of their own, by stratum mode. *)
Definition has_handler (mode : Z) (method : string) : bool :=
  String.eqb method "eth_login" || String.eqb method "eth_submitLogin"
  || String.eqb method "mining.subscribe"
  || (if mode =? NiceHash then
        String.eqb method "mining.authorize"
        || String.eqb method "mining.extranonce.subscribe"
        || String.eqb method "mining.submit"
      else if mode =? EthProxy then
        String.eqb method "eth_getWork" || String.eqb method "eth_submitWork"
        || String.eqb method "eth_submitHashrate"
      else false).

(** The stale cache and the list of its keys agree: every key of
    [staleJobs] is listed in [staleJobIDs], which holds at most [n] ids. *)
Definition stale_inv (n : nat) (s : Session) : Prop :=
  dom (staleJobs s) ⊆ (list_to_set (staleJobIDs s) : gset string)
  /\ (List.length (staleJobIDs s) <= n)%nat.

(** Parameters of eth_submitWork that fail its check: fewer than three,
    or one of the first three not of length 18, 66, 66. *)
Definition malformed_work (params : list string) : Prop :=
  (List.length params < 3)%nat
  \/ exists p0 p1 p2 rest,
       params = p0 :: p1 :: p2 :: rest
       /\ (String.length p0 <> 18%nat \/ String.length p1 <> 66%nat
           \/ String.length p2 <> 66%nat).

(** The worker name mining.submit takes from [user.workerName]. *)
Definition worker_of (user : string) : string :=
  match GoString.Split user "."%char with
  | _ :: x :: _ => x
  | _ => "0"%string
  end.

(** The nonce mining.submit forwards: the session's extranonce, if the
    session has subscribed to it, followed by the miner's nonce. *)
Definition full_nonce (s : Session) (minerNonce : string) : string :=
  String.append (if ExtranonceSub s then Extranonce s else EmptyString) minerNonce.

(** The reply to a forwarded share. *)
Definition submit_reply (env : Env) (id : RawMessage) (s : Session)
    (worker : string) (params : list string) : Frame :=
  match handleTCPSubmitRPC env s worker params with
  | inl e => JSONRpcResp id "" VNil (VStrings [GoString.Itoa (Code e); Message e])
  | inr reply => JSONRpcResp id "" reply VNil
  end.

(** Every write still to come succeeds. *)
Definition writes_ok (w : World) : Prop := forallb id (wtape w) = true.

(** The string [randomHex n] builds when the generator stands at [pos]. *)
Fixpoint hex_at (env : Env) (pos n : nat) : string :=
  match n with
  | O => EmptyString
  | S n' => String (hexchar (rand_src env pos mod 16)) (hex_at env (S pos) n')
  end.

Definition is_lower_hex (c : ascii) : bool :=
  let n := N_of_ascii c in
  ((48 <=? n) && (n <=? 57) || (97 <=? n) && (n <=? 102))%N.

Fixpoint all_lower_hex (s : string) : bool :=
  match s with
  | EmptyString => true
  | String c s' => is_lower_hex c && all_lower_hex s'
  end.

(** The [j]-th extranonce uniqExtranonce draws when the generator stands
    at [pos]. *)
Definition candidate (env : Env) (pos j : nat) : string :=
  hex_at env (pos + 4 * j) 4.

(** The handler forwards one share, with these parameters, and answers
    it when the connection takes the answer. *)
Definition forwards (handler : M (option error)) (env : Env) (id : RawMessage) (w : World)
    (worker : string) (params : list string) : Prop :=
  (exists tl, trace (snd (handler w)) = trace w ++ SubmitRPC worker params :: tl)
  /\ (writes_ok w ->
      fst (handler w) = Val None
      /\ trace (snd (handler w)) =
           trace w ++ [SubmitRPC worker params;
                       Sent (submit_reply env id (set_worker worker (cs w)) worker params)]).

(** The reads [pre] go by without ending the reader: from [w] they lead
    to [w1], where the reader takes the next read. *)
Definition passes (env : Env) (pre : list ReadResult) (w w1 : World) : Prop :=
  forall tl, read_loop env (pre ++ tl) w = read_loop env tl w1.

(** In [w] the session that [w0] holds is out of the extranonce set and
    out of the session table. *)
Definition released (w0 w : World) : Prop :=
  Extranonces w !! Extranonce (cs w0) = None /\ addr (cs w0) ∉ sessions w.

(** The reader returns the error [e], and the session's goroutine then
    releases the session and closes the connection. *)
Definition ends_released (env : Env) (reads : list ReadResult) (w : World)
    (e : error) : Prop :=
  fst (handleTCPClient env reads w) = Val (Some e)
  /\ released w (snd (session_task env reads w))
  /\ connClosed (snd (session_task env reads w)) = true.

(** The stratum mode of the session. *)
Definition mode_of (w : World) : Z := stratum (cs w).

(** The mode is what it was, or it is [z]. *)
Definition mode_to (z : Z) (w w' : World) : Prop :=
  mode_of w' = mode_of w \/ mode_of w' = z.

(** The reply of the unknown-method handler to a request. *)
Definition unknown_reply (env : Env) (req : StratumReq) (w : World) : ErrorReply :=
  handleUnknownRPC env (cs w) (Method req).

(** The candidates the retry loop goes through: the one it is given,
    then the draws. *)
Definition loop_candidate (env : Env) (x : string) (pos j : nat) : string :=
  match j with
  | O => x
  | S j' => candidate env pos j'
  end.

(** Eleven broadcasts to a session that has subscribed in NiceHash mode:
    each one caches the job it replaces, the first one the empty job the
    session starts with. *)
Definition eleven_pushes : list Op :=
  Request Demo.subscribe :: List.repeat (Broadcast Demo.work) 11.

(** What the frames written for a request with the id [id] look like:
    a reply carries [id], a stratum push carries no id, and the legacy
    push of the broadcaster is not among them. *)
Definition answers (id : RawMessage) (e : Event) : Prop :=
  match e with
  | Sent (JSONRpcResp i _ _ _) => i = id
  | Sent (JSONStratumReq i _ _ _ _) => i = VNil
  | Sent (JSONPushMessage _ _ _) => False
  | _ => True
  end.

(** The trace of [w'] is the trace of [w] followed by events that all
    satisfy [P]. *)
Definition extends_by (P : Event -> Prop) (w w' : World) : Prop :=
  exists new, trace w' = trace w ++ new /\ Forall P new.

(** The registry after a request: the extranonce set and the connection
    are as before, and the session table has gained at most the session
    itself. *)
Definition registry_kept (w w' : World) : Prop :=
  Extranonces w' = Extranonces w
  /\ connClosed w' = connClosed w
  /\ addr (cs w') = addr (cs w)
  /\ sessions w ⊆ sessions w'
  /\ sessions w' ⊆ sessions w ∪ {[ addr (cs w) ]}.

(** What ListenTCP gives a session for its life. *)
Definition identity (w : World) : nat * string * string :=
  (addr (cs w), ip (cs w), Extranonce (cs w)).

(** The paired form of the subscribe reply. *)
Definition paired_response (env : Env) (w : World) : value :=
  VList [VStrings ["mining.notify"; hex_at env (rpos w) 16; "EthereumStratum/1.0.0"]%string;
         VString (Extranonce (cs w))].

(** The flat form of the subscribe reply. *)
Definition flat_response (env : Env) (t : BlockTemplate) (w : World) : value :=
  VList [VString "mining.notify"; VString (hex_at env (rpos w + 16) 8);
         VString (tpl_Seed t); VString (tpl_Header t);
         VString (ToHex1 env (tpl_Height t))].

(** The job sendJob and pushNewJob store for the work [header; seed; _;
    height; ...] of the upstream when the seed has its 0x prefix: the id
    drawn at generator position [pos], the seed without its prefix and
    the header without its first two bytes. *)
Definition stripped_job (env : Env) (pos : nat) (seed header height : string) : jobDetails :=
  {| JobID := hex_at env pos 8; SeedHash := seed; HeaderHash := header; Height := height |}.


(** The entry of the stale cache for a job. *)
Definition stale_of (j : jobDetails) : staleJob :=
  {| stale_SeedHash := SeedHash j; stale_HeaderHash := HeaderHash j |}.

(** ** Other environments

    Variations of the environment of [Demo]: an upstream that has no
    work, a server without block template, a pool that rejects logins, a
    generator that always draws the same value, a policy that turns
    connections away. *)

Module Cases.

Definition without_work (code : Z) (msg : string) : Env :=
  {| rand_src := rand_src Demo.env;
     Unmarshal_req := Unmarshal_req Demo.env;
     handleLoginRPC := handleLoginRPC Demo.env;
     handleGetWorkRPC := fun _ => inl {| Code := code; Message := msg |};
     handleTCPSubmitRPC := handleTCPSubmitRPC Demo.env;
     handleUnknownRPC := handleUnknownRPC Demo.env;
     currentBlockTemplate := currentBlockTemplate Demo.env;
     config_Difficulty := config_Difficulty Demo.env;
     config_Algo := config_Algo Demo.env;
     ToHex1 := ToHex1 Demo.env;
     IsBanned := IsBanned Demo.env;
     ApplyLimitPolicy := ApplyLimitPolicy Demo.env |}.

Definition without_template : Env :=
  {| rand_src := rand_src Demo.env;
     Unmarshal_req := Unmarshal_req Demo.env;
     handleLoginRPC := handleLoginRPC Demo.env;
     handleGetWorkRPC := handleGetWorkRPC Demo.env;
     handleTCPSubmitRPC := handleTCPSubmitRPC Demo.env;
     handleUnknownRPC := handleUnknownRPC Demo.env;
     currentBlockTemplate := None;
     config_Difficulty := config_Difficulty Demo.env;
     config_Algo := config_Algo Demo.env;
     ToHex1 := ToHex1 Demo.env;
     IsBanned := IsBanned Demo.env;
     ApplyLimitPolicy := ApplyLimitPolicy Demo.env |}.

Definition rejecting_login (code : Z) (msg : string) : Env :=
  {| rand_src := rand_src Demo.env;
     Unmarshal_req := Unmarshal_req Demo.env;
     handleLoginRPC := fun _ _ _ => LoginErr {| Code := code; Message := msg |};
     handleGetWorkRPC := handleGetWorkRPC Demo.env;
     handleTCPSubmitRPC := handleTCPSubmitRPC Demo.env;
     handleUnknownRPC := handleUnknownRPC Demo.env;
     currentBlockTemplate := currentBlockTemplate Demo.env;
     config_Difficulty := config_Difficulty Demo.env;
     config_Algo := config_Algo Demo.env;
     ToHex1 := ToHex1 Demo.env;
     IsBanned := IsBanned Demo.env;
     ApplyLimitPolicy := ApplyLimitPolicy Demo.env |}.

Definition constant_generator : Env :=
  {| rand_src := fun _ => 0%nat;
     Unmarshal_req := Unmarshal_req Demo.env;
     handleLoginRPC := handleLoginRPC Demo.env;
     handleGetWorkRPC := handleGetWorkRPC Demo.env;
     handleTCPSubmitRPC := handleTCPSubmitRPC Demo.env;
     handleUnknownRPC := handleUnknownRPC Demo.env;
     currentBlockTemplate := currentBlockTemplate Demo.env;
     config_Difficulty := config_Difficulty Demo.env;
     config_Algo := config_Algo Demo.env;
     ToHex1 := ToHex1 Demo.env;
     IsBanned := IsBanned Demo.env;
     ApplyLimitPolicy := ApplyLimitPolicy Demo.env |}.


End Cases.

(** The ids cacheStales drops from a session and the ids it keeps: once
    more than [max] ids are held, all but the last [n]. *)
Definition stale_evicted (max n : Z) (s : Session) : list string :=
  if max <? Z.of_nat (List.length (staleJobIDs s))
  then take (List.length (staleJobIDs s) - Z.to_nat n) (staleJobIDs s)
  else [].

Definition stale_kept (max n : Z) (s : Session) : list string :=
  if max <? Z.of_nat (List.length (staleJobIDs s))
  then drop (List.length (staleJobIDs s) - Z.to_nat n) (staleJobIDs s)
  else staleJobIDs s.

(** A line the reader passes over: read without error, complete, and of
    at most one byte. *)
Definition skipped (r : ReadResult) : Prop :=
  isPrefix r = false /\ read_err r = None /\ (String.length (data r) <= 1)%nat.


(** A session in NiceHash mode is subscribed to its extranonce. *)
Definition nicehash_subscribed (w : World) : Prop :=
  stratum (cs w) = NiceHash -> ExtranonceSub (cs w) = true.

(** The events that are not calls of the policy. *)
Definition no_policy (e : Event) : Prop :=
  match e with
  | BanClient _ | ApplyMalformedPolicy _ => False
  | _ => True
  end.

(** A read after which the reader may take another: complete and
    without error. *)
Definition goes_on (r : ReadResult) : Prop :=
  isPrefix r = false /\ read_err r = None.

(** A complete line of more than one byte that does not decode as a
    request: [err] is what json.Unmarshal says. *)
Definition undecodable (env : Env) (r : ReadResult) (err : error) : Prop :=
  isPrefix r = false /\ read_err r = None /\ (1 < String.length (data r))%nat
  /\ Unmarshal_req env (data r) = inl err.

(** What the reader has done with [reads] from [w] when it ends in
    [out]: the trace has grown by events among which the policy is
    called at most once, as the last of them, for the ip of the session;
    if that call is BanClient, the read it follows is one that did not
    fit the buffer and the reader returns the error of that read; if it
    is ApplyMalformedPolicy, the read it follows is a line that does not
    decode and the reader returns the decoding error; all reads before
    that one were complete and without error. *)
Definition policy_last (env : Env) (reads : list ReadResult) (w : World)
    (out : Res (option error) * World) : Prop :=
  exists new,
    trace (snd out) = trace w ++ new
    /\ (Forall no_policy new
        \/ (exists pre before r after,
              new = pre ++ [BanClient (ip (cs w))] /\ Forall no_policy pre
              /\ reads = before ++ r :: after /\ Forall goes_on before
              /\ isPrefix r = true /\ fst out = Val (read_err r))
        \/ (exists pre before r after err,
              new = pre ++ [ApplyMalformedPolicy (ip (cs w))] /\ Forall no_policy pre
              /\ reads = before ++ r :: after /\ Forall goes_on before
              /\ undecodable env r err /\ fst out = Val (Some err))).


(** * Properties *)

(** ** The models of Go's library on small inputs *)

Example Split_user_worker :
  GoString.Split "0xabc.rig1" "."%char = ["0xabc"; "rig1"]%string.
Proof. reflexivity. Qed.

Example Split_no_separator : GoString.Split "0xabc" "."%char = ["0xabc"%string].
Proof. reflexivity. Qed.

Example Split_empty : GoString.Split EmptyString "."%char = [EmptyString].
Proof. reflexivity. Qed.

Example Itoa_negative : GoString.Itoa (-3) = "-3"%string.
Proof. reflexivity. Qed.

Example of_rune_ascii : GoString.of_rune 65 = "A"%string.
Proof. reflexivity. Qed.

Example ParseInt16_values :
  GoString.ParseInt16 "1f" = Some 31
  /\ GoString.ParseInt16 EmptyString = None
  /\ GoString.ParseInt16 "7fffffffffffffff" = Some (2 ^ 63 - 1)
  /\ GoString.ParseInt16 "8000000000000000" = None
  /\ GoString.ParseInt16 "-8000000000000000" = Some (- 2 ^ 63)
  /\ GoString.ParseInt16 "0x1f" = None.
Proof. repeat split; vm_compute; reflexivity. Qed.

Example slice_prefix :
  GoString.slice "0xab" 0 2 = Some "0x"%string
  /\ GoString.slice_from "0xab" 2 = Some "ab"%string
  /\ GoString.slice "0" 0 2 = None.
Proof. repeat split. Qed.

Example Unmarshal_strings_values :
  Unmarshal_strings (Some (JArray [JString "a"; JNull])) = inr ["a"%string; EmptyString]
  /\ Unmarshal_strings (Some JNull) = inr []
  /\ Unmarshal_strings None = inl (Err "unexpected end of JSON input")
  /\ Unmarshal_strings (Some (JArray [JNumber "1"]))
     = inl (Err "json: cannot unmarshal into Go value of type string").
Proof. repeat split. Qed.

Example ReadLine_values :
  ReadLine 8 (String "a" (String "b" (String "010" (String "c" EmptyString)))) EOF
    = ({| data := "ab"; isPrefix := false; read_err := None |}, "c"%string)
  /\ ReadLine 8 "abcdefghij" EOF
     = ({| data := "abcdefgh"; isPrefix := true; read_err := None |}, "ij"%string)
  /\ ReadLine 8 "abc" EOF
     = ({| data := "abc"; isPrefix := false; read_err := None |}, EmptyString)
  /\ ReadLine 8 EmptyString EOF
     = ({| data := EmptyString; isPrefix := false; read_err := Some EOF |}, EmptyString).
Proof. repeat split. Qed.

Example randomHex_job_id :
  fst (randomHex Demo.env 8 Demo.world) = Val "00001111"%string.
Proof. reflexivity. Qed.

(** ** Running monadic code *)

Lemma bind_val {A B} (m : M A) (k : A -> M B) w a w' :
  m w = (Val a, w') -> bind m k w = k a w'.
Proof. intros H. unfold bind. now rewrite H. Qed.

(** ** What a piece of code leaves alone

    [keeps g m]: running [m] does not change the projection [g] of the
    world, whatever [m] returns. *)

Definition keeps {X A} (g : World -> X) (m : M A) : Prop :=
  forall w, g (snd (m w)) = g w.

Section KeepsRules.

Context {X : Type} (g : World -> X).

Lemma keeps_ret {A} (a : A) : keeps g (ret a).
Proof. now intros w. Qed.

Lemma keeps_panic {A} msg : keeps g (@panic A msg).
Proof. now intros w. Qed.

Lemma keeps_hang {A} : keeps g (@hang A).
Proof. now intros w. Qed.

Lemma keeps_get_cs : keeps g get_cs.
Proof. now intros w. Qed.

Lemma keeps_bind {A B} (m : M A) (k : A -> M B) :
  keeps g m -> (forall a, keeps g (k a)) -> keeps g (bind m k).
Proof.
  intros Hm Hk w. unfold bind. specialize (Hm w).
  destruct (m w) as [[a| |] w1]; simpl in *; auto.
  now rewrite Hk.
Qed.

End KeepsRules.

Create HintDb keeps.

Ltac keeps_step :=
  lazymatch goal with
  | |- keeps _ (bind _ _) => apply keeps_bind; [| intros ?]
  | |- keeps _ (ret _) => apply keeps_ret
  | |- keeps _ (panic _) => apply keeps_panic
  | |- keeps _ (match ?x with _ => _ end) => destruct x
  | |- keeps _ _ => solve [auto with keeps]
  end.

Ltac keeps_auto := cbv zeta; repeat keeps_step.

Section Keeps.

Context {X : Type} (g : World -> X).

Lemma keeps_or_panic {A} (o : option A) msg : keeps g (or_panic o msg).
Proof. destruct o; [apply keeps_ret | apply keeps_panic]. Qed.

Lemma keeps_index l i : keeps g (index l i).
Proof. apply keeps_or_panic. Qed.

Lemma keeps_stratumMode : keeps g stratumMode.
Proof. now intros w. Qed.

Hypothesis g_trace : forall e w, g (with_trace e w) = g w.
Hypothesis g_wtape : forall t w, g (with_wtape t w) = g w.
Hypothesis g_rpos : forall n w, g (with_rpos n w) = g w.

Lemma keeps_emit e : keeps g (emit e).
Proof. intros w. apply g_trace. Qed.

Lemma keeps_setDeadline : keeps g setDeadline.
Proof. apply keeps_emit. Qed.

Lemma keeps_Encode f : keeps g (Encode f).
Proof.
  intros w. unfold Encode. destruct (wtape w) as [|[|] t]; simpl;
    rewrite ?g_trace, ?g_wtape; reflexivity.
Qed.

Lemma keeps_rand_Intn env n : keeps g (rand_Intn env n).
Proof. intros w. apply g_rpos. Qed.

Lemma keeps_randomHex env n : keeps g (randomHex env n).
Proof.
  induction n as [|n IH]; simpl.
  - apply keeps_ret.
  - apply keeps_bind; [apply keeps_rand_Intn|]. intros i.
    apply keeps_bind; [exact IH|]. intros r. apply keeps_ret.
Qed.

Lemma keeps_template_Height env : keeps g (template_Height env).
Proof.
  unfold template_Height. destruct (currentBlockTemplate env);
    [apply keeps_ret | apply keeps_panic].
Qed.

Hypothesis g_login : forall l w, g (with_cs (set_login l) w) = g w.
Hypothesis g_worker : forall x w, g (with_cs (set_worker x) w) = g w.
Hypothesis g_sub : forall b w, g (with_cs (set_ExtranonceSub b) w) = g w.
Hypothesis g_job : forall j w, g (with_cs (set_JobDetails j) w) = g w.
Hypothesis g_registry : forall E S w, g (with_registry E S w) = g w.

#[local] Hint Resolve keeps_get_cs keeps_or_panic keeps_index keeps_stratumMode
  keeps_emit keeps_setDeadline keeps_Encode keeps_rand_Intn keeps_randomHex
  keeps_template_Height keeps_hang : keeps.

Lemma keeps_upd_login l : keeps g (upd_cs (set_login l)).
Proof. intros w. apply g_login. Qed.

Lemma keeps_upd_worker x : keeps g (upd_cs (set_worker x)).
Proof. intros w. apply g_worker. Qed.

Lemma keeps_upd_sub b : keeps g (upd_cs (set_ExtranonceSub b)).
Proof. intros w. apply g_sub. Qed.

Lemma keeps_upd_job j : keeps g (upd_cs (set_JobDetails j)).
Proof. intros w. apply g_job. Qed.

Lemma keeps_registerSession : keeps g registerSession.
Proof. intros w. apply g_registry. Qed.

Lemma keeps_removeSession : keeps g removeSession.
Proof. intros w. apply g_registry. Qed.

#[local] Hint Resolve keeps_upd_login keeps_upd_worker keeps_upd_sub keeps_upd_job
  keeps_registerSession keeps_removeSession : keeps.

Lemma keeps_sendTCPResult id r : keeps g (sendTCPResult id r).
Proof. apply keeps_Encode. Qed.

Lemma keeps_sendTCPError id r : keeps g (sendTCPError id r).
Proof. unfold sendTCPError. keeps_auto. Qed.

Lemma keeps_sendStratumResult id r : keeps g (sendStratumResult id r).
Proof. apply keeps_Encode. Qed.

Lemma keeps_sendStratumError id r : keeps g (sendStratumError id r).
Proof. apply keeps_Encode. Qed.

Lemma keeps_sendTCPReq f : keeps g (sendTCPReq f).
Proof. apply keeps_Encode. Qed.

#[local] Hint Resolve keeps_sendTCPResult keeps_sendTCPError keeps_sendStratumResult
  keeps_sendStratumError keeps_sendTCPReq : keeps.

Variable env : Env.

Lemma keeps_strip0x : keeps g strip0x.
Proof. unfold strip0x. keeps_auto. Qed.

Lemma keeps_loginRPC params id : keeps g (loginRPC env params id).
Proof. unfold loginRPC. keeps_auto. Qed.

Lemma keeps_getWorkRPC : keeps g (getWorkRPC env).
Proof. unfold getWorkRPC. keeps_auto. Qed.

Lemma keeps_submitRPC id params : keeps g (submitRPC env id params).
Proof. unfold submitRPC. keeps_auto. Qed.

Lemma keeps_unknownRPC m : keeps g (unknownRPC env m).
Proof. unfold unknownRPC. keeps_auto. Qed.

#[local] Hint Resolve keeps_strip0x keeps_loginRPC keeps_getWorkRPC keeps_submitRPC
  keeps_unknownRPC : keeps.

Lemma keeps_sendJob id newjob : keeps g (sendJob env id newjob).
Proof. unfold sendJob. keeps_auto. Qed.

Lemma keeps_getNotificationResponse : keeps g (getNotificationResponse env).
Proof. unfold getNotificationResponse. keeps_auto. Qed.

#[local] Hint Resolve keeps_sendJob keeps_getNotificationResponse : keeps.

Lemma keeps_on_eth_login req : keeps g (on_eth_login env req).
Proof. unfold on_eth_login. keeps_auto. Qed.

Lemma keeps_on_mining_authorize req : keeps g (on_mining_authorize env req).
Proof. unfold on_mining_authorize. keeps_auto. Qed.

Lemma keeps_on_mining_extranonce_subscribe req :
  keeps g (on_mining_extranonce_subscribe req).
Proof. unfold on_mining_extranonce_subscribe. keeps_auto. Qed.

Lemma keeps_on_mining_submit req : keeps g (on_mining_submit env req).
Proof. unfold on_mining_submit. keeps_auto. Qed.

Lemma keeps_on_nicehash_unknown req : keeps g (on_nicehash_unknown env req).
Proof. unfold on_nicehash_unknown. keeps_auto. Qed.

Lemma keeps_on_eth_getWork req : keeps g (on_eth_getWork env req).
Proof. unfold on_eth_getWork. keeps_auto. Qed.

Lemma keeps_on_eth_submitWork req : keeps g (on_eth_submitWork env req).
Proof. unfold on_eth_submitWork. keeps_auto. Qed.

Lemma keeps_on_eth_submitHashrate req : keeps g (on_eth_submitHashrate req).
Proof. unfold on_eth_submitHashrate. keeps_auto. Qed.

Lemma keeps_on_unknown req : keeps g (on_unknown env req).
Proof. unfold on_unknown. keeps_auto. Qed.

#[local] Hint Resolve keeps_on_eth_login keeps_on_mining_authorize
  keeps_on_mining_extranonce_subscribe keeps_on_mining_submit
  keeps_on_nicehash_unknown keeps_on_eth_getWork keeps_on_eth_submitWork
  keeps_on_eth_submitHashrate keeps_on_unknown : keeps.

Lemma keeps_nicehash_switch req : keeps g (nicehash_switch env req).
Proof. unfold nicehash_switch. keeps_auto. Qed.

Lemma keeps_ethproxy_switch req : keeps g (ethproxy_switch env req).
Proof. unfold ethproxy_switch. keeps_auto. Qed.

Lemma keeps_returning m : keeps g m -> keeps g (returning m).
Proof. intros H. unfold returning. keeps_auto. Qed.

#[local] Hint Resolve keeps_nicehash_switch keeps_ethproxy_switch keeps_returning : keeps.

(** The code after the first switch. *)
Lemma keeps_second_part req :
  keeps g (mode <- stratumMode;;
           if mode =? NiceHash then nicehash_switch env req else ethproxy_switch env req).
Proof. keeps_auto. Qed.

Hypothesis g_stratum : forall z w, g (with_cs (set_stratum z) w) = g w.

Lemma keeps_setStratumMode str : keeps g (setStratumMode str).
Proof.
  unfold setStratumMode. keeps_auto; intros w; apply g_stratum.
Qed.

#[local] Hint Resolve keeps_setStratumMode : keeps.

Lemma keeps_on_eth_submitLogin req : keeps g (on_eth_submitLogin env req).
Proof. unfold on_eth_submitLogin. keeps_auto. Qed.

Lemma keeps_on_mining_subscribe req : keeps g (on_mining_subscribe env req).
Proof. unfold on_mining_subscribe. keeps_auto. Qed.

#[local] Hint Resolve keeps_on_eth_submitLogin keeps_on_mining_subscribe : keeps.

Lemma keeps_first_switch req : keeps g (first_switch env req).
Proof. unfold first_switch. keeps_auto. Qed.

#[local] Hint Resolve keeps_first_switch : keeps.

Lemma keeps_handleTCPMessage req : keeps g (handleTCPMessage env req).
Proof. unfold handleTCPMessage. keeps_auto. Qed.

#[local] Hint Resolve keeps_handleTCPMessage : keeps.

Lemma keeps_read_loop reads : keeps g (read_loop env reads).
Proof.
  induction reads as [|r rest IH]; simpl; keeps_auto.
Qed.

Lemma keeps_handleTCPClient reads : keeps g (handleTCPClient env reads).
Proof.
  unfold handleTCPClient. apply keeps_bind; [apply keeps_setDeadline|].
  intros _. apply keeps_read_loop.
Qed.

Lemma keeps_bind_after {A B} (m : M A) (k : A -> M B) w :
  (forall a, keeps g (k a)) -> g (snd (bind m k w)) = g (snd (m w)).
Proof.
  intros Hk. unfold bind. destruct (m w) as [[a| |] w1]; simpl; auto.
  apply Hk.
Qed.

(** pushNewJob touches the world through cacheStales, and otherwise only
    through the job details, the generator and the connection. *)
Lemma pushNewJob_NiceHash result w :
  stratum (cs w) = NiceHash ->
  g (snd (pushNewJob env result w)) = g (snd (cacheStales 10 3 w)).
Proof.
  intros Hm. unfold pushNewJob.
  rewrite (bind_val stratumMode _ w (stratum (cs w)) w eq_refl), Hm.
  change (NiceHash =? NiceHash) with true. cbv iota.
  apply keeps_bind_after. intros _. keeps_auto.
Qed.

Lemma pushNewJob_other result w :
  stratum (cs w) <> NiceHash ->
  g (snd (pushNewJob env result w)) = g w.
Proof.
  intros Hm. unfold pushNewJob.
  rewrite (bind_val stratumMode _ w (stratum (cs w)) w eq_refl).
  destruct (Z.eqb_spec (stratum (cs w)) NiceHash) as [E|_]; [now elim Hm|].
  apply keeps_Encode.
Qed.

Hypothesis g_stales : forall m ids w, g (with_cs (set_stales m ids) w) = g w.

Lemma keeps_cacheStales max n : keeps g (cacheStales max n).
Proof.
  unfold cacheStales. keeps_auto; intros w; apply g_stales.
Qed.

Lemma keeps_pushNewJob result : keeps g (pushNewJob env result).
Proof.
  intros w. destruct (Z.eq_dec (stratum (cs w)) NiceHash) as [E|N].
  - rewrite pushNewJob_NiceHash by exact E. apply keeps_cacheStales.
  - now apply pushNewJob_other.
Qed.

End Keeps.

(** ** Code that moves the world along a relation *)

Definition moves {A} (R : World -> World -> Prop) (m : M A) : Prop :=
  forall w, R w (snd (m w)).

Section Moves.

Variable R : World -> World -> Prop.
Hypothesis R_refl : forall w, R w w.
Hypothesis R_trans : forall w1 w2 w3, R w1 w2 -> R w2 w3 -> R w1 w3.

Lemma moves_ret {A} (a : A) : moves R (ret a).
Proof. intros w. apply R_refl. Qed.

Lemma moves_bind {A B} (m : M A) (k : A -> M B) :
  moves R m -> (forall a, moves R (k a)) -> moves R (bind m k).
Proof.
  intros Hm Hk w. unfold bind. specialize (Hm w).
  destruct (m w) as [[a| |] w1]; simpl in *; auto.
  eapply R_trans; [exact Hm | apply Hk].
Qed.

Lemma moves_keeps {X A} (g : World -> X) (m : M A) :
  (forall w w', g w' = g w -> R w w') -> keeps g m -> moves R m.
Proof. intros HR Hk w. apply HR, Hk. Qed.

End Moves.

(** ** C1: the bound of the stale-job cache *)

Lemma foldl_delete_lookup (del : list string) (m : gmap string staleJob) k :
  foldl (fun m v => delete v m) m del !! k =
    if decide (k ∈ del) then None else m !! k.
Proof.
  revert m. induction del as [|v del IH]; intros m; simpl.
  - destruct (decide (k ∈ [])) as [Hin|_]; [|reflexivity].
    now apply elem_of_nil in Hin.
  - rewrite IH.
    destruct (decide (k ∈ del)) as [Hin|Hnin], (decide (k ∈ v :: del)) as [Hc|Hc];
      try reflexivity.
    + elim Hc. now apply list_elem_of_further.
    + apply elem_of_cons in Hc. destruct Hc as [->|Hc]; [|now elim Hnin].
      apply lookup_delete_eq.
    + apply lookup_delete_ne. intros ->. apply Hc, list_elem_of_here.
Qed.

Lemma size_list_to_set_le (l : list string) :
  (size (list_to_set l : gset string) <= List.length l)%nat.
Proof.
  induction l as [|x l IH].
  - rewrite list_to_set_nil, size_empty. simpl. lia.
  - rewrite list_to_set_cons, size_union_alt, size_singleton.
    assert (Hsub : (size (list_to_set l ∖ {[x]} : gset string)
                    <= size (list_to_set l : gset string))%nat).
    { apply subseteq_size. intros y Hy. apply elem_of_difference in Hy. tauto. }
    simpl. lia.
Qed.

Lemma stale_inv_size n s : stale_inv n s -> (size (staleJobs s) <= n)%nat.
Proof.
  intros [Hdom Hlen].
  assert (Hsz : size (dom (staleJobs s) : gset string) = size (staleJobs s))
    by apply size_dom.
  apply subseteq_size in Hdom.
  pose proof (size_list_to_set_le (staleJobIDs s)). lia.
Qed.

(** One call [cacheStales(10, 3)] keeps the keys of the cache within the
    id list, and the id list within eleven entries. *)
Lemma cacheStales_inv (w : World) :
  stale_inv 11 (cs w) -> stale_inv 11 (cs (snd (cacheStales 10 3 w))).
Proof.
  intros [Hdom Hlen]. unfold cacheStales, bind, get_cs, upd_cs, ret; simpl.
  destruct (10 <? Z.of_nat (List.length (staleJobIDs (cs w)))) eqn:Hgt.
  - apply Z.ltb_lt in Hgt.
    assert (Hl : List.length (staleJobIDs (cs w)) = 11%nat) by lia.
    unfold list_slice. rewrite Hl. simpl.
    change (Z.to_nat (Z.of_nat 11 - 3 - 0)) with 8%nat.
    change (Z.to_nat 0) with 0%nat.
    change (Z.to_nat (Z.of_nat 11 - (Z.of_nat 11 - 3))) with 3%nat.
    change (Z.to_nat (Z.of_nat 11 - 3)) with 8%nat.
    split; simpl.
    + intros k Hk. apply elem_of_dom in Hk. destruct Hk as [v Hk].
      destruct (decide (k = JobID (JobDetails (cs w)))) as [->|Hne].
      * apply elem_of_list_to_set, elem_of_app. right. apply list_elem_of_singleton.
        reflexivity.
      * rewrite lookup_insert_ne in Hk by congruence.
        rewrite foldl_delete_lookup in Hk.
        destruct (decide (k ∈ take 8 (drop 0 (staleJobIDs (cs w))))) as [|Hnd];
          [discriminate|].
        assert (Hin : k ∈ staleJobIDs (cs w)).
        { assert (Hs : k ∈ (list_to_set (staleJobIDs (cs w)) : gset string))
            by (apply Hdom, elem_of_dom; eauto).
          now apply elem_of_list_to_set in Hs. }
        rewrite <- (take_drop 8 (staleJobIDs (cs w))) in Hin.
        apply elem_of_app in Hin. destruct Hin as [Hin|Hin]; [now elim Hnd|].
        apply elem_of_list_to_set, elem_of_app. left.
        rewrite take_ge; [exact Hin | rewrite length_drop, Hl; simpl; lia].
    + rewrite length_app, length_take, length_drop, Hl. simpl. lia.
  - apply Z.ltb_ge in Hgt. simpl. split; simpl.
    + intros k Hk. rewrite list_to_set_app. apply elem_of_union.
      rewrite dom_insert in Hk. apply elem_of_union in Hk.
      destruct Hk as [Hk|Hk]; [right | left; now apply Hdom].
      apply elem_of_singleton in Hk. subst k.
      apply elem_of_list_to_set, list_elem_of_singleton. reflexivity.
    + rewrite length_app. simpl. lia.
Qed.

Lemma pushNewJob_inv env result w :
  stale_inv 11 (cs w) -> stale_inv 11 (cs (snd (pushNewJob env result w))).
Proof.
  intros H. unfold stale_inv.
  destruct (Z.eq_dec (stratum (cs w)) NiceHash) as [E|N].
  - rewrite (pushNewJob_NiceHash (fun w => staleJobs (cs w))) by auto.
    rewrite (pushNewJob_NiceHash (fun w => staleJobIDs (cs w))) by auto.
    now apply cacheStales_inv.
  - rewrite (pushNewJob_other (fun w => staleJobs (cs w))) by auto.
    rewrite (pushNewJob_other (fun w => staleJobIDs (cs w))) by auto.
    exact H.
Qed.

(** No request touches the stale cache or its id list. *)
Lemma handleTCPMessage_stales env req w :
  staleJobs (cs (snd (handleTCPMessage env req w))) = staleJobs (cs w)
  /\ staleJobIDs (cs (snd (handleTCPMessage env req w))) = staleJobIDs (cs w).
Proof.
  split.
  - now apply (keeps_handleTCPMessage (fun w => staleJobs (cs w))).
  - now apply (keeps_handleTCPMessage (fun w => staleJobIDs (cs w))).
Qed.

(** After pushNewJob a broadcast only drops the session from the table
    or renews its deadline. *)
Lemma broadcast_to_cs env reply w :
  cs (snd (broadcast_to env reply w)) = cs (snd (pushNewJob env reply w)).
Proof.
  unfold broadcast_to. apply (keeps_bind_after cs).
  intros [e|] w'; reflexivity.
Qed.

Lemma do_op_inv env o w :
  stale_inv 11 (cs w) -> stale_inv 11 (cs (snd (do_op env o w))).
Proof.
  intros H. destruct o as [req|reply]; simpl.
  - destruct (handleTCPMessage_stales env req w) as [Hm Hi].
    unfold bind. destruct (handleTCPMessage env req w) as [[e| |] w1];
      simpl in *; unfold stale_inv; now rewrite Hm, Hi.
  - rewrite broadcast_to_cs. now apply pushNewJob_inv.
Qed.

Lemma run_inv env ops w :
  stale_inv 11 (cs w) -> stale_inv 11 (cs (snd (run env ops w))).
Proof.
  revert w. induction ops as [|o ops IH]; intros w H; simpl; [exact H|].
  pose proof (do_op_inv env o w H) as Ho.
  unfold bind. destruct (do_op env o w) as [[[]| |] w1]; simpl in *; auto.
Qed.

(** C1 (amended). Whatever requests and job broadcasts a session meets
    after ListenTCP has built it, its stale-job cache holds at most
    eleven entries: the ten [cacheStales(10, 3)] lets the id list reach
    before it trims, and the one it then adds. *)
Theorem stale_cache_bound env a ip extranonce ops w :
  (size (staleJobs (cs (snd (run env ops (fresh a ip extranonce w))))) <= 11)%nat.
Proof.
  apply stale_inv_size, run_inv. split; simpl.
  - rewrite dom_empty. apply empty_subseteq.
  - lia.
Qed.

(** C1, refuted as stated: after eleven broadcasts the cache holds eleven
    entries, one more than MAX_STALE = 10. *)
Lemma stale_cache_exceeds_ten :
  fst (run Demo.env eleven_pushes Demo.world) = Val tt
  /\ size (staleJobs (cs (snd (run Demo.env eleven_pushes Demo.world)))) = 11%nat
  /\ ~ (size (staleJobs (cs (snd (run Demo.env eleven_pushes Demo.world)))) <= 10)%nat.
Proof.
  assert (H : size (staleJobs (cs (snd (run Demo.env eleven_pushes Demo.world)))) = 11%nat)
    by (vm_compute; reflexivity).
  split; [vm_compute; reflexivity | split; [exact H | rewrite H; lia]].
Qed.

(** ** C2: the dialect of a session *)

Lemma mode_to_refl z w : mode_to z w w.
Proof. now left. Qed.

Lemma mode_to_trans z w1 w2 w3 : mode_to z w1 w2 -> mode_to z w2 w3 -> mode_to z w1 w3.
Proof. unfold mode_to. intros [H1|H1] [H2|H2]; rewrite ?H2, ?H1; auto. Qed.

Tactic Notation "mode_leaf" uconstr(L) :=
  apply (moves_keeps _ mode_of); [intros ? ? ?; now left | apply L; intros; reflexivity].

Ltac mode_bind z :=
  apply (moves_bind _ (mode_to_trans z)).

Lemma on_eth_submitLogin_mode env req :
  moves (mode_to EthProxy) (on_eth_submitLogin env req).
Proof.
  unfold on_eth_submitLogin.
  destruct (Unmarshal_strings (Params req)) as [err|params];
    [apply moves_ret, mode_to_refl|].
  destruct (List.length params <? 1)%nat; [apply moves_ret, mode_to_refl|].
  mode_bind EthProxy; [mode_leaf keeps_loginRPC|]. intros [err|reply].
  - mode_leaf keeps_sendTCPError.
  - mode_bind EthProxy; [intros w; now right|]. intros _.
    mode_leaf keeps_sendTCPResult.
Qed.

Lemma on_mining_subscribe_mode env req :
  moves (mode_to NiceHash) (on_mining_subscribe env req).
Proof.
  unfold on_mining_subscribe.
  destruct (Unmarshal_strings (Params req)) as [err|params];
    [apply moves_ret, mode_to_refl|].
  destruct (List.length params <? 2)%nat; [apply moves_ret, mode_to_refl|].
  mode_bind NiceHash; [mode_leaf keeps_index|]. intros p0.
  mode_bind NiceHash; [mode_leaf keeps_index|]. intros p1.
  destruct (negb (p1 =? "EthereumStratum/1.0.0")%string
            && negb (p0 =? "GodMiner/2.0.0")%string).
  - mode_leaf keeps_sendStratumError.
  - mode_bind NiceHash; [mode_leaf keeps_upd_sub|]. intros _.
    mode_bind NiceHash; [intros w; now right|]. intros _.
    mode_bind NiceHash; [mode_leaf keeps_getNotificationResponse|]. intros result.
    mode_leaf keeps_sendStratumResult.
Qed.

(** What follows the first switch never writes the mode. *)
Lemma after_first_switch_mode env req z (f : Flow) :
  moves (mode_to z)
    (match f with
     | Return e => ret e
     | Next =>
         mode <- stratumMode;;
         if mode =? NiceHash then nicehash_switch env req else ethproxy_switch env req
     end).
Proof.
  destruct f as [e|]; [apply moves_ret, mode_to_refl|].
  mode_leaf keeps_second_part.
Qed.

Lemma handleTCPMessage_mode env req w :
  mode_of (snd (handleTCPMessage env req w)) = mode_of w
  \/ (Method req = "eth_submitLogin"%string
      /\ mode_of (snd (handleTCPMessage env req w)) = EthProxy)
  \/ (Method req = "mining.subscribe"%string
      /\ mode_of (snd (handleTCPMessage env req w)) = NiceHash).
Proof.
  unfold handleTCPMessage, first_switch.
  destruct (String.eqb_spec (Method req) "eth_login") as [E1|N1].
  { left. revert w. change (moves (fun w w' => mode_of w' = mode_of w)
      (bind (returning (on_eth_login env req))
         (fun f => match f with
                   | Return e => ret e
                   | Next => mode <- stratumMode;;
                             if mode =? NiceHash then nicehash_switch env req
                             else ethproxy_switch env req
                   end))).
    apply moves_bind; [congruence | |].
    - apply (moves_keeps _ mode_of); [auto|].
      apply keeps_returning, keeps_on_eth_login; intros; reflexivity.
    - intros f. apply (moves_keeps _ mode_of); [auto|].
      destruct f; [apply keeps_ret | apply keeps_second_part; intros; reflexivity]. }
  destruct (String.eqb_spec (Method req) "eth_submitLogin") as [E2|N2].
  { assert (H : mode_to EthProxy w
                  (snd (bind (returning (on_eth_submitLogin env req))
                          (fun f => match f with
                                    | Return e => ret e
                                    | Next => mode <- stratumMode;;
                                              if mode =? NiceHash
                                              then nicehash_switch env req
                                              else ethproxy_switch env req
                                    end) w))).
    { revert w. mode_bind EthProxy; [| intros f; apply after_first_switch_mode].
      unfold returning. mode_bind EthProxy; [apply on_eth_submitLogin_mode|].
      intros e. apply moves_ret, mode_to_refl. }
    destruct H as [H|H]; auto. }
  destruct (String.eqb_spec (Method req) "mining.subscribe") as [E3|N3].
  { assert (H : mode_to NiceHash w
                  (snd (bind (returning (on_mining_subscribe env req))
                          (fun f => match f with
                                    | Return e => ret e
                                    | Next => mode <- stratumMode;;
                                              if mode =? NiceHash
                                              then nicehash_switch env req
                                              else ethproxy_switch env req
                                    end) w))).
    { revert w. mode_bind NiceHash; [| intros f; apply after_first_switch_mode].
      unfold returning. mode_bind NiceHash; [apply on_mining_subscribe_mode|].
      intros e. apply moves_ret, mode_to_refl. }
    destruct H as [H|H]; auto. }
  left. revert w.
  change (keeps mode_of
    (bind (mode <- stratumMode;;
           if mode =? 0 then ret Next
           else if mode =? 1 then ret Next
           else returning (on_unknown env req))
       (fun f => match f with
                 | Return e => ret e
                 | Next => mode <- stratumMode;;
                           if mode =? NiceHash then nicehash_switch env req
                           else ethproxy_switch env req
                 end))).
  apply keeps_bind.
  - apply keeps_bind; [apply keeps_stratumMode|]. intros mode.
    destruct (mode =? 0); [apply keeps_ret|].
    destruct (mode =? 1); [apply keeps_ret|].
    apply keeps_returning, keeps_on_unknown; intros; reflexivity.
  - intros f. destruct f; [apply keeps_ret | apply keeps_second_part; intros; reflexivity].
Qed.

Lemma do_op_mode env o w :
  mode_of (snd (do_op env o w)) = mode_of w
  \/ mode_of (snd (do_op env o w)) = EthProxy
  \/ mode_of (snd (do_op env o w)) = NiceHash.
Proof.
  destruct o as [req|reply]; simpl.
  - pose proof (handleTCPMessage_mode env req w) as H.
    unfold bind. destruct (handleTCPMessage env req w) as [[e| |] w1];
      simpl in *; tauto.
  - left. unfold mode_of. rewrite broadcast_to_cs.
    apply (keeps_pushNewJob mode_of); reflexivity.
Qed.

Lemma run_mode_set env ops w :
  mode_of w = EthProxy \/ mode_of w = NiceHash ->
  mode_of (snd (run env ops w)) = EthProxy \/ mode_of (snd (run env ops w)) = NiceHash.
Proof.
  revert w. induction ops as [|o ops IH]; intros w H; simpl; [exact H|].
  pose proof (do_op_mode env o w) as Ho.
  unfold bind. destruct (do_op env o w) as [[[]| |] w1]; simpl in *.
  - apply IH. destruct Ho as [Ho|Ho]; [rewrite Ho; exact H | tauto].
  - destruct Ho as [Ho|Ho]; [rewrite Ho; exact H | tauto].
  - destruct Ho as [Ho|Ho]; [rewrite Ho; exact H | tauto].
Qed.

(** C2 (amended). The dialect is not fixed by its first assignment. A
    request leaves the mode as it was, or it is an eth_submitLogin and
    the mode is now EthProxy, or it is a mining.subscribe and the mode is
    now NiceHash, whatever the mode was before; no job broadcast changes
    the mode; and once the mode is EthProxy or NiceHash it is one of the
    two after any further requests and broadcasts (it never returns to
    Unset). *)
Theorem dialect_changes env req w :
  (stratum (cs (snd (handleTCPMessage env req w))) = stratum (cs w)
   \/ (Method req = "eth_submitLogin"%string
       /\ stratum (cs (snd (handleTCPMessage env req w))) = EthProxy)
   \/ (Method req = "mining.subscribe"%string
       /\ stratum (cs (snd (handleTCPMessage env req w))) = NiceHash))
  /\ (forall reply, stratum (cs (snd (pushNewJob env reply w))) = stratum (cs w))
  /\ (forall ops,
        stratum (cs w) = EthProxy \/ stratum (cs w) = NiceHash ->
        stratum (cs (snd (run env ops w))) = EthProxy
        \/ stratum (cs (snd (run env ops w))) = NiceHash).
Proof.
  split; [apply handleTCPMessage_mode|]. split.
  - intros reply. apply (keeps_pushNewJob mode_of); reflexivity.
  - intros ops. apply run_mode_set.
Qed.

(** C2, refuted as stated: a session that subscribed (NiceHash) and then
    sends eth_submitLogin ends in EthProxy mode. *)
Lemma dialect_flips :
  stratum (cs Demo.world) = -1
  /\ stratum (cs (snd (run Demo.env [Request Demo.subscribe] Demo.world))) = NiceHash
  /\ stratum (cs (snd (run Demo.env [Request Demo.subscribe; Request Demo.submitLogin]
                         Demo.world))) = EthProxy.
Proof. split; [|split]; vm_compute; reflexivity. Qed.

(** ** C3: requests without a handler *)

Lemma has_handler_false mode m :
  has_handler mode m = false ->
  String.eqb m "eth_login" = false /\ String.eqb m "eth_submitLogin" = false
  /\ String.eqb m "mining.subscribe" = false
  /\ (mode = NiceHash ->
      String.eqb m "mining.authorize" = false
      /\ String.eqb m "mining.extranonce.subscribe" = false
      /\ String.eqb m "mining.submit" = false)
  /\ (mode = EthProxy ->
      String.eqb m "eth_getWork" = false /\ String.eqb m "eth_submitWork" = false
      /\ String.eqb m "eth_submitHashrate" = false).
Proof.
  unfold has_handler. intros H.
  apply orb_false_iff in H. destruct H as [H Hmode].
  apply orb_false_iff in H. destruct H as [H H3].
  apply orb_false_iff in H. destruct H as [H1 H2].
  split; [exact H1|]. split; [exact H2|]. split; [exact H3|]. split.
  - intros ->. change (NiceHash =? NiceHash) with true in Hmode. cbv iota in Hmode.
    apply orb_false_iff in Hmode. destruct Hmode as [Hmode H6].
    apply orb_false_iff in Hmode. tauto.
  - intros ->. change (EthProxy =? NiceHash) with false in Hmode.
    change (EthProxy =? EthProxy) with true in Hmode. cbv iota in Hmode.
    apply orb_false_iff in Hmode. destruct Hmode as [Hmode H6].
    apply orb_false_iff in Hmode. tauto.
Qed.

Lemma trace_two (t : list Event) a b : (t ++ [a]) ++ [b] = t ++ [a; b].
Proof. now rewrite <- app_assoc. Qed.

(** C3 (amended). A request whose method has no handler gets an error
    reply, and what follows depends on the mode. In NiceHash mode the
    reply is a stratum error and, when the write succeeds, the handler
    returns nil: the session continues. In every other mode (Unset,
    EthProxy) the reply is a JSON-RPC 2.0 error sent through sendTCPError,
    and the handler always returns an error, which ends the session. *)
Theorem unknown_method_reply env req w :
  has_handler (stratum (cs w)) (Method req) = false ->
  (stratum (cs w) = NiceHash -> writes_ok w ->
     fst (handleTCPMessage env req w) = Val None
     /\ trace (snd (handleTCPMessage env req w)) =
          trace w ++ [UnknownRPC (Method req);
                      Sent (JSONRpcResp (Id req) "" VNil
                              (VStrings [GoString.Itoa (Code (unknown_reply env req w));
                                         Message (unknown_reply env req w)]))])
  /\ (stratum (cs w) <> NiceHash ->
      (exists e, fst (handleTCPMessage env req w) = Val (Some e))
      /\ (writes_ok w ->
          fst (handleTCPMessage env req w) =
            Val (Some (Err (Message (unknown_reply env req w))))
          /\ trace (snd (handleTCPMessage env req w)) =
               trace w ++ [UnknownRPC (Method req);
                           Sent (JSONRpcResp (Id req) "2.0" VNil
                                   (VError (unknown_reply env req w)))])).
Proof.
  intros H. apply has_handler_false in H.
  destruct H as (H1 & H2 & H3 & HN & HE).
  unfold unknown_reply, handleTCPMessage, first_switch, writes_ok.
  rewrite H1, H2, H3.
  destruct w as [s E S c t wt r]. destruct s as [a i l wk st x xs jd sj ids].
  simpl in *.
  split.
  - intros Hm Hw. destruct (HN Hm) as (H4 & H5 & H6). subst st.
    unfold bind, stratumMode, get_cs, ret, nicehash_switch; simpl.
    rewrite H4, H5, H6.
    unfold on_nicehash_unknown, unknownRPC, sendStratumError, Encode, bind,
      get_cs, emit, ret; simpl.
    destruct wt as [|[|] wt]; simpl in *; try discriminate;
      rewrite trace_two; auto.
  - intros Hm.
    unfold bind, stratumMode, get_cs, ret; simpl.
    destruct (Z.eqb_spec st 0) as [E0|N0].
    + destruct (HE E0) as (H4 & H5 & H6). subst st. simpl.
      unfold ethproxy_switch. rewrite H4, H5, H6.
      unfold on_unknown, unknownRPC, sendTCPError, Encode, bind,
        get_cs, emit, ret; simpl.
      destruct wt as [|[|] wt]; simpl in *;
        (split; [eauto | intros Hw; try discriminate; rewrite trace_two; auto]).
    + destruct (Z.eqb_spec st 1) as [E1|N1]; [now elim Hm|].
      unfold returning, on_unknown, unknownRPC, sendTCPError, Encode, bind,
        get_cs, emit, ret; simpl.
      destruct wt as [|[|] wt]; simpl in *;
        (split; [eauto | intros Hw; try discriminate; rewrite trace_two; auto]).
Qed.

Lemma unknown_method_reply_witness :
  has_handler (stratum (cs Demo.world)) (Method (Demo.request "foo" [])) = false
  /\ exists e, fst (handleTCPMessage Demo.env (Demo.request "foo" []) Demo.world)
               = Val (Some e).
Proof.
  split; [reflexivity|].
  refine (proj1 (proj2 (unknown_method_reply Demo.env (Demo.request "foo" [])
                          Demo.world eq_refl) _)).
  discriminate.
Defined.

(** C3, refuted as stated: an unknown method ends a session that is in
    Unset mode, and one that is in EthProxy mode; the handler returns an
    error. *)
Lemma unknown_method_ends_session :
  fst (handleTCPMessage Demo.env (Demo.request "foo" []) Demo.world)
    = Val (Some (Err "Method not found"))
  /\ stratum (cs (snd (run Demo.env [Request Demo.submitLogin] Demo.world))) = EthProxy
  /\ fst (handleTCPMessage Demo.env (Demo.request "foo" [])
            (snd (run Demo.env [Request Demo.submitLogin] Demo.world)))
       = Val (Some (Err "Method not found"))
  /\ fst (handleTCPMessage Demo.env (Demo.request "foo" []) Demo.world) <> Val None.
Proof.
  split; [vm_compute; reflexivity|]. split; [vm_compute; reflexivity|].
  split; [vm_compute; reflexivity|]. vm_compute. discriminate.
Qed.

(** ** C4: how a session ends *)

Lemma handleTCPClient_read_loop env reads w :
  handleTCPClient env reads w = read_loop env reads (with_trace SetDeadline w).
Proof. reflexivity. Qed.

(** An error from the reader: the goroutine removes the session and
    closes the connection. *)
Lemma session_task_error env reads w e :
  fst (handleTCPClient env reads w) = Val (Some e) ->
  released w (snd (session_task env reads w))
  /\ connClosed (snd (session_task env reads w)) = true.
Proof.
  intros H.
  assert (Hx : keeps (fun w => Extranonce (cs w)) (handleTCPClient env reads))
    by (apply keeps_handleTCPClient; intros; reflexivity).
  assert (Ha : keeps (fun w => addr (cs w)) (handleTCPClient env reads))
    by (apply keeps_handleTCPClient; intros; reflexivity).
  specialize (Hx w). specialize (Ha w).
  unfold session_task, bind.
  destruct (handleTCPClient env reads w) as [[[e'|]| |] w1]; simpl in *;
    try discriminate.
  unfold released; simpl. rewrite <- Hx, <- Ha. split; [split|reflexivity].
  - apply lookup_delete_eq.
  - intros Hin. apply elem_of_difference in Hin. destruct Hin as [_ Hin].
    apply Hin, elem_of_singleton. reflexivity.
Qed.

Lemma ends_released_intro env reads w e :
  fst (handleTCPClient env reads w) = Val (Some e) -> ends_released env reads w e.
Proof.
  intros H. split; [exact H|]. now apply session_task_error with (e := e).
Qed.

(** C4 (amended). Let the reads [pre] go by, and let [r] be the read
    that ends the reader. If [r] is a read error, a line that is not
    JSON, or a request whose handler returns an error, the reader
    returns that error, and the goroutine removes the session's
    extranonce from the extranonce set, removes the session from the
    session table and closes the connection. If [r] is the end of the
    stream, the reader itself removes the extranonce and the session and
    returns nil, and the connection is left as it was: nothing closes it. *)
Theorem session_release env pre r rest w w1 :
  passes env pre (with_trace SetDeadline w) w1 ->
  isPrefix r = false ->
  (forall msg, read_err r = Some (Err msg) ->
     ends_released env (pre ++ r :: rest) w (Err msg))
  /\ (forall err,
        read_err r = None -> (1 < String.length (data r))%nat ->
        Unmarshal_req env (data r) = inl err ->
        ends_released env (pre ++ r :: rest) w err)
  /\ (forall req err,
        read_err r = None -> (1 < String.length (data r))%nat ->
        Unmarshal_req env (data r) = inr req ->
        fst (handleTCPMessage env req (with_trace SetDeadline w1)) = Val (Some err) ->
        ends_released env (pre ++ r :: rest) w err)
  /\ (read_err r = Some EOF ->
      fst (handleTCPClient env (pre ++ r :: rest) w) = Val None
      /\ released w (snd (session_task env (pre ++ r :: rest) w))
      /\ connClosed (snd (session_task env (pre ++ r :: rest) w)) = connClosed w).
Proof.
  intros Hpre Hpf.
  assert (Hrun : handleTCPClient env (pre ++ r :: rest) w = read_loop env (r :: rest) w1)
    by (rewrite handleTCPClient_read_loop; apply Hpre).
  split; [|split; [|split]].
  - intros msg Herr. apply ends_released_intro. rewrite Hrun.
    cbn [read_loop]. now rewrite Hpf, Herr.
  - intros err Herr Hlen Hbad. apply ends_released_intro. rewrite Hrun.
    cbn [read_loop]. rewrite Hpf, Herr.
    apply Nat.ltb_lt in Hlen. rewrite Hlen, Hbad. reflexivity.
  - intros req err Herr Hlen Hreq Hh. apply ends_released_intro. rewrite Hrun.
    cbn [read_loop]. rewrite Hpf, Herr.
    apply Nat.ltb_lt in Hlen. rewrite Hlen, Hreq.
    unfold bind at 1. unfold setDeadline, emit at 1.
    unfold bind at 1.
    destruct (handleTCPMessage env req (with_trace SetDeadline w1))
      as [[[e'|]| |] w2]; simpl in Hh; try discriminate.
    injection Hh as ->. reflexivity.
  - intros Herr.
    assert (Hx : keeps (fun w => Extranonce (cs w)) (handleTCPClient env (pre ++ r :: rest)))
      by (apply keeps_handleTCPClient; intros; reflexivity).
    assert (Ha : keeps (fun w => addr (cs w)) (handleTCPClient env (pre ++ r :: rest)))
      by (apply keeps_handleTCPClient; intros; reflexivity).
    assert (Hc : keeps connClosed (handleTCPClient env (pre ++ r :: rest)))
      by (apply keeps_handleTCPClient; intros; reflexivity).
    specialize (Hx w). specialize (Ha w). specialize (Hc w).
    unfold session_task, bind.
    rewrite Hrun in *. cbn [read_loop] in *. rewrite Hpf, Herr in *.
    unfold bind, removeSession, ret in *. simpl in *.
    split; [reflexivity|]. split; [|exact Hc].
    unfold released; simpl. rewrite <- Hx, <- Ha. split.
    + apply lookup_delete_eq.
    + intros Hin. apply elem_of_difference in Hin. destruct Hin as [_ Hin].
      apply Hin, elem_of_singleton. reflexivity.
Qed.

Lemma session_release_witness :
  passes Demo.env [Demo.blank_line] (with_trace SetDeadline Demo.world)
    (with_trace SetDeadline Demo.world)
  /\ ends_released Demo.env ([Demo.blank_line] ++ Demo.garbage_line :: []) Demo.world
       (Err "invalid character").
Proof.
  assert (Hp : passes Demo.env [Demo.blank_line] (with_trace SetDeadline Demo.world)
                 (with_trace SetDeadline Demo.world)) by (intros tl; reflexivity).
  split; [exact Hp|].
  exact (proj1 (proj2 (session_release Demo.env [Demo.blank_line] Demo.garbage_line []
                         Demo.world (with_trace SetDeadline Demo.world) Hp eq_refl))
           (Err "invalid character") eq_refl ltac:(simpl; lia) eq_refl).
Defined.

(** C4, refuted as stated: when the client disconnects, the session is
    removed but the goroutine does not close the connection. *)
Lemma eof_leaves_connection_open :
  fst (session_task Demo.env [Demo.eof_read] Demo.world) = Val tt
  /\ Extranonces (snd (session_task Demo.env [Demo.eof_read] Demo.world))
       !! Extranonce (cs Demo.world) = None
  /\ connClosed (snd (session_task Demo.env [Demo.eof_read] Demo.world)) = false.
Proof. split; [|split]; vm_compute; reflexivity. Qed.

(** ** C5: a line longer than the read buffer *)

(** ReadLine sets [isPrefix] only together with a nil error, and
    handleTCPClient returns that nil: the client is banned, and the
    goroutine, seeing no error, neither removes the session nor closes
    the connection. *)
Lemma flood_returns_nil env r rest w :
  isPrefix r = true ->
  read_err r = None ->
  session_task env (r :: rest) w =
    (Val tt, with_trace (BanClient (ip (cs w))) (with_trace SetDeadline w)).
Proof.
  intros Hp He. unfold session_task, handleTCPClient, bind, setDeadline, emit.
  cbn [read_loop]. rewrite Hp, He. reflexivity.
Qed.

(** C5, at a line of 2000 bytes without a newline: the reader hands the
    first 1024 bytes over as an incomplete line with a nil error; the
    client's address is passed to BanClient; and then the session stays
    in place: its extranonce is still in the extranonce set and its
    connection is not closed. *)
Theorem flood_leaves_session_open :
  fst (ReadLine MaxReqSize Demo.flood_line EOF) =
    {| data := Demo.replicate_char 1024 "a"%char; isPrefix := true; read_err := None |}
  /\ session_task Demo.env [fst (ReadLine MaxReqSize Demo.flood_line EOF)] Demo.world =
       (Val tt, with_trace (BanClient "10.0.0.1") (with_trace SetDeadline Demo.world))
  /\ connClosed (snd (session_task Demo.env [fst (ReadLine MaxReqSize Demo.flood_line EOF)]
                        Demo.world)) = false
  /\ Extranonces (snd (session_task Demo.env [fst (ReadLine MaxReqSize Demo.flood_line EOF)]
                         Demo.world)) !! Extranonce (cs Demo.world) = Some true.
Proof.
  assert (H : fst (ReadLine MaxReqSize Demo.flood_line EOF) =
              {| data := Demo.replicate_char 1024 "a"%char; isPrefix := true;
                 read_err := None |}) by (vm_compute; reflexivity).
  split; [exact H|]. rewrite H.
  rewrite (flood_returns_nil Demo.env
             {| data := Demo.replicate_char 1024 "a"%char; isPrefix := true;
                read_err := None |} [] Demo.world eq_refl eq_refl).
  split; [reflexivity|]. split; vm_compute; reflexivity.
Qed.

(** ** C6: mining.submit *)

(** C6. In NiceHash mode, mining.submit with parameters
    [user.workerName, jobID, minerNonce]: a share for the current job is
    forwarded with the current seed and header hashes, a share for a job
    of the stale cache with the cached hashes, in both cases under the
    nonce [extranonce ++ minerNonce] (the extranonce left out when the
    session has not subscribed to it). A share for any other job is not
    forwarded and is answered by the error ["21", "Stale share."]; what
    follows on a connection that takes the writes depends on the block
    template, which sendJob reads without a nil check: with a template
    the current job is pushed again and the handler returns nil; without
    one the handler panics right after the error frame, no job is
    pushed and the session does not go on. *)
Theorem mining_submit_forwarding env req w user jobID minerNonce rest :
  stratum (cs w) = NiceHash ->
  Method req = "mining.submit"%string ->
  Unmarshal_strings (Params req) = inr (user :: jobID :: minerNonce :: rest) ->
  (jobID = JobID (JobDetails (cs w)) ->
     forwards (handleTCPMessage env req) env (Id req) w (worker_of user)
       [full_nonce (cs w) minerNonce; SeedHash (JobDetails (cs w));
        HeaderHash (JobDetails (cs w))])
  /\ (jobID <> JobID (JobDetails (cs w)) ->
      forall stale, staleJobs (cs w) !! jobID = Some stale ->
      forwards (handleTCPMessage env req) env (Id req) w (worker_of user)
        [full_nonce (cs w) minerNonce; stale_SeedHash stale; stale_HeaderHash stale])
  /\ (jobID <> JobID (JobDetails (cs w)) ->
      staleJobs (cs w) !! jobID = None ->
      writes_ok w ->
      (forall t, currentBlockTemplate env = Some t ->
       fst (handleTCPMessage env req w) = Val None
       /\ trace (snd (handleTCPMessage env req w)) =
            trace w ++
            [Sent (JSONRpcResp (Id req) "" VNil (VStrings ["21"; "Stale share."]%string));
             Sent (JSONStratumReq VNil "mining.notify"
                     (VList [VString (JobID (JobDetails (cs w)));
                             VString (SeedHash (JobDetails (cs w)));
                             VString (HeaderHash (JobDetails (cs w)));
                             VBool true])
                     (ToHex1 env (tpl_Height t)) (config_Algo env))])
      /\ (currentBlockTemplate env = None ->
          fst (handleTCPMessage env req w) = Panic "nil pointer dereference"
          /\ trace (snd (handleTCPMessage env req w)) =
               trace w ++
               [Sent (JSONRpcResp (Id req) "" VNil
                        (VStrings ["21"; "Stale share."]%string))])).
Proof.
  intros Hm Hmeth Hp.
  destruct w as [s E S c t wt r]. destruct s as [a i l wk st x xs jd sj ids].
  simpl in Hm. subst st.
  unfold forwards, writes_ok, submit_reply, full_nonce, worker_of,
    handleTCPMessage, first_switch, nicehash_switch, on_mining_submit.
  rewrite Hmeth, Hp.
  unfold bind, stratumMode, get_cs, ret; simpl.
  assert (Hid : forall w0 : World,
            (if (1 <? List.length (GoString.Split user "."))%nat
             then index (GoString.Split user ".") 1 else ret "0"%string) w0
            = (Val match GoString.Split user "." with
                   | _ :: y :: _ => y
                   | _ => "0"%string
                   end, w0)).
  { intros w0. destruct (GoString.Split user ".") as [|y0 [|y1 ys]]; reflexivity. }
  rewrite Hid. simpl.
  split; [|split].
  - intros ->. rewrite String.eqb_refl. simpl.
    unfold submitRPC, sendStratumError, sendStratumResult, Encode, bind,
      get_cs, emit, ret; simpl.
    destruct (handleTCPSubmitRPC env _ _ _) as [e|reply];
      destruct wt as [|[|] wt]; simpl;
      (split; [eexists; rewrite <- ?app_assoc; reflexivity
              | intros Hw; try discriminate; rewrite trace_two; auto]).
  - intros Hne stale Hst.
    destruct (String.eqb_spec (JobID jd) jobID) as [Heq|_]; [now elim Hne|].
    simpl. rewrite Hst.
    unfold submitRPC, sendStratumError, sendStratumResult, Encode, bind,
      get_cs, emit, ret; simpl.
    destruct (handleTCPSubmitRPC env _ _ _) as [e|reply];
      destruct wt as [|[|] wt]; simpl;
      (split; [eexists; rewrite <- ?app_assoc; reflexivity
              | intros Hw; try discriminate; rewrite trace_two; auto]).
  - intros Hne Hst Hw.
    destruct (String.eqb_spec (JobID jd) jobID) as [Heq|_]; [now elim Hne|].
    simpl. rewrite Hst.
    unfold sendJob, template_Height, sendTCPReq, sendStratumError, Encode, bind,
      get_cs, emit, ret, panic; simpl.
    destruct (currentBlockTemplate env) as [tpl|].
    + split; [|discriminate]. intros tpl' Htpl. injection Htpl as <-.
      destruct wt as [|[|] [|[|] wt]]; simpl in *; try discriminate;
        rewrite trace_two; auto.
    + split; [discriminate|]. intros _.
      destruct wt as [|[|] wt]; simpl in *; try discriminate; auto.
Qed.

Lemma mining_submit_forwarding_witness :
  stratum (cs Demo.mining) = NiceHash
  /\ JobID (JobDetails (cs Demo.mining)) = "44445555"%string
  /\ forwards
       (handleTCPMessage Demo.env
          (Demo.request "mining.submit" ["0xabc.rig1"; "33334444"; "deadbeef"]))
       Demo.env (Some (JNumber "1")) Demo.mining "rig1"
       ["0000deadbeef"; "seed"; "header"]%string.
Proof.
  split; [reflexivity|]. split; [reflexivity|].
  refine (proj1 (proj2 (mining_submit_forwarding Demo.env
                          (Demo.request "mining.submit"
                             ["0xabc.rig1"; "33334444"; "deadbeef"])
                          Demo.mining "0xabc.rig1" "33334444" "deadbeef" []
                          eq_refl eq_refl eq_refl))
            _ {| stale_SeedHash := "seed"; stale_HeaderHash := "header" |} _).
  - vm_compute. discriminate.
  - vm_compute. reflexivity.
Defined.

(** A server that has no block template yet: a miner subscribes, which
    needs no template, and submits a share for a job id the session does
    not know. The error frame is written and then sendJob dereferences
    the nil template: the handler panics, no job is pushed. *)
Lemma stale_share_without_template_panics :
  stratum (cs (snd (handleTCPMessage Cases.without_template Demo.subscribe Demo.world)))
    = NiceHash
  /\ fst (handleTCPMessage Cases.without_template
            (Demo.request "mining.submit" ["0xabc.rig1"; "deadbeef"; "00"])
            (snd (handleTCPMessage Cases.without_template Demo.subscribe Demo.world)))
     = Panic "nil pointer dereference"
  /\ trace (snd (handleTCPMessage Cases.without_template
                   (Demo.request "mining.submit" ["0xabc.rig1"; "deadbeef"; "00"])
                   (snd (handleTCPMessage Cases.without_template Demo.subscribe
                           Demo.world))))
     = trace (snd (handleTCPMessage Cases.without_template Demo.subscribe Demo.world))
       ++ [Sent (JSONRpcResp (Some (JNumber "1")) "" VNil
                   (VStrings ["21"; "Stale share."]%string))].
Proof. split; [|split]; vm_compute; reflexivity. Qed.

(** ** C7: eth_submitWork with malformed parameters *)

(** C7 (amended). In EthProxy mode an eth_submitWork whose parameters
    decode as strings but are fewer than three, or not of lengths 18, 66
    and 66, is dropped without a trace: no reply of any kind is written,
    the share is not handed to the submit handler, and the session and
    the server are left as they were. *)
Theorem submitWork_malformed_silent env req w params :
  stratum (cs w) = EthProxy ->
  Method req = "eth_submitWork"%string ->
  Unmarshal_strings (Params req) = inr params ->
  malformed_work params ->
  snd (handleTCPMessage env req w) = w.
Proof.
  intros Hm Hmeth Hp Hbad.
  destruct w as [s E S c t wt r]. destruct s as [a i l wk st x xs jd sj ids].
  simpl in Hm. subst st.
  unfold handleTCPMessage, first_switch, ethproxy_switch, on_eth_submitWork.
  rewrite Hmeth, Hp.
  unfold bind, stratumMode, get_cs, ret; simpl.
  destruct Hbad as [Hlen | (p0 & p1 & p2 & rest & -> & Hl)].
  - destruct params as [|p0 [|p1 [|p2 rest]]]; simpl in *; try reflexivity. lia.
  - destruct (Nat.eqb_spec (String.length p0) 18) as [E0|N0]; [|reflexivity].
    destruct (Nat.eqb_spec (String.length p1) 66) as [E1|N1]; [|reflexivity].
    destruct (Nat.eqb_spec (String.length p2) 66) as [E2|N2]; [|reflexivity].
    tauto.
Qed.

Lemma submitWork_malformed_silent_witness :
  stratum (cs (snd (run Demo.env [Request Demo.submitLogin] Demo.world))) = EthProxy
  /\ malformed_work ["0x1"; "0x2"; "0x3"]%string
  /\ snd (handleTCPMessage Demo.env (Demo.request "eth_submitWork" ["0x1"; "0x2"; "0x3"])
            (snd (run Demo.env [Request Demo.submitLogin] Demo.world)))
     = snd (run Demo.env [Request Demo.submitLogin] Demo.world).
Proof.
  assert (Hbad : malformed_work ["0x1"; "0x2"; "0x3"]%string).
  { right. exists "0x1"%string, "0x2"%string, "0x3"%string, [].
    split; [reflexivity | left; discriminate]. }
  split; [reflexivity|]. split; [exact Hbad|].
  exact (submitWork_malformed_silent Demo.env
           (Demo.request "eth_submitWork" ["0x1"; "0x2"; "0x3"])
           (snd (run Demo.env [Request Demo.submitLogin] Demo.world))
           ["0x1"; "0x2"; "0x3"]%string eq_refl eq_refl eq_refl Hbad).
Defined.

(** C7, refuted as stated: in EthProxy mode, eth_submitWork with three
    parameters of length 3 returns nil, so the session goes on, and the
    trace shows no reply after the login's. *)
Lemma submitWork_malformed_goes_on :
  stratum (cs (snd (run Demo.env [Request Demo.submitLogin] Demo.world))) = EthProxy
  /\ fst (handleTCPMessage Demo.env (Demo.request "eth_submitWork" ["0x1"; "0x2"; "0x3"])
            (snd (run Demo.env [Request Demo.submitLogin] Demo.world)))
     = Val None
  /\ trace (snd (handleTCPMessage Demo.env
                   (Demo.request "eth_submitWork" ["0x1"; "0x2"; "0x3"])
                   (snd (run Demo.env [Request Demo.submitLogin] Demo.world))))
     = [LoginRPC ["0xabc"; "x"]%string EmptyString;
        Sent (JSONRpcResp (Some (JNumber "1")) "2.0" (VBool true) VNil)].
Proof. split; [|split]; vm_compute; reflexivity. Qed.

(** ** C8: uniqExtranonce *)

Lemma with_rpos_same w : with_rpos (rpos w + 0) w = w.
Proof. destruct w; unfold with_rpos; simpl. now rewrite Nat.add_0_r. Qed.

Lemma randomHex_run env n w :
  randomHex env n w = (Val (hex_at env (rpos w) n), with_rpos (rpos w + n) w).
Proof.
  revert w. induction n as [|n IH]; intros w; simpl.
  - unfold ret. now rewrite with_rpos_same.
  - unfold bind, rand_Intn. rewrite IH. simpl. unfold ret, with_rpos; simpl.
    now rewrite Nat.add_succ_r.
Qed.

Lemma hex_at_length env pos n : String.length (hex_at env pos n) = n.
Proof. revert pos. induction n as [|n IH]; intros pos; simpl; auto. Qed.

Lemma hexchar_lower i : (i < 16)%nat -> is_lower_hex (hexchar i) = true.
Proof.
  intros H. do 16 (destruct i as [|i]; [reflexivity|]). lia.
Qed.

Lemma hex_at_lower env pos n : all_lower_hex (hex_at env pos n) = true.
Proof.
  revert pos. induction n as [|n IH]; intros pos; cbn [hex_at all_lower_hex]; auto.
  rewrite IH, hexchar_lower; [reflexivity|].
  apply Nat.mod_upper_bound. lia.
Qed.

Lemma loop_candidate_shift env x pos j :
  loop_candidate env (hex_at env pos 4) (pos + 4) j = loop_candidate env x pos (S j).
Proof.
  destruct j as [|j]; unfold loop_candidate, candidate.
  - f_equal. lia.
  - f_equal. lia.
Qed.

Lemma uniqExtranonce_loop_finds env k :
  forall fuel x w,
    (forall j, (j < k)%nat -> Extranonces w !! loop_candidate env x (rpos w) j <> None) ->
    Extranonces w !! loop_candidate env x (rpos w) k = None ->
    (k <= fuel)%nat ->
    uniqExtranonce_loop env fuel x w =
      (Val (loop_candidate env x (rpos w) k), with_rpos (rpos w + 4 * k) w).
Proof.
  induction k as [|k IH]; intros fuel x w Hheld Hfree Hfuel.
  - cbn [loop_candidate] in *.
    replace (rpos w + 4 * 0)%nat with (rpos w + 0)%nat by lia.
    rewrite with_rpos_same.
    destruct fuel; cbn [uniqExtranonce_loop]; now rewrite Hfree.
  - destruct fuel as [|fuel]; [lia|]. cbn [uniqExtranonce_loop].
    pose proof (Hheld 0%nat ltac:(lia)) as H0. cbn [loop_candidate] in H0.
    destruct (Extranonces w !! x) as [b|]; [|now elim H0].
    unfold bind. rewrite randomHex_run.
    rewrite (IH fuel (hex_at env (rpos w) 4) (with_rpos (rpos w + 4) w)).
    + change (rpos (with_rpos (rpos w + 4) w)) with (rpos w + 4)%nat.
      rewrite (loop_candidate_shift env x).
      unfold with_rpos; cbn [cs Extranonces sessions connClosed trace wtape rpos].
      replace (rpos w + 4 + 4 * k)%nat with (rpos w + 4 * S k)%nat by lia.
      reflexivity.
    + intros j Hj.
      change (rpos (with_rpos (rpos w + 4) w)) with (rpos w + 4)%nat.
      change (Extranonces (with_rpos (rpos w + 4) w)) with (Extranonces w).
      rewrite (loop_candidate_shift env x). apply Hheld. lia.
    + change (rpos (with_rpos (rpos w + 4) w)) with (rpos w + 4)%nat.
      change (Extranonces (with_rpos (rpos w + 4) w)) with (Extranonces w).
      rewrite (loop_candidate_shift env x). exact Hfree.
    + lia.
Qed.

Lemma uniqExtranonce_loop_sound env fuel :
  forall x w y w',
    uniqExtranonce_loop env fuel x w = (Val y, w') ->
    Extranonces w !! y = None
    /\ (y = x \/ exists pos, y = hex_at env pos 4)
    /\ Extranonces w' = Extranonces w.
Proof.
  induction fuel as [|fuel IH]; intros x w y w' H; cbn [uniqExtranonce_loop] in H.
  - destruct (Extranonces w !! x) eqn:Hx; [discriminate|].
    unfold ret in H. injection H as <- <-. auto.
  - destruct (Extranonces w !! x) eqn:Hx.
    + unfold bind in H. rewrite randomHex_run in H.
      apply IH in H. destruct H as (Hy & Hc & HE). simpl in *.
      split; [exact Hy|]. split; [|exact HE].
      right. destruct Hc as [->|Hc]; eauto.
    + unfold ret in H. injection H as <- <-. auto.
Qed.

(** C8. Whenever uniqExtranonce returns, its result is a string of four
    lowercase hexadecimal digits that was not in the extranonce set, and
    the set it leaves is the old one with the result added. It returns
    as soon as the generator draws a value that is not in the set: if
    the first [k] draws are all held and the next one is free, it
    returns that one (the retries within the fuel), so a first draw that
    collides is never the result. *)
Theorem uniqExtranonce_fresh env fuel w :
  (forall x w',
     uniqExtranonce env fuel w = (Val x, w') ->
     String.length x = 4%nat /\ all_lower_hex x = true
     /\ Extranonces w !! x = None
     /\ Extranonces w' = <[ x := true ]> (Extranonces w))
  /\ (forall k,
       (forall j, (j < k)%nat -> Extranonces w !! candidate env (rpos w) j <> None) ->
       Extranonces w !! candidate env (rpos w) k = None ->
       (k <= fuel)%nat ->
       uniqExtranonce env fuel w =
         (Val (candidate env (rpos w) k),
          with_registry (<[ candidate env (rpos w) k := true ]> (Extranonces w))
            (sessions w) (with_rpos (rpos w + 4 * S k) w))).
Proof.
  split.
  - intros x w' H. unfold uniqExtranonce, bind in H.
    rewrite randomHex_run in H.
    destruct (uniqExtranonce_loop env fuel (hex_at env (rpos w) 4)
                (with_rpos (rpos w + 4) w)) as [[y| |] w1] eqn:Hloop;
      try discriminate.
    unfold ret in H. injection H as <- <-.
    apply uniqExtranonce_loop_sound in Hloop.
    destruct Hloop as (Hy & Hc & HE). simpl in *.
    assert (Hform : exists pos, y = hex_at env pos 4)
      by (destruct Hc as [->|Hc]; eauto).
    destruct Hform as [pos ->].
    rewrite hex_at_length, hex_at_lower, HE. auto.
  - intros k Hheld Hfree Hfuel. unfold uniqExtranonce, bind.
    rewrite randomHex_run.
    assert (Hc : forall j,
              loop_candidate env (hex_at env (rpos w) 4) (rpos w + 4) j
              = candidate env (rpos w) j).
    { intros j. destruct j; unfold loop_candidate, candidate; f_equal; lia. }
    rewrite (uniqExtranonce_loop_finds env k fuel (hex_at env (rpos w) 4)
               (with_rpos (rpos w + 4) w)).
    + change (rpos (with_rpos (rpos w + 4) w)) with (rpos w + 4)%nat.
      rewrite Hc. unfold ret, with_registry, with_rpos;
        cbn [cs Extranonces sessions connClosed trace wtape rpos fst snd].
      replace (rpos w + 4 + 4 * k)%nat with (rpos w + 4 * S k)%nat by lia.
      reflexivity.
    + intros j Hj.
      change (rpos (with_rpos (rpos w + 4) w)) with (rpos w + 4)%nat.
      change (Extranonces (with_rpos (rpos w + 4) w)) with (Extranonces w).
      rewrite Hc. now apply Hheld.
    + change (rpos (with_rpos (rpos w + 4) w)) with (rpos w + 4)%nat.
      change (Extranonces (with_rpos (rpos w + 4) w)) with (Extranonces w).
      rewrite Hc. exact Hfree.
    + exact Hfuel.
Qed.

Lemma uniqExtranonce_retries :
  Extranonces Demo.world !! candidate Demo.env (rpos Demo.world) 0 = Some true
  /\ uniqExtranonce Demo.env 1 Demo.world =
       (Val "1111"%string,
        with_registry (<[ "1111"%string := true ]> (Extranonces Demo.world))
          (sessions Demo.world) (with_rpos 12 Demo.world)).
Proof.
  split; [vm_compute; reflexivity|].
  refine (proj2 (uniqExtranonce_fresh Demo.env 1 Demo.world) 1%nat _ _ _).
  - intros j Hj. destruct j as [|j]; [vm_compute; discriminate | lia].
  - vm_compute. reflexivity.
  - lia.
Defined.

(** ** C9: setStratumMode *)

(** C9. For every input string [setStratumMode] returns the nil error;
    the mode it leaves is NiceHash exactly when the string is
    "EthereumStratum/1.0.0", and EthProxy for every other string. Nothing
    else of the world changes. *)
Theorem setStratumMode_total (str : string) (w : World) :
  setStratumMode str w =
    (Val None,
     with_cs (set_stratum (if String.eqb str "EthereumStratum/1.0.0"
                           then NiceHash else EthProxy)) w)
  /\ (stratum (cs (snd (setStratumMode str w))) = NiceHash
       <-> str = "EthereumStratum/1.0.0"%string)
  /\ (str <> "EthereumStratum/1.0.0"%string ->
       stratum (cs (snd (setStratumMode str w))) = EthProxy).
Proof.
  unfold setStratumMode, bind, upd_cs, ret.
  destruct (String.eqb_spec str "EthereumStratum/1.0.0") as [E|N]; simpl.
  - repeat split; auto. intros N. now elim N.
  - repeat split; auto; intros H; [discriminate H | now elim N].
Qed.

(** ** C10: the 0x-prefix stripping step *)

Lemma slice_short (s : string) :
  (String.length s < 2)%nat <-> GoString.slice s 0 2 = None.
Proof.
  unfold GoString.slice. change (0 <=? 2)%nat with true. cbn [andb].
  destruct (Nat.leb_spec 2 (String.length s)) as [H|H]; split; intros H';
    first [lia | discriminate | reflexivity].
Qed.

Lemma strip0x_short w :
  (String.length (SeedHash (JobDetails (cs w))) < 2)%nat ->
  strip0x w = (Panic "slice bounds out of range", w).
Proof.
  intros H. apply slice_short in H.
  unfold strip0x, bind, get_cs, or_panic. now rewrite H.
Qed.

Lemma cacheStales_returns w : exists w', cacheStales 10 3 w = (Val tt, w').
Proof.
  unfold cacheStales, bind, get_cs, upd_cs, ret, list_slice.
  destruct (Z.ltb_spec 10 (Z.of_nat (List.length (staleJobIDs (cs w))))) as [H|H].
  - assert (H1 : (0 <=? Z.of_nat (List.length (staleJobIDs (cs w))) - 3) = true)
      by (apply Z.leb_le; lia).
    assert (H2 : (Z.of_nat (List.length (staleJobIDs (cs w))) - 3
                  <=? Z.of_nat (List.length (staleJobIDs (cs w)))) = true)
      by (apply Z.leb_le; lia).
    rewrite H1, H2, Z.leb_refl. cbn [andb Z.leb Z.compare]. eauto.
  - eauto.
Qed.

(** C10. [SeedHash[0:2]] is in bounds exactly when the seed hash has at
    least two bytes. With a shorter seed hash the stripping step panics,
    and with it pushNewJob (in NiceHash mode) and sendJob (for a new
    job), whatever else the work source returns; the step returns
    normally only for a seed hash of two bytes or more. *)
Theorem strip0x_needs_two_bytes env :
  (forall s : string, (String.length s < 2)%nat <-> GoString.slice s 0 2 = None)
  /\ (forall w, (String.length (SeedHash (JobDetails (cs w))) < 2)%nat ->
                fst (strip0x w) = Panic "slice bounds out of range")
  /\ (forall w, fst (strip0x w) = Val tt ->
                (2 <= String.length (SeedHash (JobDetails (cs w))))%nat)
  /\ (forall w header seed diff height rest,
        stratum (cs w) = NiceHash ->
        (String.length seed < 2)%nat ->
        fst (pushNewJob env (header :: seed :: diff :: height :: rest) w)
        = Panic "slice bounds out of range")
  /\ (forall w id header seed diff height rest,
        handleGetWorkRPC env (cs w) = inr (header :: seed :: diff :: height :: rest) ->
        (String.length seed < 2)%nat ->
        fst (sendJob env id true w) = Panic "slice bounds out of range").
Proof.
  split; [apply slice_short|]. split; [|split; [|split]].
  - intros w H. now rewrite strip0x_short.
  - intros w H.
    destruct (Nat.leb_spec 2 (String.length (SeedHash (JobDetails (cs w)))))
      as [Hl|Hl]; [exact Hl|].
    rewrite strip0x_short in H by exact Hl. discriminate.
  - intros w header seed diff height rest Hm Hlen. unfold pushNewJob.
    rewrite (bind_val stratumMode _ w (stratum (cs w)) w eq_refl), Hm.
    change (NiceHash =? NiceHash) with true. cbv iota.
    destruct (cacheStales_returns w) as [w1 Hc].
    rewrite (bind_val _ _ _ _ _ Hc).
    rewrite (bind_val _ _ _ _ _ (randomHex_run env 8 w1)).
    unfold index, or_panic. cbn [lookup list_lookup].
    unfold bind at 1. unfold ret at 1.
    unfold bind at 1. unfold ret at 1.
    unfold bind at 1. unfold ret at 1.
    unfold bind at 1. unfold upd_cs at 1.
    unfold bind at 1. rewrite strip0x_short; [reflexivity | exact Hlen].
  - intros w id header seed diff height rest Hw Hlen. unfold sendJob.
    unfold bind at 1. unfold bind at 1. unfold getWorkRPC.
    unfold bind at 1. unfold get_cs at 1. unfold bind at 1. unfold emit at 1.
    unfold ret at 1. cbn [cs with_trace]. rewrite Hw.
    rewrite (bind_val _ _ _ _ _ (randomHex_run env 8 _)).
    unfold index, or_panic. cbn [lookup list_lookup].
    unfold bind at 1. unfold ret at 1.
    unfold bind at 1. unfold ret at 1.
    unfold bind at 1. unfold ret at 1.
    unfold bind at 1. unfold upd_cs at 1.
    unfold bind at 1. rewrite strip0x_short; [reflexivity | exact Hlen].
Qed.

Lemma strip0x_panics_on_empty_seed :
  fst (pushNewJob Demo.env ["0xheader"; ""; "0xdiff"; "0x64"]%string
         (snd (run Demo.env [Request Demo.subscribe] Demo.world)))
  = Panic "slice bounds out of range".
Proof.
  apply (proj1 (proj2 (proj2 (proj2 (strip0x_needs_two_bytes Demo.env)))));
    [reflexivity | simpl; lia].
Defined.

(** * Further properties of the server *)

(** ** Requests as steps along a relation

    [moves R m] for the whole of handleTCPMessage, for any preorder [R]
    that every write of the handler respects: [P] says which events the
    relation lets the trace take. *)

Lemma moves_panic (R : World -> World -> Prop) {A} msg :
  (forall w, R w w) -> moves R (@panic A msg).
Proof. intros HR w. apply HR. Qed.

Ltac moves_step :=
  lazymatch goal with
  | |- moves _ (bind _ _) => apply moves_bind; [assumption | | intros ?]
  | |- moves _ (ret _) => apply moves_ret; assumption
  | |- moves _ (panic _) => apply moves_panic; assumption
  | |- moves _ (match ?x with _ => _ end) => destruct x
  | |- moves _ _ => solve [auto with moves]
  end.

Ltac moves_auto := cbv zeta; repeat moves_step.

Create HintDb moves.

Section Steps.

Variable env : Env.
Variable req : StratumReq.
Variable R : World -> World -> Prop.
Variable P : Event -> Prop.

Hypothesis R_refl : forall w, R w w.
Hypothesis R_trans : forall w1 w2 w3, R w1 w2 -> R w2 w3 -> R w1 w3.
Hypothesis R_event : forall e w, P e -> R w (with_trace e w).
Hypothesis R_wtape : forall t w, R w (with_wtape t w).
Hypothesis R_rpos : forall n w, R w (with_rpos n w).
Hypothesis R_login : forall l w, R w (with_cs (set_login l) w).
Hypothesis R_worker : forall x w, R w (with_cs (set_worker x) w).
Hypothesis R_job : forall j w, R w (with_cs (set_JobDetails j) w).
Hypothesis R_sub : forall w, R w (with_cs (set_ExtranonceSub true) w).
Hypothesis R_nicehash : forall w, R w (with_cs (set_stratum NiceHash) w).
Hypothesis R_ethproxy : forall w, R w (with_cs (set_stratum EthProxy) w).
Hypothesis R_register : forall w, R w (snd (registerSession w)).

Hypothesis P_reply : forall version result err,
  P (Sent (JSONRpcResp (Id req) version result err)).
Hypothesis P_push : forall method params height algo,
  P (Sent (JSONStratumReq VNil method params height algo)).
Hypothesis P_login : forall params id, P (LoginRPC params id).
Hypothesis P_getwork : P GetWorkRPC.
Hypothesis P_submit : forall id params, P (SubmitRPC id params).
Hypothesis P_unknown : forall m, P (UnknownRPC m).

Lemma moves_get_cs : moves R get_cs.
Proof. intros w. apply R_refl. Qed.

Lemma moves_or_panic {A} (o : option A) msg : moves R (or_panic o msg).
Proof. destruct o; [apply moves_ret | apply moves_panic]; assumption. Qed.

Lemma moves_index l i : moves R (index l i).
Proof. apply moves_or_panic. Qed.

Lemma moves_stratumMode : moves R stratumMode.
Proof. intros w. apply R_refl. Qed.

Lemma moves_emit e : P e -> moves R (emit e).
Proof. intros He w. now apply R_event. Qed.

Lemma moves_Encode f : P (Sent f) -> moves R (Encode f).
Proof.
  intros Hf w. unfold Encode. destruct (wtape w) as [|[|] t]; simpl.
  - now apply R_event.
  - eapply R_trans; [apply R_wtape | now apply R_event].
  - apply R_wtape.
Qed.

Lemma moves_rand_Intn n : moves R (rand_Intn env n).
Proof. intros w. apply R_rpos. Qed.

#[local] Hint Resolve moves_get_cs moves_or_panic moves_index moves_stratumMode
  moves_rand_Intn : moves.

Lemma moves_randomHex n : moves R (randomHex env n).
Proof. induction n as [|n IH]; simpl; moves_auto. Qed.

Lemma moves_template_Height : moves R (template_Height env).
Proof. unfold template_Height. moves_auto. Qed.

Lemma moves_upd_login l : moves R (upd_cs (set_login l)).
Proof. intros w. apply R_login. Qed.

Lemma moves_upd_worker x : moves R (upd_cs (set_worker x)).
Proof. intros w. apply R_worker. Qed.

Lemma moves_upd_job j : moves R (upd_cs (set_JobDetails j)).
Proof. intros w. apply R_job. Qed.

Lemma moves_upd_sub : moves R (upd_cs (set_ExtranonceSub true)).
Proof. intros w. apply R_sub. Qed.

Lemma moves_registerSession : moves R registerSession.
Proof. intros w. apply R_register. Qed.

Lemma moves_sendTCPResult r : moves R (sendTCPResult (Id req) r).
Proof. apply moves_Encode, P_reply. Qed.

Lemma moves_sendTCPError r : moves R (sendTCPError (Id req) r).
Proof.
  unfold sendTCPError. apply moves_bind; [assumption | apply moves_Encode, P_reply|].
  intros [e|]; apply moves_ret; assumption.
Qed.

Lemma moves_sendStratumResult r : moves R (sendStratumResult (Id req) r).
Proof. apply moves_Encode, P_reply. Qed.

Lemma moves_sendStratumError r : moves R (sendStratumError (Id req) r).
Proof. apply moves_Encode, P_reply. Qed.

Lemma moves_sendTCPReq m p h a : moves R (sendTCPReq (JSONStratumReq VNil m p h a)).
Proof. apply moves_Encode, P_push. Qed.

#[local] Hint Resolve moves_randomHex moves_template_Height moves_upd_login
  moves_upd_worker moves_upd_job moves_upd_sub moves_registerSession
  moves_sendTCPResult moves_sendTCPError moves_sendStratumResult
  moves_sendStratumError moves_sendTCPReq : moves.

Lemma moves_strip0x : moves R strip0x.
Proof. unfold strip0x. moves_auto. Qed.

Lemma moves_loginRPC params id : moves R (loginRPC env params id).
Proof.
  unfold loginRPC. apply moves_bind; [assumption | apply moves_get_cs|].
  intros s. apply moves_bind; [assumption | apply moves_emit, P_login|].
  intros _. moves_auto.
Qed.

Lemma moves_getWorkRPC : moves R (getWorkRPC env).
Proof.
  unfold getWorkRPC. apply moves_bind; [assumption | apply moves_get_cs|].
  intros s. apply moves_bind; [assumption | apply moves_emit, P_getwork|].
  intros _. moves_auto.
Qed.

Lemma moves_submitRPC id params : moves R (submitRPC env id params).
Proof.
  unfold submitRPC. apply moves_bind; [assumption | apply moves_get_cs|].
  intros s. apply moves_bind; [assumption | apply moves_emit, P_submit|].
  intros _. moves_auto.
Qed.

Lemma moves_unknownRPC m : moves R (unknownRPC env m).
Proof.
  unfold unknownRPC. apply moves_bind; [assumption | apply moves_get_cs|].
  intros s. apply moves_bind; [assumption | apply moves_emit, P_unknown|].
  intros _. moves_auto.
Qed.

#[local] Hint Resolve moves_strip0x moves_loginRPC moves_getWorkRPC moves_submitRPC
  moves_unknownRPC : moves.

Lemma moves_sendJob newjob : moves R (sendJob env (Id req) newjob).
Proof. unfold sendJob, sendTCPReq. moves_auto; apply moves_Encode, P_push. Qed.

Lemma moves_getNotificationResponse : moves R (getNotificationResponse env).
Proof. unfold getNotificationResponse. moves_auto. Qed.

Lemma moves_setStratumMode str : moves R (setStratumMode str).
Proof.
  unfold setStratumMode. apply moves_bind; [assumption | | intros _; moves_auto].
  destruct (String.eqb str "EthereumStratum/1.0.0"); intros w;
    [apply R_nicehash | apply R_ethproxy].
Qed.

#[local] Hint Resolve moves_sendJob moves_getNotificationResponse
  moves_setStratumMode : moves.

Lemma moves_on_eth_login : moves R (on_eth_login env req).
Proof. unfold on_eth_login. moves_auto. Qed.

Lemma moves_on_eth_submitLogin : moves R (on_eth_submitLogin env req).
Proof. unfold on_eth_submitLogin. moves_auto. Qed.

Lemma moves_on_mining_subscribe : moves R (on_mining_subscribe env req).
Proof. unfold on_mining_subscribe. moves_auto. Qed.

Lemma moves_on_mining_authorize : moves R (on_mining_authorize env req).
Proof. unfold on_mining_authorize. moves_auto. Qed.

Lemma moves_on_mining_extranonce_subscribe :
  moves R (on_mining_extranonce_subscribe req).
Proof. unfold on_mining_extranonce_subscribe. moves_auto. Qed.

Lemma moves_on_mining_submit : moves R (on_mining_submit env req).
Proof. unfold on_mining_submit. moves_auto. Qed.

Lemma moves_on_nicehash_unknown : moves R (on_nicehash_unknown env req).
Proof. unfold on_nicehash_unknown. moves_auto. Qed.

Lemma moves_on_eth_getWork : moves R (on_eth_getWork env req).
Proof. unfold on_eth_getWork. moves_auto. Qed.

Lemma moves_on_eth_submitWork : moves R (on_eth_submitWork env req).
Proof. unfold on_eth_submitWork. moves_auto. Qed.

Lemma moves_on_eth_submitHashrate : moves R (on_eth_submitHashrate req).
Proof. unfold on_eth_submitHashrate. moves_auto. Qed.

Lemma moves_on_unknown : moves R (on_unknown env req).
Proof. unfold on_unknown. moves_auto. Qed.

#[local] Hint Resolve moves_on_eth_login moves_on_eth_submitLogin
  moves_on_mining_subscribe moves_on_mining_authorize
  moves_on_mining_extranonce_subscribe moves_on_mining_submit
  moves_on_nicehash_unknown moves_on_eth_getWork moves_on_eth_submitWork
  moves_on_eth_submitHashrate moves_on_unknown : moves.

Lemma moves_handleTCPMessage : moves R (handleTCPMessage env req).
Proof.
  unfold handleTCPMessage, first_switch, returning, nicehash_switch, ethproxy_switch.
  moves_auto.
Qed.

End Steps.

(** ** Replies carry the request's id *)

Lemma extends_by_same P w w' : trace w' = trace w -> extends_by P w w'.
Proof. intros H. exists []. split; [now rewrite app_nil_r | constructor]. Qed.

Lemma extends_by_trans P w1 w2 w3 :
  extends_by P w1 w2 -> extends_by P w2 w3 -> extends_by P w1 w3.
Proof.
  intros (n1 & H1 & F1) (n2 & H2 & F2). exists (n1 ++ n2). split.
  - now rewrite H2, H1, app_assoc.
  - now apply Forall_app.
Qed.

Lemma extends_by_event (P : Event -> Prop) e w : P e -> extends_by P w (with_trace e w).
Proof. intros He. exists [e]. split; [reflexivity | now repeat constructor]. Qed.

(** X1. Whatever the request and the state of the session, every reply
    frame that handleTCPMessage writes carries the id of the request,
    every stratum push it writes (mining.notify, mining.set_difficulty,
    mining.set_extranonce) carries no id, and it never writes the
    broadcaster's legacy push; the trace only grows. *)
Theorem replies_echo_request_id env req w :
  exists new,
    trace (snd (handleTCPMessage env req w)) = trace w ++ new
    /\ Forall (answers (Id req)) new.
Proof.
  apply (moves_handleTCPMessage env req (extends_by (answers (Id req)))
           (answers (Id req)));
    try (intros; apply extends_by_same; reflexivity);
    try (intros; simpl; exact I);
    try (intros; simpl; reflexivity).
  - apply extends_by_trans.
  - intros e w0. apply extends_by_event.
Qed.

(** ** What a request leaves of the registry *)

Lemma registry_kept_same w w' :
  Extranonces w' = Extranonces w -> connClosed w' = connClosed w ->
  addr (cs w') = addr (cs w) -> sessions w' = sessions w ->
  registry_kept w w'.
Proof.
  unfold registry_kept. intros -> -> HA ->. repeat split; auto.
  apply union_subseteq_l.
Qed.

Lemma registry_kept_trans w1 w2 w3 :
  registry_kept w1 w2 -> registry_kept w2 w3 -> registry_kept w1 w3.
Proof.
  unfold registry_kept. intros (E1 & C1 & A1 & S1 & T1) (E2 & C2 & A2 & S2 & T2).
  repeat split; try congruence.
  - etransitivity; eassumption.
  - rewrite A1 in T2. intros x Hx. apply T2 in Hx.
    apply elem_of_union in Hx. destruct Hx as [Hx|Hx].
    + now apply T1.
    + apply elem_of_union. now right.
Qed.

(** X2. Handling a request never adds or removes an extranonce, never
    closes the connection and never takes a session out of the session
    table: the only change to the table it can make is to enter the
    session itself (on a successful login). *)
Theorem request_keeps_registry env req w :
  Extranonces (snd (handleTCPMessage env req w)) = Extranonces w
  /\ connClosed (snd (handleTCPMessage env req w)) = connClosed w
  /\ sessions w ⊆ sessions (snd (handleTCPMessage env req w))
  /\ sessions (snd (handleTCPMessage env req w)) ⊆ sessions w ∪ {[ addr (cs w) ]}.
Proof.
  assert (H : registry_kept w (snd (handleTCPMessage env req w))).
  { apply (moves_handleTCPMessage env req registry_kept (fun _ => True));
      try (intros; exact I);
      try (intros; apply registry_kept_same; reflexivity).
    - apply registry_kept_trans.
    - intros w0. unfold registry_kept, registerSession; simpl.
      repeat split; auto.
      + apply union_subseteq_r.
      + intros x Hx. apply elem_of_union in Hx. apply elem_of_union. tauto. }
  destruct H as (HE & HC & _ & HS & HT). auto.
Qed.

(** ** The extranonce subscription *)

Lemma do_op_keeps_sub env o w :
  ExtranonceSub (cs w) = true -> ExtranonceSub (cs (snd (do_op env o w))) = true.
Proof.
  destruct o as [req|reply]; simpl.
  - assert (H : moves (fun w w' => ExtranonceSub (cs w) = true ->
                                   ExtranonceSub (cs w') = true)
                  (handleTCPMessage env req)).
    { apply (moves_handleTCPMessage env req _ (fun _ => True)); auto. }
    specialize (H w). unfold bind.
    destruct (handleTCPMessage env req w) as [[e| |] w1]; exact H.
  - rewrite broadcast_to_cs.
    rewrite (keeps_pushNewJob (fun w => ExtranonceSub (cs w))); auto.
Qed.

(** X3. Once a session has subscribed to its extranonce (by
    mining.subscribe or mining.extranonce.subscribe) it stays subscribed:
    no request and no broadcast withdraws the subscription. *)
Theorem extranonce_subscription_stays env ops w :
  ExtranonceSub (cs w) = true ->
  ExtranonceSub (cs (snd (run env ops w))) = true.
Proof.
  revert w. induction ops as [|o ops IH]; intros w H; simpl; [exact H|].
  pose proof (do_op_keeps_sub env o w H) as Ho.
  unfold bind. destruct (do_op env o w) as [[[]| |] w1]; simpl in *; auto.
Qed.

Lemma extranonce_subscription_stays_witness :
  ExtranonceSub (cs Demo.mining) = true
  /\ ExtranonceSub
       (cs (snd (run Demo.env [Request Demo.submitLogin; Broadcast Demo.work]
                   Demo.mining))) = true.
Proof.
  split; [reflexivity|].
  exact (extranonce_subscription_stays Demo.env
           [Request Demo.submitLogin; Broadcast Demo.work] Demo.mining eq_refl).
Defined.

(** ** The identity of a session *)

Lemma do_op_identity env o w : identity (snd (do_op env o w)) = identity w.
Proof.
  destruct o as [req|reply]; simpl.
  - assert (H : keeps identity (handleTCPMessage env req))
      by (apply keeps_handleTCPMessage; intros; reflexivity).
    specialize (H w). unfold bind.
    destruct (handleTCPMessage env req w) as [[e| |] w1]; exact H.
  - unfold identity. rewrite broadcast_to_cs.
    apply (keeps_pushNewJob identity); reflexivity.
Qed.

(** X4. Through any sequence of requests and broadcasts a session keeps
    the address, the client ip and the extranonce it was created with. *)
Theorem session_identity_is_fixed env ops w :
  addr (cs (snd (run env ops w))) = addr (cs w)
  /\ ip (cs (snd (run env ops w))) = ip (cs w)
  /\ Extranonce (cs (snd (run env ops w))) = Extranonce (cs w).
Proof.
  assert (H : identity (snd (run env ops w)) = identity w).
  { revert w. induction ops as [|o ops IH]; intros w; simpl; [reflexivity|].
    pose proof (do_op_identity env o w) as Ho.
    unfold bind. destruct (do_op env o w) as [[[]| |] w1]; simpl in *;
      [rewrite IH|..]; exact Ho. }
  unfold identity in H. injection H as -> -> ->. auto.
Qed.

(** ** mining.extranonce.subscribe *)

(** X5. In NiceHash mode, mining.extranonce.subscribe: parameters that do
    not decode end the session with the error "invalid params" and
    nothing is written; an empty parameter list is answered [true], the
    session becomes subscribed, and mining.set_extranonce with the
    session's extranonce follows (if the first write fails the session
    does not become subscribed); any other parameter list is answered by
    the error ["20", "Not supported."], the session is left as it was and
    goes on. *)
Theorem extranonce_subscribe_cases env req w :
  stratum (cs w) = NiceHash ->
  Method req = "mining.extranonce.subscribe"%string ->
  (forall e, Unmarshal_strings (Params req) = inl e ->
     handleTCPMessage env req w = (Val (Some (Err "invalid params")), w))
  /\ (Unmarshal_strings (Params req) = inr [] ->
      (writes_ok w ->
       fst (handleTCPMessage env req w) = Val None
       /\ cs (snd (handleTCPMessage env req w)) = set_ExtranonceSub true (cs w)
       /\ trace (snd (handleTCPMessage env req w)) =
            trace w ++
            [Sent (JSONRpcResp (Id req) "" (VBool true) VNil);
             Sent (JSONStratumReq VNil "mining.set_extranonce"
                     (VList [VString (Extranonce (cs w))]) EmptyString EmptyString)])
      /\ (forall t, wtape w = false :: t ->
          cs (snd (handleTCPMessage env req w)) = cs w
          /\ trace (snd (handleTCPMessage env req w)) = trace w))
  /\ (forall p ps, Unmarshal_strings (Params req) = inr (p :: ps) ->
      cs (snd (handleTCPMessage env req w)) = cs w
      /\ (writes_ok w ->
          fst (handleTCPMessage env req w) = Val None
          /\ trace (snd (handleTCPMessage env req w)) =
               trace w ++
               [Sent (JSONRpcResp (Id req) "" VNil
                        (VStrings ["20"; "Not supported."]%string))])).
Proof.
  intros Hm Hmeth.
  destruct w as [s E S c t wt r]. destruct s as [a i l wk st x xs jd sj ids].
  simpl in Hm. subst st.
  unfold writes_ok, handleTCPMessage, first_switch, nicehash_switch,
    on_mining_extranonce_subscribe.
  rewrite Hmeth.
  unfold bind, stratumMode, get_cs, ret; simpl.
  split; [|split].
  - intros e He. now rewrite He.
  - intros Hp. rewrite Hp. simpl.
    unfold sendStratumResult, sendTCPReq, Encode, bind, upd_cs, get_cs, ret; simpl.
    split.
    + intros Hw. destruct wt as [|[|] [|[|] wt]]; simpl in *; try discriminate;
        rewrite trace_two; auto.
    + intros t0 ->. simpl. auto.
  - intros p ps Hp. rewrite Hp. simpl.
    unfold sendStratumError, Encode; simpl.
    destruct wt as [|[|] wt]; simpl; (split; [reflexivity|]); intros Hw;
      try discriminate; auto.
Qed.

Lemma extranonce_subscribe_cases_witness :
  stratum (cs Demo.mining) = NiceHash
  /\ handleTCPMessage Demo.env
       {| Id := Some (JNumber "7"); Method := "mining.extranonce.subscribe";
          Params := Some (JNumber "1"); Worker := EmptyString |} Demo.mining
     = (Val (Some (Err "invalid params")), Demo.mining).
Proof.
  split; [reflexivity|].
  exact (proj1 (extranonce_subscribe_cases Demo.env
                  {| Id := Some (JNumber "7"); Method := "mining.extranonce.subscribe";
                     Params := Some (JNumber "1"); Worker := EmptyString |}
                  Demo.mining eq_refl eq_refl) _ eq_refl).
Defined.

(** ** eth_submitHashrate *)

Lemma substring_all (s : string) : String.substring 0 (String.length s) s = s.
Proof. induction s as [|c s IH]; simpl; [reflexivity | now rewrite IH]. Qed.

Lemma slice_from_0x (digits : string) :
  GoString.slice_from (String "0" (String "x" digits)) 2 = Some digits.
Proof.
  unfold GoString.slice_from, GoString.slice.
  cbn [String.length Nat.leb andb Nat.sub String.substring].
  rewrite Nat.leb_refl, Nat.sub_0_r. now rewrite substring_all.
Qed.

Lemma HasPrefix_0x (digits : string) :
  GoString.HasPrefix (String "0" (String "x" digits)) "0x" = true.
Proof. unfold GoString.HasPrefix. simpl. now destruct digits. Qed.

(** X6. In EthProxy mode, eth_submitHashrate: with fewer than two
    parameters nothing happens and the handler returns nil; a hash rate
    that does not start with 0x ends the session with the error
    "Malformed hashrate value"; one whose digits after 0x are not a
    hexadecimal number that fits 64 signed bits (the empty run of digits
    among them) ends the session with the parse error; in these cases
    nothing is written. A well-formed hash rate is answered [true] and
    leaves the session as it was. *)
Theorem submitHashrate_cases env req w :
  stratum (cs w) = EthProxy ->
  Method req = "eth_submitHashrate"%string ->
  (forall params, Unmarshal_strings (Params req) = inr params ->
     (List.length params < 2)%nat ->
     handleTCPMessage env req w = (Val None, w))
  /\ (forall p0 p1 rest, Unmarshal_strings (Params req) = inr (p0 :: p1 :: rest) ->
      GoString.HasPrefix p0 "0x" = false ->
      handleTCPMessage env req w = (Val (Some (Err "Malformed hashrate value")), w))
  /\ (forall digits p1 rest,
        Unmarshal_strings (Params req) =
          inr (String "0" (String "x" digits) :: p1 :: rest) ->
        GoString.ParseInt16 digits = None ->
        (exists e, fst (handleTCPMessage env req w) = Val (Some e))
        /\ snd (handleTCPMessage env req w) = w)
  /\ (forall digits p1 rest v,
        Unmarshal_strings (Params req) =
          inr (String "0" (String "x" digits) :: p1 :: rest) ->
        GoString.ParseInt16 digits = Some v ->
        cs (snd (handleTCPMessage env req w)) = cs w
        /\ (writes_ok w ->
            fst (handleTCPMessage env req w) = Val None
            /\ trace (snd (handleTCPMessage env req w)) =
                 trace w ++ [Sent (JSONRpcResp (Id req) "2.0" (VBool true) VNil)])).
Proof.
  intros Hm Hmeth.
  destruct w as [s E S c t wt r]. destruct s as [a i l wk st x xs jd sj ids].
  simpl in Hm. subst st.
  unfold writes_ok, handleTCPMessage, first_switch, ethproxy_switch,
    on_eth_submitHashrate.
  rewrite Hmeth.
  unfold bind, stratumMode, get_cs, ret; simpl.
  split; [|split; [|split]].
  - intros params Hp Hlen. rewrite Hp.
    destruct params as [|p0 [|p1 rest]]; simpl in *; try reflexivity. lia.
  - intros p0 p1 rest Hp Hpre. rewrite Hp. simpl.
    unfold index, or_panic, ret; simpl. now rewrite Hpre.
  - intros digits p1 rest Hp Hparse. rewrite Hp.
    cbn [List.length Nat.ltb Nat.leb].
    unfold index, or_panic, ret. cbn [lookup list_lookup].
    rewrite HasPrefix_0x.
    cbn [negb]. rewrite slice_from_0x, Hparse. simpl. eauto.
  - intros digits p1 rest v Hp Hparse. rewrite Hp.
    cbn [List.length Nat.ltb Nat.leb].
    unfold index, or_panic, ret. cbn [lookup list_lookup].
    rewrite HasPrefix_0x.
    cbn [negb]. rewrite slice_from_0x, Hparse.
    unfold sendTCPResult, Encode; simpl.
    destruct wt as [|[|] wt]; simpl; (split; [reflexivity|]); intros Hw;
      try discriminate; auto.
Qed.

Lemma submitHashrate_cases_witness :
  stratum (cs (snd (run Demo.env [Request Demo.submitLogin] Demo.world))) = EthProxy
  /\ GoString.ParseInt16 EmptyString = None
  /\ snd (handleTCPMessage Demo.env (Demo.request "eth_submitHashrate" ["0x"; "id"])
            (snd (run Demo.env [Request Demo.submitLogin] Demo.world)))
     = snd (run Demo.env [Request Demo.submitLogin] Demo.world).
Proof.
  split; [reflexivity|]. split; [reflexivity|].
  exact (proj2 (proj1 (proj2 (proj2 (submitHashrate_cases Demo.env
                  (Demo.request "eth_submitHashrate" ["0x"; "id"])
                  (snd (run Demo.env [Request Demo.submitLogin] Demo.world))
                  eq_refl eq_refl)))
                  EmptyString "id"%string [] eq_refl eq_refl)).
Defined.

(** ** The reply to mining.subscribe *)

Lemma getNotificationResponse_flat env w t :
  stratum (cs w) = NiceHash ->
  currentBlockTemplate env = Some t ->
  getNotificationResponse env w =
    (Val (flat_response env t w), with_rpos (rpos w + 16 + 8) w).
Proof.
  intros Hm Ht. unfold getNotificationResponse, flat_response.
  rewrite (bind_val _ _ _ _ _ (randomHex_run env 16 w)).
  unfold bind at 1. unfold get_cs at 1.
  unfold bind at 1. unfold stratumMode, bind, get_cs, ret.
  cbn [cs with_rpos rpos].
  rewrite Hm, Ht. change (NiceHash =? NiceHash) with true.
  cbv beta iota. rewrite randomHex_run. reflexivity.
Qed.

(** X7. getNotificationResponse changes nothing but the position of the
    random generator. For a session in NiceHash mode, when the server
    has a block template, the response is the flat array
    [mining.notify, job id, seed, header, height], with a job id of 8
    random hex digits and without the session's extranonce; otherwise it
    is the pair of [mining.notify, 16 random hex digits,
    EthereumStratum/1.0.0] and the session's extranonce. *)
Theorem getNotificationResponse_forms env w :
  (stratum (cs w) = NiceHash ->
   forall t, currentBlockTemplate env = Some t ->
   getNotificationResponse env w =
     (Val (flat_response env t w), with_rpos (rpos w + 16 + 8) w))
  /\ (stratum (cs w) <> NiceHash \/ currentBlockTemplate env = None ->
      getNotificationResponse env w =
        (Val (paired_response env w), with_rpos (rpos w + 16) w)).
Proof.
  split; [intros Hm t Ht; now apply getNotificationResponse_flat|].
  unfold getNotificationResponse, paired_response.
  rewrite (bind_val _ _ _ _ _ (randomHex_run env 16 w)).
  unfold bind at 1. unfold get_cs at 1.
  unfold bind at 1. unfold stratumMode, bind, get_cs, ret.
  cbn [cs with_rpos rpos].
  { intros [Hm|Ht].
    + destruct (Z.eqb_spec (stratum (cs w)) NiceHash) as [E|_]; [now elim Hm|].
      reflexivity.
    + rewrite Ht. destruct (stratum (cs w) =? NiceHash); reflexivity. }
Qed.

Lemma handle_mining_subscribe env req w :
  Method req = "mining.subscribe"%string ->
  handleTCPMessage env req w = on_mining_subscribe env req w.
Proof.
  intros H. unfold handleTCPMessage, first_switch, returning. rewrite H.
  change (String.eqb "mining.subscribe" "eth_login") with false.
  change (String.eqb "mining.subscribe" "eth_submitLogin") with false.
  change (String.eqb "mining.subscribe" "mining.subscribe") with true.
  cbv iota. unfold bind, ret.
  destruct (on_mining_subscribe env req w) as [[e| |] w1]; reflexivity.
Qed.

Lemma on_mining_subscribe_run env req w p0 p1 rest :
  Unmarshal_strings (Params req) = inr (p0 :: p1 :: rest) ->
  on_mining_subscribe env req w =
    (if negb (String.eqb p1 "EthereumStratum/1.0.0") && negb (String.eqb p0 "GodMiner/2.0.0")
     then sendStratumError (Id req) (VString "unsupported stratum version") w
     else
       (result <- getNotificationResponse env;;
        sendStratumResult (Id req) result)
         (with_cs (set_stratum NiceHash) (with_cs (set_ExtranonceSub true) w))).
Proof.
  intros Hp. unfold on_mining_subscribe. rewrite Hp.
  transitivity
    ((if negb (String.eqb p1 "EthereumStratum/1.0.0") && negb (String.eqb p0 "GodMiner/2.0.0")
      then sendStratumError (Id req) (VString "unsupported stratum version")
      else
        _ <- upd_cs (set_ExtranonceSub true);;
        _ <- setStratumMode "EthereumStratum/1.0.0";;
        result <- getNotificationResponse env;;
        sendStratumResult (Id req) result) w); [reflexivity|].
  destruct (negb (String.eqb p1 "EthereumStratum/1.0.0")
            && negb (String.eqb p0 "GodMiner/2.0.0")); reflexivity.
Qed.

(** X8. mining.subscribe, in whatever mode the session is. With fewer
    than two parameters nothing happens. If the second parameter is not
    EthereumStratum/1.0.0 and the first is not GodMiner/2.0.0, the reply
    is the error "unsupported stratum version", the session keeps its
    mode and its subscription state, and it goes on. Otherwise the
    session is subscribed to its extranonce and put in NiceHash mode
    before anything is written, and with a block template at hand the
    reply is the flat notify array, which does not carry the extranonce. *)
Theorem mining_subscribe_cases env req w :
  Method req = "mining.subscribe"%string ->
  (forall params, Unmarshal_strings (Params req) = inr params ->
     (List.length params < 2)%nat ->
     handleTCPMessage env req w = (Val None, w))
  /\ (forall p0 p1 rest, Unmarshal_strings (Params req) = inr (p0 :: p1 :: rest) ->
      p1 <> "EthereumStratum/1.0.0"%string -> p0 <> "GodMiner/2.0.0"%string ->
      cs (snd (handleTCPMessage env req w)) = cs w
      /\ (writes_ok w ->
          fst (handleTCPMessage env req w) = Val None
          /\ trace (snd (handleTCPMessage env req w)) =
               trace w ++ [Sent (JSONRpcResp (Id req) "" VNil
                                   (VString "unsupported stratum version"))]))
  /\ (forall p0 p1 rest, Unmarshal_strings (Params req) = inr (p0 :: p1 :: rest) ->
      p1 = "EthereumStratum/1.0.0"%string \/ p0 = "GodMiner/2.0.0"%string ->
      cs (snd (handleTCPMessage env req w)) =
        set_stratum NiceHash (set_ExtranonceSub true (cs w))
      /\ (forall t, currentBlockTemplate env = Some t -> writes_ok w ->
          fst (handleTCPMessage env req w) = Val None
          /\ trace (snd (handleTCPMessage env req w)) =
               trace w ++ [Sent (JSONRpcResp (Id req) "" (flat_response env t w) VNil)])).
Proof.
  intros Hmeth. rewrite !handle_mining_subscribe by exact Hmeth.
  split; [|split].
  - intros params Hp Hlen. unfold on_mining_subscribe. rewrite Hp.
    destruct params as [|p0 [|p1 rest]]; simpl in *; try reflexivity. lia.
  - intros p0 p1 rest Hp H1 H0.
    rewrite !(on_mining_subscribe_run env req w p0 p1 rest Hp).
    destruct (String.eqb_spec p1 "EthereumStratum/1.0.0") as [E|_]; [now elim H1|].
    destruct (String.eqb_spec p0 "GodMiner/2.0.0") as [E|_]; [now elim H0|].
    cbn [negb andb]. unfold writes_ok, sendStratumError, Encode.
    destruct w as [s E S c t wt r]. cbn [wtape].
    destruct wt as [|[|] wt]; simpl; (split; [reflexivity|]); intros Hw;
      try discriminate; auto.
  - intros p0 p1 rest Hp Hok.
    rewrite !(on_mining_subscribe_run env req w p0 p1 rest Hp).
    assert (Hc : negb (String.eqb p1 "EthereumStratum/1.0.0")
                 && negb (String.eqb p0 "GodMiner/2.0.0") = false).
    { destruct Hok as [->| ->]; [reflexivity|].
      rewrite String.eqb_refl. cbn [negb]. apply andb_false_r. }
    rewrite Hc.
    set (w2 := with_cs (set_stratum NiceHash) (with_cs (set_ExtranonceSub true) w)).
    assert (Hk : keeps cs (x <- getNotificationResponse env;;
                           sendStratumResult (Id req) x))
      by (apply keeps_bind;
          [apply keeps_getNotificationResponse | intros ?; apply keeps_sendStratumResult];
          intros; reflexivity).
    split; [apply (Hk w2)|].
    intros t Ht Hw.
    unfold bind.
    rewrite (getNotificationResponse_flat env w2 t eq_refl Ht).
    unfold writes_ok in Hw. unfold sendStratumResult, Encode, flat_response.
    subst w2. destruct w as [s E S c tr wt r]. cbn [wtape with_rpos with_cs rpos] in *.
    destruct wt as [|[|] wt]; simpl in *; try discriminate; auto.
Qed.

Lemma mining_subscribe_cases_witness :
  Method Demo.subscribe = "mining.subscribe"%string
  /\ stratum (cs (snd (handleTCPMessage Demo.env Demo.subscribe Demo.world))) = NiceHash
  /\ ExtranonceSub (cs (snd (handleTCPMessage Demo.env Demo.subscribe Demo.world))) = true.
Proof.
  split; [reflexivity|].
  pose proof (proj1 (proj2 (proj2 (mining_subscribe_cases Demo.env Demo.subscribe
                                     Demo.world eq_refl))
                      "miner/1"%string "EthereumStratum/1.0.0"%string []
                      eq_refl (or_introl eq_refl))) as H.
  rewrite H. split; reflexivity.
Defined.

(** ** Storing a job: strip0x, sendJob, pushNewJob *)

Lemma slice_0x (rest : string) :
  GoString.slice (String "0" (String "x" rest)) 0 2 = Some "0x"%string.
Proof. unfold GoString.slice. simpl. now destruct rest. Qed.

Lemma strip0x_run_strip w seed header :
  SeedHash (JobDetails (cs w)) = String "0" (String "x" seed) ->
  GoString.slice_from (HeaderHash (JobDetails (cs w))) 2 = Some header ->
  strip0x w =
    (Val tt, with_cs (set_JobDetails
                        {| JobID := JobID (JobDetails (cs w)); SeedHash := seed;
                           HeaderHash := header; Height := Height (JobDetails (cs w)) |}) w).
Proof.
  intros Hs Hh. unfold strip0x, bind, get_cs.
  rewrite Hs, slice_0x, slice_from_0x. cbn [or_panic ret].
  change (String.eqb "0x" "0x") with true. cbv iota.
  cbn [upd_cs with_cs cs set_JobDetails JobDetails HeaderHash]. rewrite Hh.
  reflexivity.
Qed.

Lemma strip0x_run_keep w p :
  GoString.slice (SeedHash (JobDetails (cs w))) 0 2 = Some p ->
  p <> "0x"%string ->
  strip0x w = (Val tt, w).
Proof.
  intros Hs Hp. unfold strip0x, bind, get_cs. rewrite Hs. cbn [or_panic ret].
  destruct (String.eqb_spec p "0x") as [E|_]; [now elim Hp | reflexivity].
Qed.

(** X9. strip0x looks at the seed hash alone. A seed of at least two
    bytes that does not begin with 0x leaves the job as it is, whatever
    the header is. Behind a seed that begins with 0x the header loses its
    first two bytes, whatever they are; and if the header has fewer than
    two bytes the code panics after it has already stored the stripped
    seed. *)
Theorem strip0x_cases w :
  (forall p, GoString.slice (SeedHash (JobDetails (cs w))) 0 2 = Some p ->
     p <> "0x"%string -> strip0x w = (Val tt, w))
  /\ (forall seed, SeedHash (JobDetails (cs w)) = String "0" (String "x" seed) ->
      (forall header, GoString.slice_from (HeaderHash (JobDetails (cs w))) 2 = Some header ->
         strip0x w =
           (Val tt, with_cs (set_JobDetails
                               {| JobID := JobID (JobDetails (cs w)); SeedHash := seed;
                                  HeaderHash := header;
                                  Height := Height (JobDetails (cs w)) |}) w))
      /\ ((String.length (HeaderHash (JobDetails (cs w))) < 2)%nat ->
          strip0x w =
            (Panic "slice bounds out of range",
             with_cs (set_JobDetails
                        {| JobID := JobID (JobDetails (cs w)); SeedHash := seed;
                           HeaderHash := HeaderHash (JobDetails (cs w));
                           Height := Height (JobDetails (cs w)) |}) w))).
Proof.
  split; [exact (strip0x_run_keep w)|].
  intros seed Hs. split; [intros header; now apply strip0x_run_strip|].
  intros Hlen. unfold strip0x, bind, get_cs.
  rewrite Hs, slice_0x, slice_from_0x. cbn [or_panic ret].
  change (String.eqb "0x" "0x") with true. cbv iota.
  cbn [upd_cs with_cs cs set_JobDetails JobDetails HeaderHash].
  unfold GoString.slice_from, GoString.slice.
  replace (2 <=? String.length (HeaderHash (JobDetails (cs w))))%nat with false
    by (symmetry; apply Nat.leb_gt; exact Hlen).
  reflexivity.
Qed.

(** The steps sendJob and pushNewJob share, from the draw of the job id
    to strip0x, on work whose seed has its prefix. *)
Lemma install_job_run env header seed diff height rest hdr' {A} (k : M A) w :
  GoString.slice_from header 2 = Some hdr' ->
  (jid <- randomHex env 8;;
   seed0 <- index (header :: String "0" (String "x" seed) :: diff :: height :: rest) 1;;
   header0 <- index (header :: String "0" (String "x" seed) :: diff :: height :: rest) 0;;
   height0 <- index (header :: String "0" (String "x" seed) :: diff :: height :: rest) 3;;
   _ <- upd_cs (set_JobDetails
             {| JobID := jid; SeedHash := seed0; HeaderHash := header0;
                Height := height0 |});;
   _ <- strip0x;;
   k) w =
  k (with_cs (set_JobDetails (stripped_job env (rpos w) seed hdr' height))
       (with_rpos (rpos w + 8) w)).
Proof.
  intros Hh.
  rewrite (bind_val _ _ _ _ _ (randomHex_run env 8 w)).
  set (w2 := with_cs (set_JobDetails
                        {| JobID := hex_at env (rpos w) 8;
                           SeedHash := String "0" (String "x" seed);
                           HeaderHash := header; Height := height |})
               (with_rpos (rpos w + 8) w)).
  change ((_ <- strip0x;; k) w2 = k (with_cs (set_JobDetails
                                               (stripped_job env (rpos w) seed hdr' height))
                                      (with_rpos (rpos w + 8) w))).
  rewrite (bind_val _ _ _ _ _ (strip0x_run_strip w2 seed hdr' eq_refl Hh)).
  reflexivity.
Qed.

Lemma getWorkRPC_run env w :
  getWorkRPC env w = (Val (handleGetWorkRPC env (cs w)), with_trace GetWorkRPC w).
Proof. reflexivity. Qed.

(** X10. sendJob for a new job, when the upstream refuses to give work:
    the miner gets a stratum error whose first field is the character
    with the code point of the error code (not its decimal form), no
    mining.notify follows, the job of the session stays, and the block
    template is not consulted. *)
Theorem sendJob_upstream_error env id w e :
  handleGetWorkRPC env (cs w) = inl e ->
  cs (snd (sendJob env id true w)) = cs w
  /\ (writes_ok w ->
      fst (sendJob env id true w) = Val None
      /\ trace (snd (sendJob env id true w)) =
           trace w ++ [GetWorkRPC;
                       Sent (JSONRpcResp id "" VNil
                               (VStrings [GoString.of_rune (Code e); Message e]))]).
Proof.
  intros He.
  assert (Hrun : sendJob env id true w =
                 (let (r, w') := sendStratumError id
                                   (VStrings [GoString.of_rune (Code e); Message e])
                                   (with_trace GetWorkRPC w) in
                  match r with
                  | Val a => (Val a, w')
                  | Panic msg => (Panic msg, w')
                  | Hang => (Hang, w')
                  end)).
  { unfold sendJob, getWorkRPC, get_cs, emit. unfold bind, ret. cbn [cs with_trace].
    rewrite He.
    destruct (sendStratumError id _ (with_trace GetWorkRPC w)) as [[x| |] w1];
      reflexivity. }
  rewrite Hrun. clear Hrun.
  unfold sendStratumError, Encode, writes_ok.
  destruct w as [s E S c t wt r]. cbn [wtape with_trace].
  destruct wt as [|[|] wt]; simpl; (split; [reflexivity|]); intros Hw;
    try discriminate; rewrite ?trace_two; auto.
Qed.

Lemma sendJob_upstream_error_witness :
  trace (snd (sendJob (Cases.without_work 45 "busy") None true Demo.start)) =
    trace Demo.start ++ [GetWorkRPC;
                         Sent (JSONRpcResp None "" VNil (VStrings ["-"; "busy"]%string))].
Proof.
  apply (sendJob_upstream_error (Cases.without_work 45 "busy") None Demo.start
           {| Code := 45; Message := "busy" |}); reflexivity.
Defined.




(** ** The stale cache *)

Lemma cacheStales_run max n w :
  0 <= n <= max ->
  cacheStales max n w =
    (Val tt,
     with_cs (set_stales
                (<[ JobID (JobDetails (cs w)) := stale_of (JobDetails (cs w)) ]>
                   (foldl (fun m v => delete v m) (staleJobs (cs w))
                      (stale_evicted max n (cs w))))
                (stale_kept max n (cs w) ++ [JobID (JobDetails (cs w))])) w).
Proof.
  intros Hn. unfold cacheStales, stale_evicted, stale_kept, stale_of.
  unfold bind at 1. unfold get_cs at 1.
  destruct (Z.ltb_spec max (Z.of_nat (List.length (staleJobIDs (cs w))))) as [Hgt|Hle].
  - unfold list_slice.
    set (ids := staleJobIDs (cs w)) in *.
    set (l := Z.of_nat (List.length ids)) in *.
    replace ((0 <=? l - n) && (l - n <=? l) && (l <=? l))
      with true by (symmetry; rewrite !andb_true_iff, !Z.leb_le; lia).
    replace ((0 <=? 0) && (0 <=? l - n) && (l - n <=? l))
      with true by (symmetry; rewrite !andb_true_iff, !Z.leb_le; lia).
    replace (Z.to_nat (l - n - 0)) with (List.length ids - Z.to_nat n)%nat by lia.
    replace (Z.to_nat (l - n)) with (List.length ids - Z.to_nat n)%nat by lia.
    replace (Z.to_nat (l - (l - n))) with (Z.to_nat n) by lia.
    change (Z.to_nat 0) with 0%nat. rewrite drop_0.
    rewrite (take_ge (drop _ ids)) by (rewrite length_drop; lia).
    reflexivity.
  - reflexivity.
Qed.

(** X12. cacheStales never panics when [0 <= n <= max]. The current job
    is entered in the cache under its id and its id is appended to the
    list of ids. Before that, if the list holds more than [max] ids, all
    but the last [n] are dropped from the list and their entries are
    deleted from the map, also the entry of an id that occurs among the
    kept ones as well; every other entry stays. *)
Theorem cacheStales_window max n w :
  0 <= n <= max ->
  fst (cacheStales max n w) = Val tt
  /\ staleJobIDs (cs (snd (cacheStales max n w))) =
       stale_kept max n (cs w) ++ [JobID (JobDetails (cs w))]
  /\ staleJobs (cs (snd (cacheStales max n w))) !! JobID (JobDetails (cs w)) =
       Some (stale_of (JobDetails (cs w)))
  /\ (forall v, v <> JobID (JobDetails (cs w)) ->
      staleJobs (cs (snd (cacheStales max n w))) !! v =
        if decide (v ∈ stale_evicted max n (cs w)) then None
        else staleJobs (cs w) !! v)
  /\ (Z.of_nat (List.length (staleJobIDs (cs w))) <= max ->
      stale_evicted max n (cs w) = [])
  /\ (max < Z.of_nat (List.length (staleJobIDs (cs w))) ->
      List.length (staleJobIDs (cs (snd (cacheStales max n w)))) = S (Z.to_nat n)).
Proof.
  intros Hn. rewrite (cacheStales_run max n w Hn).
  cbn [fst snd cs with_cs set_stales staleJobs staleJobIDs].
  split; [reflexivity|]. split; [reflexivity|].
  split; [apply lookup_insert_eq|].
  split.
  { intros v Hv. rewrite lookup_insert_ne by congruence. apply foldl_delete_lookup. }
  unfold stale_evicted, stale_kept. split.
  - intros Hle.
    destruct (Z.ltb_spec max (Z.of_nat (List.length (staleJobIDs (cs w))))); [lia|reflexivity].
  - intros Hgt.
    destruct (Z.ltb_spec max (Z.of_nat (List.length (staleJobIDs (cs w))))); [|lia].
    rewrite length_app, length_drop. simpl. lia.
Qed.

Lemma cacheStales_window_witness :
  staleJobIDs (cs (snd (cacheStales 1 1 (with_cs (set_stales ∅ ["a"; "b"; "c"]%string)
                                           Demo.mining)))) =
    ["c"; "44445555"]%string.
Proof.
  pose proof (proj1 (proj2 (cacheStales_window 1 1
                              (with_cs (set_stales ∅ ["a"; "b"; "c"]%string) Demo.mining)
                              ltac:(lia)))) as H.
  rewrite H. reflexivity.
Defined.

Lemma pushNewJob_run env w header seed diff height rest hdr' :
  stratum (cs w) = NiceHash ->
  GoString.slice_from header 2 = Some hdr' ->
  pushNewJob env (header :: String "0" (String "x" seed) :: diff :: height :: rest) w =
    (h <- template_Height env;;
     s <- get_cs;;
     Encode (JSONStratumReq VNil "mining.notify"
               (VList [VString (JobID (JobDetails s));
                       VString (SeedHash (JobDetails s));
                       VString (HeaderHash (JobDetails s));
                       VBool false])
               (ToHex1 env h) (config_Algo env)))
      (with_cs (set_JobDetails (stripped_job env (rpos w) seed hdr' height))
         (with_rpos (rpos w + 8)
            (with_cs (set_stales
                        (<[ JobID (JobDetails (cs w)) := stale_of (JobDetails (cs w)) ]>
                           (foldl (fun m v => delete v m) (staleJobs (cs w))
                              (stale_evicted 10 3 (cs w))))
                        (stale_kept 10 3 (cs w) ++ [JobID (JobDetails (cs w))])) w))).
Proof.
  intros Hm Hh. unfold pushNewJob.
  rewrite (bind_val stratumMode _ w (stratum (cs w)) w eq_refl), Hm.
  change (NiceHash =? NiceHash) with true. cbv iota.
  rewrite (bind_val _ _ _ _ _ (cacheStales_run 10 3 w ltac:(lia))).
  now rewrite (install_job_run env header seed diff height rest hdr' _ _ Hh).
Qed.



(** ** The broadcaster *)

(** X14. What broadcastNewJobs does for a session that is not in
    NiceHash mode: the work goes out as a push with id 0 and version
    2.0. If the write succeeds the deadline of the connection is renewed
    and the registry stays; if it fails the session is taken out of the
    session table and its extranonce out of the extranonce set, while
    the connection is not closed. The session itself is never changed. *)
Theorem broadcast_to_outcomes env reply w :
  stratum (cs w) <> NiceHash ->
  cs (snd (broadcast_to env reply w)) = cs w
  /\ connClosed (snd (broadcast_to env reply w)) = connClosed w
  /\ (writes_ok w ->
      trace (snd (broadcast_to env reply w)) =
        trace w ++ [Sent (JSONPushMessage "2.0" (VStrings reply) 0); SetDeadline]
      /\ sessions (snd (broadcast_to env reply w)) = sessions w
      /\ Extranonces (snd (broadcast_to env reply w)) = Extranonces w)
  /\ (forall rest, wtape w = false :: rest ->
      trace (snd (broadcast_to env reply w)) = trace w
      /\ sessions (snd (broadcast_to env reply w)) = sessions w ∖ {[ addr (cs w) ]}
      /\ Extranonces (snd (broadcast_to env reply w)) =
           delete (Extranonce (cs w)) (Extranonces w)).
Proof.
  intros Hm.
  assert (Hrun : pushNewJob env reply w =
                 Encode (JSONPushMessage "2.0" (VStrings reply) 0) w).
  { unfold pushNewJob.
    rewrite (bind_val stratumMode _ w (stratum (cs w)) w eq_refl).
    destruct (Z.eqb_spec (stratum (cs w)) NiceHash) as [E|_]; [now elim Hm|].
    reflexivity. }
  unfold broadcast_to, bind. rewrite Hrun. clear Hrun.
  unfold Encode, removeSession, setDeadline, emit, writes_ok.
  destruct w as [s E S c t wt r]. cbn [wtape].
  destruct wt as [|[|] wt]; simpl; repeat split; try discriminate;
    try (intros; rewrite ?trace_two; reflexivity);
    intros rest0 Hr; injection Hr as <-; reflexivity.
Qed.

Lemma broadcast_to_outcomes_witness :
  sessions (snd (broadcast_to Demo.env Demo.work
                   (with_registry (Extranonces Demo.world) {[ 1%nat ]}
                      (with_wtape [false] Demo.world)))) = {[ 1%nat ]} ∖ {[ 1%nat ]}.
Proof.
  apply (proj2 (proj2 (proj2 (broadcast_to_outcomes Demo.env Demo.work
                                (with_registry (Extranonces Demo.world) {[ 1%nat ]}
                                   (with_wtape [false] Demo.world))
                                ltac:(discriminate))))
           [] eq_refl).
Defined.

(** ** Extranonces and connections *)

Lemma uniqExtranonce_loop_spins env fuel :
  forall x w,
    (forall j, Extranonces w !! loop_candidate env x (rpos w) j <> None) ->
    fst (uniqExtranonce_loop env fuel x w) = Hang
    /\ Extranonces (snd (uniqExtranonce_loop env fuel x w)) = Extranonces w.
Proof.
  induction fuel as [|fuel IH]; intros x w Hheld.
  - pose proof (Hheld 0%nat) as H0. cbn [loop_candidate] in H0.
    cbn [uniqExtranonce_loop].
    destruct (Extranonces w !! x) as [b|]; [|now elim H0]. split; reflexivity.
  - pose proof (Hheld 0%nat) as H0. cbn [loop_candidate] in H0.
    cbn [uniqExtranonce_loop].
    destruct (Extranonces w !! x) as [b|]; [|now elim H0].
    unfold bind. rewrite randomHex_run.
    apply (IH (hex_at env (rpos w) 4) (with_rpos (rpos w + 4) w)).
    intros j.
    change (rpos (with_rpos (rpos w + 4) w)) with (rpos w + 4)%nat.
    change (Extranonces (with_rpos (rpos w + 4) w)) with (Extranonces w).
    rewrite (loop_candidate_shift env x). apply (Hheld (S j)).
Qed.

Lemma bind_hang {A B} (m : M A) (k : A -> M B) w :
  fst (m w) = Hang -> bind m k w = (Hang, snd (m w)).
Proof. unfold bind. destruct (m w) as [[a| |] w1]; simpl; congruence. Qed.

(** X15. uniqExtranonce has no bound on its retries: when every value
    the generator draws is already in the extranonce set, it does not
    return, however many retries it is given, and the set stays as it
    is. *)
Theorem uniqExtranonce_spins env w :
  (forall j, Extranonces w !! candidate env (rpos w) j <> None) ->
  forall fuel,
    fst (uniqExtranonce env fuel w) = Hang
    /\ Extranonces (snd (uniqExtranonce env fuel w)) = Extranonces w.
Proof.
  intros Hheld fuel. unfold uniqExtranonce.
  rewrite (bind_val _ _ _ _ _ (randomHex_run env 4 w)).
  assert (Hloop : forall j,
            Extranonces (with_rpos (rpos w + 4) w)
              !! loop_candidate env (hex_at env (rpos w) 4)
                   (rpos (with_rpos (rpos w + 4) w)) j <> None).
  { intros [|j]; cbn [loop_candidate].
    - specialize (Hheld 0%nat). unfold candidate in Hheld.
      now replace (rpos w + 4 * 0)%nat with (rpos w) in Hheld by lia.
    - specialize (Hheld (S j)). unfold candidate in *.
      change (rpos (with_rpos (rpos w + 4) w)) with (rpos w + 4)%nat.
      now replace (rpos w + 4 + 4 * j)%nat with (rpos w + 4 * S j)%nat by lia. }
  destruct (uniqExtranonce_loop_spins env fuel _ _ Hloop) as [Hf HE].
  rewrite !(bind_hang _ _ _ Hf). split; [reflexivity | exact HE].
Qed.

Lemma uniqExtranonce_spins_witness :
  fst (uniqExtranonce Cases.constant_generator 1000 Demo.world) = Hang.
Proof.
  apply (uniqExtranonce_spins Cases.constant_generator Demo.world).
  intros j. unfold candidate. cbn [hex_at Cases.constant_generator rand_src].
  discriminate.
Defined.

Lemma uniqExtranonce_loop_rpos env fuel :
  forall x w, exists n, snd (uniqExtranonce_loop env fuel x w) = with_rpos n w.
Proof.
  induction fuel as [|fuel IH]; intros x w; cbn [uniqExtranonce_loop].
  - exists (rpos w). destruct (Extranonces w !! x); now destruct w.
  - destruct (Extranonces w !! x) as [b|].
    + unfold bind. rewrite randomHex_run.
      destruct (IH (hex_at env (rpos w) 4) (with_rpos (rpos w + 4) w)) as [n Hn].
      exists n. rewrite Hn. reflexivity.
    + exists (rpos w). now destruct w.
Qed.

Lemma uniqExtranonce_sound env fuel w x w' :
  uniqExtranonce env fuel w = (Val x, w') ->
  (exists pos, x = hex_at env pos 4)
  /\ Extranonces w !! x = None
  /\ exists n, w' = with_registry (<[ x := true ]> (Extranonces w)) (sessions w)
                      (with_rpos n w).
Proof.
  unfold uniqExtranonce.
  rewrite (bind_val _ _ _ _ _ (randomHex_run env 4 w)).
  unfold bind at 1.
  destruct (uniqExtranonce_loop_rpos env fuel (hex_at env (rpos w) 4)
              (with_rpos (rpos w + 4) w)) as [n Hn].
  destruct (uniqExtranonce_loop env fuel (hex_at env (rpos w) 4)
              (with_rpos (rpos w + 4) w)) as [[y| |] w1] eqn:Hloop;
    try discriminate.
  apply uniqExtranonce_loop_sound in Hloop. destruct Hloop as (Hy & Hc & HE).
  cbn [snd] in Hn. subst w1.
  unfold bind, ret. intros H. injection H as <- <-.
  split; [destruct Hc as [->|Hc]; eauto|]. split; [exact Hy|].
  exists n. reflexivity.
Qed.





(** ** Which request changes which field of the session *)

Lemma handleTCPMessage_dispatch env req w :
  handleTCPMessage env req w =
    (if String.eqb (Method req) "eth_login" then on_eth_login env req
     else if String.eqb (Method req) "eth_submitLogin" then on_eth_submitLogin env req
     else if String.eqb (Method req) "mining.subscribe" then on_mining_subscribe env req
     else if stratum (cs w) =? NiceHash then nicehash_switch env req
     else if stratum (cs w) =? EthProxy then ethproxy_switch env req
     else on_unknown env req) w.
Proof.
  unfold handleTCPMessage, first_switch, returning.
  destruct (String.eqb (Method req) "eth_login");
    [unfold bind, ret; now destruct (on_eth_login env req w) as [[e| |] w1]|].
  destruct (String.eqb (Method req) "eth_submitLogin");
    [unfold bind, ret; now destruct (on_eth_submitLogin env req w) as [[e| |] w1]|].
  destruct (String.eqb (Method req) "mining.subscribe");
    [unfold bind, ret; now destruct (on_mining_subscribe env req w) as [[e| |] w1]|].
  unfold bind at 1. unfold bind at 1. unfold stratumMode at 1.
  unfold bind at 1. unfold get_cs at 1. unfold ret at 1.
  change EthProxy with 0. change NiceHash with 1.
  destruct (Z.eqb_spec (stratum (cs w)) 0) as [E0|N0].
  - unfold ret at 1. unfold bind at 1. unfold stratumMode, bind, get_cs, ret.
    rewrite E0. reflexivity.
  - destruct (Z.eqb_spec (stratum (cs w)) 1) as [E1|N1].
    + unfold ret at 1. unfold bind at 1. unfold stratumMode, bind, get_cs, ret.
      rewrite E1. reflexivity.
    + unfold bind, ret. now destruct (on_unknown env req w) as [[e| |] w1].
Qed.

Tactic Notation "keeps_by" uconstr(L) := apply L; intros; reflexivity.

Lemma sendJob_resend_keeps_job env id :
  keeps (fun w => JobDetails (cs w)) (sendJob env id false).
Proof.
  unfold sendJob. apply keeps_bind; [apply keeps_ret|]. intros [e|]; [apply keeps_ret|].
  apply keeps_bind; [keeps_by keeps_template_Height|]. intros h.
  apply keeps_bind; [apply keeps_get_cs|]. intros s.
  keeps_by keeps_sendTCPReq.
Qed.

Lemma on_mining_submit_keeps_job env req :
  keeps (fun w => JobDetails (cs w)) (on_mining_submit env req).
Proof.
  unfold on_mining_submit.
  destruct (Unmarshal_strings (Params req)) as [err|params]; [apply keeps_ret|].
  destruct (List.length params <? 3)%nat; [apply keeps_ret|].
  apply keeps_bind; [keeps_by keeps_index|]; intros p0.
  apply keeps_bind; [keeps_by keeps_index|]; intros p1.
  apply keeps_bind; [keeps_by keeps_index|]; intros p2. cbv zeta.
  apply keeps_bind.
  { destruct (1 <? List.length (GoString.Split p0 "."%char))%nat;
      [keeps_by keeps_index | apply keeps_ret]. }
  intros id. apply keeps_bind; [intros w; reflexivity|]. intros _.
  apply keeps_bind; [apply keeps_get_cs|]. intros s. cbv zeta.
  apply keeps_bind.
  { destruct (negb _); [|apply keeps_ret].
    destruct (staleJobs s !! p1); [apply keeps_ret|].
    apply keeps_bind; [keeps_by keeps_sendStratumError|]. intros [e|]; [apply keeps_ret|].
    apply keeps_bind; [apply sendJob_resend_keeps_job|]. intros e. apply keeps_ret. }
  intros [e|ps]; [apply keeps_ret|].
  apply keeps_bind; [keeps_by keeps_submitRPC|].
  intros [e|r]; [keeps_by keeps_sendStratumError | keeps_by keeps_sendStratumResult].
Qed.

(** X17. What a request can change in a session. The job of the session
    changes only through mining.authorize in NiceHash mode. The worker
    name changes only through mining.submit in NiceHash mode or through
    a login (eth_login, eth_submitLogin, or mining.authorize in NiceHash
    mode), where the login handler of the pool stores it. No request
    touches the stale cache. *)
Theorem request_changes_by_method env req w :
  (JobDetails (cs (snd (handleTCPMessage env req w))) <> JobDetails (cs w) ->
   Method req = "mining.authorize"%string /\ stratum (cs w) = NiceHash)
  /\ (worker (cs (snd (handleTCPMessage env req w))) <> worker (cs w) ->
      (Method req = "mining.submit"%string /\ stratum (cs w) = NiceHash)
      \/ Method req = "eth_login"%string
      \/ Method req = "eth_submitLogin"%string
      \/ (Method req = "mining.authorize"%string /\ stratum (cs w) = NiceHash))
  /\ staleJobs (cs (snd (handleTCPMessage env req w))) = staleJobs (cs w)
  /\ staleJobIDs (cs (snd (handleTCPMessage env req w))) = staleJobIDs (cs w).
Proof.
  assert (Hjob : Method req <> "mining.authorize"%string \/ stratum (cs w) <> NiceHash ->
                 JobDetails (cs (snd (handleTCPMessage env req w))) = JobDetails (cs w)).
  { intros Hno. rewrite handleTCPMessage_dispatch.
    destruct (String.eqb (Method req) "eth_login");
      [apply (keeps_on_eth_login (fun w => JobDetails (cs w))); intros; reflexivity|].
    destruct (String.eqb (Method req) "eth_submitLogin");
      [apply (keeps_on_eth_submitLogin (fun w => JobDetails (cs w))); intros; reflexivity|].
    destruct (String.eqb (Method req) "mining.subscribe");
      [apply (keeps_on_mining_subscribe (fun w => JobDetails (cs w))); intros; reflexivity|].
    destruct (Z.eqb_spec (stratum (cs w)) NiceHash) as [E1|N1].
    - unfold nicehash_switch.
      destruct (String.eqb_spec (Method req) "mining.authorize") as [Ea|_];
        [destruct Hno as [Hno|Hno]; now elim Hno|].
      destruct (String.eqb (Method req) "mining.extranonce.subscribe");
        [apply (keeps_on_mining_extranonce_subscribe (fun w => JobDetails (cs w)));
         intros; reflexivity|].
      destruct (String.eqb (Method req) "mining.submit");
        [apply on_mining_submit_keeps_job|].
      apply (keeps_on_nicehash_unknown (fun w => JobDetails (cs w))); intros; reflexivity.
    - destruct (stratum (cs w) =? EthProxy).
      + apply (keeps_ethproxy_switch (fun w => JobDetails (cs w))); intros; reflexivity.
      + apply (keeps_on_unknown (fun w => JobDetails (cs w))); intros; reflexivity. }
  assert (Hworker : Method req <> "mining.submit"%string \/ stratum (cs w) <> NiceHash ->
                    Method req <> "eth_login"%string ->
                    Method req <> "eth_submitLogin"%string ->
                    Method req <> "mining.authorize"%string \/ stratum (cs w) <> NiceHash ->
                    worker (cs (snd (handleTCPMessage env req w))) = worker (cs w)).
  { intros Hno Hl Hsl Hau. rewrite handleTCPMessage_dispatch.
    destruct (String.eqb_spec (Method req) "eth_login") as [E|_]; [now elim Hl|].
    destruct (String.eqb_spec (Method req) "eth_submitLogin") as [E|_]; [now elim Hsl|].
    destruct (String.eqb (Method req) "mining.subscribe");
      [apply (keeps_on_mining_subscribe (fun w => worker (cs w))); intros; reflexivity|].
    destruct (Z.eqb_spec (stratum (cs w)) NiceHash) as [E1|N1].
    - unfold nicehash_switch.
      destruct (String.eqb_spec (Method req) "mining.authorize") as [Ea|_];
        [destruct Hau as [Hau|Hau]; now elim Hau|].
      destruct (String.eqb (Method req) "mining.extranonce.subscribe");
        [apply (keeps_on_mining_extranonce_subscribe (fun w => worker (cs w)));
         intros; reflexivity|].
      destruct (String.eqb_spec (Method req) "mining.submit") as [Ea|_];
        [destruct Hno as [Hno|Hno]; now elim Hno|].
      apply (keeps_on_nicehash_unknown (fun w => worker (cs w))); intros; reflexivity.
    - destruct (stratum (cs w) =? EthProxy).
      + apply (keeps_ethproxy_switch (fun w => worker (cs w))); intros; reflexivity.
      + apply (keeps_on_unknown (fun w => worker (cs w))); intros; reflexivity. }
  split; [|split].
  - intros Hd.
    destruct (string_dec (Method req) "mining.authorize") as [Em|Nm];
      [|elim Hd; apply Hjob; now left].
    destruct (Z.eq_dec (stratum (cs w)) NiceHash) as [Es|Ns];
      [now split | elim Hd; apply Hjob; now right].
  - intros Hd.
    destruct (string_dec (Method req) "eth_login") as [El|Nl]; [auto|].
    destruct (string_dec (Method req) "eth_submitLogin") as [Esl|Nsl]; [auto|].
    destruct (Z.eq_dec (stratum (cs w)) NiceHash) as [Es|Ns];
      [|elim Hd; apply Hworker; auto].
    destruct (string_dec (Method req) "mining.submit") as [Em|Nm]; [auto|].
    destruct (string_dec (Method req) "mining.authorize") as [Ea|Na]; [auto 6|].
    elim Hd; apply Hworker; auto.
  - apply handleTCPMessage_stales.
Qed.

(** ** Random identifiers *)

Lemma hex_at_get env n : forall pos i,
  (i < n)%nat ->
  String.get i (hex_at env pos n) = Some (hexchar (rand_src env (pos + i) mod 16)).
Proof.
  induction n as [|n IH]; intros pos i Hi; [lia|].
  cbn [hex_at]. destruct i as [|i].
  - cbn [String.get]. now rewrite Nat.add_0_r.
  - cbn [String.get]. rewrite IH by lia. now rewrite Nat.add_succ_r.
Qed.

(** X18. randomHex always returns: a string of exactly [strlen]
    characters, all of them among 0-9a-f, the i-th being the digit of
    the i-th draw modulo 16; it consumes [strlen] draws and touches
    nothing else. *)
Theorem randomHex_digits env strlen w :
  exists s,
    randomHex env strlen w = (Val s, with_rpos (rpos w + strlen) w)
    /\ String.length s = strlen
    /\ all_lower_hex s = true
    /\ forall i, (i < strlen)%nat ->
         String.get i s = Some (hexchar (rand_src env (rpos w + i) mod 16)).
Proof.
  exists (hex_at env (rpos w) strlen).
  split; [apply randomHex_run|]. split; [apply hex_at_length|].
  split; [apply hex_at_lower|]. intros i Hi. now apply hex_at_get.
Qed.

(** ** The reader and short lines *)

(** X19. Lines of at most one byte are passed over by the reader
    without any effect: they are not decoded, the deadline of the
    connection is not renewed, and the next read is taken, whatever
    number of them arrives. *)
Theorem short_lines_are_skipped env blanks rest w :
  Forall skipped blanks ->
  read_loop env (blanks ++ rest) w = read_loop env rest w.
Proof.
  induction 1 as [|r blanks (Hp & He & Hl) _ IH]; [reflexivity|].
  cbn [app read_loop]. rewrite Hp, He.
  replace (1 <? String.length (data r))%nat with false
    by (symmetry; apply Nat.ltb_ge; exact Hl).
  exact IH.
Qed.

Lemma short_lines_are_skipped_witness :
  handleTCPClient Demo.env [Demo.blank_line; Demo.blank_line; Demo.eof_read] Demo.world =
    handleTCPClient Demo.env [Demo.eof_read] Demo.world.
Proof.
  unfold handleTCPClient, bind. cbn [setDeadline emit].
  apply (short_lines_are_skipped Demo.env [Demo.blank_line; Demo.blank_line]
           [Demo.eof_read]).
  repeat constructor.
Defined.

(** ** Verdicts of the upstream in EthProxy mode *)

Lemma handle_ethproxy env req w :
  stratum (cs w) = EthProxy ->
  String.eqb (Method req) "eth_login" = false ->
  String.eqb (Method req) "eth_submitLogin" = false ->
  String.eqb (Method req) "mining.subscribe" = false ->
  handleTCPMessage env req w = ethproxy_switch env req w.
Proof.
  intros Hm H1 H2 H3. rewrite handleTCPMessage_dispatch, H1, H2, H3, Hm. reflexivity.
Qed.

(** X20. In EthProxy mode a refusal of the upstream ends the session:
    when the upstream has no work for eth_getWork, or rejects the share
    of a well-formed eth_submitWork, the handler returns an error
    whether or not the error reply could be written, and if it could,
    the error is the message of the upstream and the reply is the
    JSON-RPC 2.0 error. *)
Theorem ethproxy_refusal_ends_session env req w e :
  stratum (cs w) = EthProxy ->
  (Method req = "eth_getWork"%string /\ handleGetWorkRPC env (cs w) = inl e)
  \/ (Method req = "eth_submitWork"%string
      /\ exists p0 p1 p2 rest,
           Unmarshal_strings (Params req) = inr (p0 :: p1 :: p2 :: rest)
           /\ String.length p0 = 18%nat /\ String.length p1 = 66%nat
           /\ String.length p2 = 66%nat
           /\ handleTCPSubmitRPC env (cs w) (Worker req) (p0 :: p1 :: p2 :: rest) = inl e) ->
  (exists err, fst (handleTCPMessage env req w) = Val (Some err))
  /\ (writes_ok w ->
      fst (handleTCPMessage env req w) = Val (Some (Err (Message e)))
      /\ exists call,
           trace (snd (handleTCPMessage env req w)) =
             trace w ++ [call; Sent (JSONRpcResp (Id req) "2.0" VNil (VError e))]).
Proof.
  intros Hm Hcase.
  assert (Hrun : exists call,
            handleTCPMessage env req w = sendTCPError (Id req) e (with_trace call w)).
  { destruct Hcase as [[Hmeth He]|(Hmeth & p0 & p1 & p2 & rest & Hp & H0 & H1 & H2 & He)].
    - exists GetWorkRPC.
      rewrite handle_ethproxy by (try exact Hm; rewrite Hmeth; reflexivity).
      unfold ethproxy_switch. rewrite Hmeth.
      change (String.eqb "eth_getWork" "eth_getWork") with true. cbv iota.
      unfold on_eth_getWork.
      now rewrite (bind_val _ _ _ _ _ (getWorkRPC_run env w)), He.
    - exists (SubmitRPC (Worker req) (p0 :: p1 :: p2 :: rest)).
      rewrite handle_ethproxy by (try exact Hm; rewrite Hmeth; reflexivity).
      unfold ethproxy_switch. rewrite Hmeth.
      change (String.eqb "eth_submitWork" "eth_getWork") with false.
      change (String.eqb "eth_submitWork" "eth_submitWork") with true. cbv iota.
      unfold on_eth_submitWork. rewrite Hp, H0, H1, H2.
      change (negb (18 =? 18)%nat || negb (66 =? 66)%nat || negb (66 =? 66)%nat)
        with false. cbv iota.
      unfold bind at 1. unfold submitRPC, bind, get_cs, emit, ret.
      cbn [cs with_trace]. now rewrite He. }
  destruct Hrun as [call Hrun]. rewrite Hrun. clear Hrun.
  unfold sendTCPError, Encode, bind, ret, writes_ok.
  destruct w as [s E S c t wt r]. cbn [wtape with_trace].
  destruct wt as [|[|] wt]; simpl; (split; [eauto|]); intros Hw; try discriminate;
    (split; [reflexivity|]); exists call; now rewrite trace_two.
Qed.

Lemma ethproxy_refusal_ends_session_witness :
  fst (handleTCPMessage (Cases.without_work 0 "Work not ready")
         (Demo.request "eth_getWork" [])
         (with_cs (set_stratum EthProxy) Demo.world)) =
    Val (Some (Err "Work not ready")).
Proof.
  apply (ethproxy_refusal_ends_session (Cases.without_work 0 "Work not ready")
           (Demo.request "eth_getWork" [])
           (with_cs (set_stratum EthProxy) Demo.world)
           {| Code := 0; Message := "Work not ready" |} eq_refl).
  - left. split; reflexivity.
  - reflexivity.
Defined.

(** ** mining.authorize *)










(** ** A share for the job a push has just replaced *)

Lemma pushNewJob_cs env w header seed diff height rest hdr' :
  stratum (cs w) = NiceHash ->
  GoString.slice_from header 2 = Some hdr' ->
  cs (snd (pushNewJob env (header :: String "0" (String "x" seed)
                             :: diff :: height :: rest) w)) =
    set_JobDetails (stripped_job env (rpos w) seed hdr' height)
      (set_stales
         (<[ JobID (JobDetails (cs w)) := stale_of (JobDetails (cs w)) ]>
            (foldl (fun m v => delete v m) (staleJobs (cs w))
               (stale_evicted 10 3 (cs w))))
         (stale_kept 10 3 (cs w) ++ [JobID (JobDetails (cs w))]) (cs w)).
Proof.
  intros Hm Hh. rewrite (pushNewJob_run env w header seed diff height rest hdr' Hm Hh).
  match goal with |- cs (snd (?m ?W)) = _ =>
    change (cs (snd (m W)) = cs W); apply (keeps_bind cs)
  end.
  - keeps_by keeps_template_Height.
  - intros h. apply keeps_bind; [apply keeps_get_cs|]. intros s. keeps_by keeps_Encode.
Qed.

Lemma submit_stale_forwards env req w user jobID minerNonce rest stale :
  stratum (cs w) = NiceHash ->
  Method req = "mining.submit"%string ->
  Unmarshal_strings (Params req) = inr (user :: jobID :: minerNonce :: rest) ->
  jobID <> JobID (JobDetails (cs w)) ->
  staleJobs (cs w) !! jobID = Some stale ->
  forwards (handleTCPMessage env req) env (Id req) w (worker_of user)
    [full_nonce (cs w) minerNonce; stale_SeedHash stale; stale_HeaderHash stale].
Proof.
  intros Hm Hmeth Hp Hne Hst.
  destruct w as [s E S c t wt r]. destruct s as [a i l wk st x xs jd sj ids].
  simpl in Hm. subst st.
  unfold forwards, writes_ok, submit_reply, full_nonce, worker_of,
    handleTCPMessage, first_switch, nicehash_switch, on_mining_submit.
  rewrite Hmeth, Hp.
  unfold bind, stratumMode, get_cs, ret; simpl.
  assert (Hid : forall w0 : World,
            (if (1 <? List.length (GoString.Split user "."))%nat
             then index (GoString.Split user ".") 1 else ret "0"%string) w0
            = (Val match GoString.Split user "." with
                   | _ :: y :: _ => y
                   | _ => "0"%string
                   end, w0)).
  { intros w0. destruct (GoString.Split user ".") as [|y0 [|y1 ys]]; reflexivity. }
  rewrite Hid. simpl. simpl in Hst, Hne.
  destruct (String.eqb_spec (JobID jd) jobID) as [Heq|_]; [now elim Hne|].
  simpl. rewrite Hst.
  unfold submitRPC, sendStratumError, sendStratumResult, Encode, bind,
    get_cs, emit, ret; simpl.
  destruct (handleTCPSubmitRPC env _ _ _) as [e|reply];
    destruct wt as [|[|] wt]; simpl;
    (split; [eexists; rewrite <- ?app_assoc; reflexivity
            | intros Hw; try discriminate; rewrite trace_two; auto]).
Qed.

(** X22. After pushNewJob has given a NiceHash session a new job, a
    share the miner submits for the job it had before is still taken:
    unless the new job id happens to equal the old one, mining.submit
    forwards it to the pool with the seed and header of the old job, as
    they were stored, and with the extranonce in front of the nonce if
    the session has subscribed to it. *)
Theorem share_for_replaced_job env w req user minerNonce rest header seed diff height
    more hdr' :
  stratum (cs w) = NiceHash ->
  GoString.slice_from header 2 = Some hdr' ->
  Method req = "mining.submit"%string ->
  Unmarshal_strings (Params req) =
    inr (user :: JobID (JobDetails (cs w)) :: minerNonce :: rest) ->
  JobID (JobDetails (cs w)) <> hex_at env (rpos w) 8 ->
  forwards (handleTCPMessage env req) env (Id req)
    (snd (pushNewJob env (header :: String "0" (String "x" seed)
                            :: diff :: height :: more) w))
    (worker_of user)
    [full_nonce (cs w) minerNonce; SeedHash (JobDetails (cs w));
     HeaderHash (JobDetails (cs w))].
Proof.
  intros Hm Hh Hmeth Hp Hne.
  pose proof (pushNewJob_cs env w header seed diff height more hdr' Hm Hh) as Hcs.
  set (w1 := snd (pushNewJob env (header :: String "0" (String "x" seed)
                                    :: diff :: height :: more) w)) in *.
  replace (full_nonce (cs w) minerNonce) with (full_nonce (cs w1) minerNonce)
    by (unfold full_nonce; now rewrite Hcs).
  apply (submit_stale_forwards env req w1 user (JobID (JobDetails (cs w))) minerNonce rest
           (stale_of (JobDetails (cs w)))).
  - now rewrite Hcs.
  - exact Hmeth.
  - exact Hp.
  - rewrite Hcs. exact Hne.
  - rewrite Hcs. apply lookup_insert_eq.
Qed.

Lemma share_for_replaced_job_witness :
  forwards
    (handleTCPMessage Demo.env
       (Demo.request "mining.submit" ["0xabc.rig1"; "44445555"; "beef"]))
    Demo.env (Some (JNumber "1"))
    (snd (pushNewJob Demo.env Demo.work Demo.mining))
    (worker_of "0xabc.rig1")
    [full_nonce (cs Demo.mining) "beef"; "seed"; "header"]%string.
Proof.
  apply (share_for_replaced_job Demo.env Demo.mining
           (Demo.request "mining.submit" ["0xabc.rig1"; "44445555"; "beef"])
           "0xabc.rig1" "beef" [] "0xheader" "seed" "0xdiff" "0x64" [] "header");
    try reflexivity.
  vm_compute. discriminate.
Defined.

(** ** Logins the pool refuses *)

(** X23. eth_login and eth_submitLogin, when the pool refuses the login:
    the handler returns an error whether or not the error reply could be
    written, so the session ends; if the reply could be written it is
    the JSON-RPC 2.0 error of the pool, and the error returned is its
    message. The mode of the session is not changed. *)
Theorem login_refusal_ends_session env req w params e :
  Method req = "eth_login"%string
  \/ (Method req = "eth_submitLogin"%string /\ params <> []) ->
  Unmarshal_strings (Params req) = inr params ->
  handleLoginRPC env (cs w) params (Worker req) = LoginErr e ->
  (exists err, fst (handleTCPMessage env req w) = Val (Some err))
  /\ cs (snd (handleTCPMessage env req w)) = cs w
  /\ sessions (snd (handleTCPMessage env req w)) = sessions w
  /\ (writes_ok w ->
      fst (handleTCPMessage env req w) = Val (Some (Err (Message e)))
      /\ trace (snd (handleTCPMessage env req w)) =
           trace w ++ [LoginRPC params (Worker req);
                       Sent (JSONRpcResp (Id req) "2.0" VNil (VError e))]).
Proof.
  intros Hcase Hp He.
  assert (Hlogin : loginRPC env params (Worker req) w =
                   (Val (inl e), with_trace (LoginRPC params (Worker req)) w)).
  { unfold loginRPC, bind, get_cs, emit. cbn [cs with_trace]. now rewrite He. }
  assert (Hrun : handleTCPMessage env req w =
                 sendTCPError (Id req) e (with_trace (LoginRPC params (Worker req)) w)).
  { rewrite handleTCPMessage_dispatch.
    destruct Hcase as [Hmeth|[Hmeth Hne]]; rewrite Hmeth.
    - change (String.eqb "eth_login" "eth_login") with true. cbv iota.
      unfold on_eth_login. rewrite Hp.
      now rewrite (bind_val _ _ _ _ _ Hlogin).
    - change (String.eqb "eth_submitLogin" "eth_login") with false.
      change (String.eqb "eth_submitLogin" "eth_submitLogin") with true. cbv iota.
      unfold on_eth_submitLogin. rewrite Hp.
      destruct params as [|p0 rest]; [now elim Hne|].
      cbn [List.length Nat.ltb Nat.leb].
      now rewrite (bind_val _ _ _ _ _ Hlogin). }
  rewrite Hrun. clear Hrun Hlogin.
  unfold sendTCPError, Encode, bind, ret, writes_ok.
  destruct w as [s E S c t wt r]. cbn [wtape with_trace].
  destruct wt as [|[|] wt]; simpl; (split; [eauto|]); (split; [reflexivity|]);
    (split; [reflexivity|]); intros Hw; try discriminate;
    (split; [reflexivity|]); now rewrite trace_two.
Qed.

Lemma login_refusal_ends_session_witness :
  fst (handleTCPMessage (Cases.rejecting_login (-1) "Invalid login") Demo.submitLogin
         Demo.world) = Val (Some (Err "Invalid login")).
Proof.
  apply (login_refusal_ends_session (Cases.rejecting_login (-1) "Invalid login")
           Demo.submitLogin Demo.world ["0xabc"; "x"]%string
           {| Code := -1; Message := "Invalid login" |}).
  - right. split; [reflexivity | discriminate].
  - reflexivity.
  - reflexivity.
  - reflexivity.
Defined.

(** ** A connection that comes and goes *)

Lemma accept_conn_admitted env fuel a ip w w' :
  accept_conn env fuel a ip w = (Val true, w') ->
  exists x n,
    w' = with_connClosed false
           (with_cs (fun _ => newSession a ip x)
              (with_registry (<[ x := true ]> (Extranonces w)) (sessions w)
                 (with_rpos n w)))
    /\ Extranonces w !! x = None.
Proof.
  unfold accept_conn.
  destruct (IsBanned env ip || negb (ApplyLimitPolicy env ip)); [discriminate|].
  unfold bind at 1.
  destruct (uniqExtranonce env fuel w) as [[x| |] w1] eqn:Hu; try discriminate.
  apply uniqExtranonce_sound in Hu. destruct Hu as (_ & Hfree & n & ->).
  unfold bind, ret, upd_cs. intros H. injection H as <-.
  exists x, n. split; [reflexivity | exact Hfree].
Qed.

(** X24. A connection that is accepted and then closed by the client
    before it sends a request leaves the extranonce set and the session
    table as they were before it came, provided its address is not that
    of a session in the table; the server's side of the connection is
    not closed by this code. *)
Theorem accept_then_eof_restores_registry env fuel a ip w w1 r rest :
  accept_conn env fuel a ip w = (Val true, w1) ->
  a ∉ sessions w ->
  isPrefix r = false ->
  read_err r = Some EOF ->
  Extranonces (snd (session_task env (r :: rest) w1)) = Extranonces w
  /\ sessions (snd (session_task env (r :: rest) w1)) = sessions w
  /\ connClosed (snd (session_task env (r :: rest) w1)) = false.
Proof.
  intros Hacc Hfree Hp He.
  destruct (accept_conn_admitted env fuel a ip w w1 Hacc) as (x & n & -> & Hx).
  unfold session_task, handleTCPClient, setDeadline, emit.
  unfold bind at 1. unfold bind at 1. cbn [read_loop].
  rewrite Hp, He. unfold bind, removeSession, ret.
  cbn [snd Extranonces sessions connClosed cs with_registry with_trace with_connClosed
       with_cs with_rpos addr Extranonce newSession].
  split; [|split].
  - now apply delete_insert_id.
  - apply difference_disjoint_L. now apply disjoint_singleton_r.
  - reflexivity.
Qed.

Lemma accept_then_eof_restores_registry_witness :
  Extranonces (snd (session_task Demo.env [Demo.eof_read] Demo.world)) = ∅.
Proof.
  apply (accept_then_eof_restores_registry Demo.env 0 1 "10.0.0.1" Demo.start Demo.world
           Demo.eof_read [] eq_refl).
  - apply not_elem_of_empty.
  - reflexivity.
  - reflexivity.
Defined.

(** ** NiceHash sessions and the extranonce *)

Lemma on_mining_subscribe_sub env req w :
  cs (snd (on_mining_subscribe env req w)) = cs w
  \/ ExtranonceSub (cs (snd (on_mining_subscribe env req w))) = true.
Proof.
  destruct (Unmarshal_strings (Params req)) as [err|params] eqn:Hp.
  - left. unfold on_mining_subscribe. now rewrite Hp.
  - destruct params as [|p0 [|p1 rest]].
    + left. unfold on_mining_subscribe. now rewrite Hp.
    + left. unfold on_mining_subscribe. now rewrite Hp.
    + rewrite !(on_mining_subscribe_run env req w p0 p1 rest Hp).
      destruct (negb (String.eqb p1 "EthereumStratum/1.0.0")
                && negb (String.eqb p0 "GodMiner/2.0.0")).
      * left. keeps_by (keeps_sendStratumError cs).
      * right.
        match goal with |- ExtranonceSub (cs (snd (?m ?W))) = true =>
          change (ExtranonceSub (cs (snd (m W))) = ExtranonceSub (cs W));
            apply (keeps_bind (fun w => ExtranonceSub (cs w)))
        end.
        -- keeps_by keeps_getNotificationResponse.
        -- intros v. keeps_by keeps_sendStratumResult.
Qed.

Lemma do_op_nicehash_subscribed env o w :
  nicehash_subscribed w -> nicehash_subscribed (snd (do_op env o w)).
Proof.
  intros Hinv Hmode. destruct o as [req|reply].
  - assert (Hsnd : snd (do_op env (Request req) w) = snd (handleTCPMessage env req w)).
    { simpl. unfold bind. now destruct (handleTCPMessage env req w) as [[e| |] w1]. }
    rewrite Hsnd in *.
    destruct (handleTCPMessage_mode env req w) as [Hsame|[[_ Heth]|[Hmeth _]]].
    + unfold mode_of in Hsame. rewrite Hsame in Hmode.
      rewrite <- Hsnd. apply do_op_keeps_sub. now apply Hinv.
    + unfold mode_of in Heth. rewrite Heth in Hmode. discriminate.
    + rewrite handle_mining_subscribe in * by exact Hmeth.
      destruct (on_mining_subscribe_sub env req w) as [Hcs|Hsub]; [|exact Hsub].
      rewrite Hcs in *. now apply Hinv.
  - apply do_op_keeps_sub. apply Hinv.
    rewrite <- Hmode. symmetry. simpl. rewrite broadcast_to_cs.
    apply (keeps_pushNewJob (fun w => stratum (cs w))); auto.
Qed.

(** X25. A session in NiceHash mode is always subscribed to its
    extranonce: the property holds for the session ListenTCP builds and
    is kept by every request and every broadcast, because the only way
    into NiceHash mode is mining.subscribe, which subscribes first, and
    nothing withdraws a subscription. So mining.submit never forwards a
    nonce without the extranonce for such a session. *)
Theorem nicehash_sessions_are_subscribed env ops w :
  (nicehash_subscribed w -> nicehash_subscribed (snd (run env ops w)))
  /\ (forall a ip x, nicehash_subscribed (snd (run env ops (fresh a ip x w)))).
Proof.
  assert (Hrun : forall w0, nicehash_subscribed w0 ->
                            nicehash_subscribed (snd (run env ops w0))).
  { induction ops as [|o ops IH]; intros w0 Hinv; [exact Hinv|].
    cbn [run]. unfold bind.
    pose proof (do_op_nicehash_subscribed env o w0 Hinv) as H1.
    destruct (do_op env o w0) as [[u| |] w1]; cbn [snd] in *; auto. }
  split; [apply Hrun|].
  intros a ip x. apply Hrun. discriminate.
Qed.

Lemma nicehash_sessions_are_subscribed_witness :
  stratum (cs Demo.mining) = NiceHash /\ ExtranonceSub (cs Demo.mining) = true.
Proof.
  split; [reflexivity|].
  apply (proj1 (nicehash_sessions_are_subscribed Demo.env
                  [Request Demo.subscribe; Broadcast Demo.work; Broadcast Demo.work]
                  Demo.world) ltac:(discriminate)).
  reflexivity.
Defined.

(** ** Calls of the policy *)

Lemma handleTCPMessage_no_policy env req w :
  extends_by no_policy w (snd (handleTCPMessage env req w)).
Proof.
  apply (moves_handleTCPMessage env req (extends_by no_policy) no_policy);
    try (intros; apply extends_by_same; reflexivity);
    try (intros; simpl; exact I).
  - apply extends_by_trans.
  - intros e w0. apply extends_by_event.
Qed.

Lemma policy_last_quiet env reads w (out : Res (option error) * World) :
  extends_by no_policy w (snd out) -> policy_last env reads w out.
Proof. intros (new & Ht & Hf). exists new. auto. Qed.

Lemma policy_last_after env front reads w w1 out :
  Forall goes_on front ->
  extends_by no_policy w w1 -> ip (cs w1) = ip (cs w) ->
  policy_last env reads w1 out -> policy_last env (front ++ reads) w out.
Proof.
  intros Hfront (n1 & H1 & F1) Hip (n2 & H2 & Hc). exists (n1 ++ n2).
  split; [now rewrite H2, H1, app_assoc|].
  destruct Hc as [F2|[(pre & before & r & after & -> & Fp & -> & Fb & Hr & Hout)
                     |(pre & before & r & after & err & -> & Fp & -> & Fb & Hr & Hout)]].
  - left. now apply Forall_app.
  - right. left. exists (n1 ++ pre), (front ++ before), r, after.
    rewrite !app_assoc, <- Hip.
    split; [reflexivity|]. split; [now apply Forall_app|].
    split; [reflexivity|]. split; [now apply Forall_app | auto].
  - right. right. exists (n1 ++ pre), (front ++ before), r, after, err.
    rewrite !app_assoc, <- Hip.
    split; [reflexivity|]. split; [now apply Forall_app|].
    split; [reflexivity|]. split; [now apply Forall_app | auto].
Qed.

Lemma read_loop_policy_last env reads :
  forall w, policy_last env reads w (read_loop env reads w).
Proof.
  induction reads as [|r rest IH]; intros w; cbn [read_loop].
  - apply policy_last_quiet, extends_by_same. reflexivity.
  - destruct (isPrefix r) eqn:Hp.
    { exists [BanClient (ip (cs w))]. split; [reflexivity|].
      right. left. exists [], [], r, rest. auto 10. }
    destruct (read_err r) as [[|msg]|] eqn:He.
    { apply policy_last_quiet, extends_by_same. reflexivity. }
    { apply policy_last_quiet, extends_by_same. reflexivity. }
    assert (Hgo : Forall goes_on [r]) by (repeat constructor; assumption).
    destruct (1 <? String.length (data r))%nat eqn:Hlen.
    2:{ apply (policy_last_after env [r] rest w w); auto.
        apply extends_by_same. reflexivity. }
    apply Nat.ltb_lt in Hlen.
    destruct (Unmarshal_req env (data r)) as [err|req] eqn:Hu.
    { exists [ApplyMalformedPolicy (ip (cs w))]. split; [reflexivity|].
      right. right. exists [], [], r, rest, err. unfold undecodable. auto 12. }
    unfold bind at 1. unfold setDeadline, emit.
    assert (H1 : extends_by no_policy w
                   (snd (handleTCPMessage env req (with_trace SetDeadline w)))).
    { apply (extends_by_trans _ _ (with_trace SetDeadline w)).
      - apply extends_by_event. exact I.
      - apply handleTCPMessage_no_policy. }
    assert (Hip : ip (cs (snd (handleTCPMessage env req (with_trace SetDeadline w)))) =
                  ip (cs w)).
    { change (ip (cs (snd (handleTCPMessage env req (with_trace SetDeadline w)))) =
              ip (cs (with_trace SetDeadline w))).
      apply (keeps_handleTCPMessage (fun w => ip (cs w))); intros; reflexivity. }
    unfold bind.
    destruct (handleTCPMessage env req (with_trace SetDeadline w)) as [[[e|]| |] w1];
      cbn [snd] in *; try (now apply policy_last_quiet).
    apply (policy_last_after env [r] rest w w1); auto.
Qed.

(** X26. The calls of the policy in handleTCPClient, among the events of
    a connection (a call of handleLoginRPC, handleGetWorkRPC,
    handleTCPSubmitRPC or handleUnknownRPC, which are not among the
    sources, is one event, and what they do inside is not described).
    When the reader reaches a line that did not fit the buffer it calls
    BanClient with the ip of the session and returns the error of that
    read; when it reaches a complete line of more than one byte that
    does not decode it calls ApplyMalformedPolicy with that ip and
    returns the decoding error. Conversely, in all that the reader does
    the policy is called at most once, as the very last event: BanClient
    only after such an oversized read, ApplyMalformedPolicy only after
    such an undecodable line, and every read before it was complete and
    without error. *)
Theorem policy_is_the_readers_last_act env :
  (forall before r after w w1,
     passes env before (with_trace SetDeadline w) w1 ->
     (isPrefix r = true ->
      handleTCPClient env (before ++ r :: after) w =
        (Val (read_err r), with_trace (BanClient (ip (cs w1))) w1))
     /\ (forall err, undecodable env r err ->
         handleTCPClient env (before ++ r :: after) w =
           (Val (Some err), with_trace (ApplyMalformedPolicy (ip (cs w1))) w1)))
  /\ (forall reads w, policy_last env reads w (handleTCPClient env reads w)).
Proof.
  split.
  - intros before r after w w1 Hpass.
    rewrite handleTCPClient_read_loop, (Hpass (r :: after)). cbn [read_loop]. split.
    + intros ->. reflexivity.
    + intros err (Hp & He & Hlen & Hu). rewrite Hp, He, Hu.
      apply Nat.ltb_lt in Hlen. rewrite Hlen. reflexivity.
  - intros reads w. rewrite handleTCPClient_read_loop.
    apply (policy_last_after env [] reads w (with_trace SetDeadline w));
      [constructor | apply extends_by_event; exact I | reflexivity |].
    apply read_loop_policy_last.
Qed.

Lemma policy_is_the_readers_last_act_witness :
  handleTCPClient Demo.env [Demo.blank_line; Demo.garbage_line] Demo.world =
    (Val (Some (Err "invalid character")),
     with_trace (ApplyMalformedPolicy "10.0.0.1") (with_trace SetDeadline Demo.world)).
Proof.
  apply (proj2 (proj1 (policy_is_the_readers_last_act Demo.env)
                  [Demo.blank_line] Demo.garbage_line [] Demo.world
                  (with_trace SetDeadline Demo.world) (fun tl => eq_refl))
           (Err "invalid character")).
  repeat split. simpl. lia.
Defined.
